(** * NYC Citi Bike station status: a shallow embedding of [helpers.py] and
    of the stateful core of [app.py], with the properties of the
    reconciliation, filtering, proximity and routing pipeline.

    Modelling conventions.

    - Python values are the inductive [value].  [VNull] is None, and in a
      frame the missing cell (None, NaN, NaT, pd.NA).  A float is the
      rational it stands for, [VFloat q], or one of NaN, inf and -inf,
      [VNonFinite]; in a frame a float NaN counts as a missing cell.  The
      distances of geopy are taken as rationals; the float arithmetic the
      code does itself, the division and rounding of the route duration,
      follows IEEE 754 doubles ([to_double]).
    - A pandas DataFrame is an ordered list of column names plus a list of
      labelled rows; a row maps a column name to its cell.  Only the cells
      of the listed columns are meaningful.  Column dtypes are not tracked.
    - DataFrames are mutable objects: they live in a store ([frames]) and
      the program holds references to them.  [df.copy()], [df[mask]],
      [reset_index], [merge], [concat] allocate a new object;
      [df[col] = ...] updates the object in place.
    - Python exceptions are the [Raise] outcome of the monad [M]; the store
      keeps every update made before the exception.
    - pandas follows the 2.x line (the one Streamlit could be installed
      with when this code was written); the external services (geodesic
      distance, geocoder, HTTP) are section variables. *)

From Stdlib Require Import ZArith QArith Qround Qabs Qpower Ascii String List Lia Lqa DecimalString.
From stdpp Require Import base list gmap strings.

Open Scope string_scope.
Open Scope list_scope.

(** ** Python values, exceptions, outcomes *)

(** The floats that are no number: what [json.loads] reads from the
    literals NaN, Infinity and -Infinity or from a number beyond the range
    of a double, and what float arithmetic makes of them. *)
Inductive nonfinite : Type := NaN | PosInf | NegInf.

#[warnings="-register-all"]
Inductive value : Type :=
| VNull
| VBool (b : bool)
| VInt (z : Z)
| VFloat (q : Q)
| VStr (s : string)
| VTime (t : Q)
| VList (l : list value)
| VDict (d : list (string * value))
| VNonFinite (x : nonfinite).

Inductive exn : Type :=
| KeyError (k : string)
| ValueError
| TypeError
| AttributeError
| IndexError
| JSONDecodeError
| URLError
| RequestException
| Dangling
| OverflowError.

Inductive outcome (A : Type) : Type :=
| Ok (a : A)
| Raise (e : exn).

Arguments Ok {A} a.
Arguments Raise {A} e.

#[export] Instance outcome_ret : MRet outcome := λ A a, Ok a.
#[export] Instance outcome_bind : MBind outcome :=
  λ A B f o, match o with Ok a => f a | Raise e => Raise e end.

Fixpoint traverse {A B : Type} (f : A → outcome B) (l : list A) : outcome (list B) :=
  match l with
  | [] => Ok []
  | a :: l' =>
      match f a with
      | Ok b => match traverse f l' with Ok bs => Ok (b :: bs) | Raise e => Raise e end
      | Raise e => Raise e
      end
  end.

Definition string_of_Z (z : Z) : string := NilZero.string_of_int (Z.to_int z).

Definition Qlt_bool (x y : Q) : bool := negb (Qle_bool y x).

(** The number a cell stands for in arithmetic and comparisons
    ([True] is 1, [False] is 0). *)
Definition as_number (v : value) : option Q :=
  match v with
  | VBool b => Some (if b then 1 else 0)%Q
  | VInt z => Some (inject_Z z)
  | VFloat q => Some q
  | _ => None
  end.

(** [v > n], [v >= n], [v == n] on one cell: NaN compares false, inf is
    above and -inf below every number, a string, a timestamp or a container
    against a number raises [TypeError] for the orderings and is unequal
    for [==]. *)
Definition py_gt (n : Q) (v : value) : outcome bool :=
  match v with
  | VNull | VNonFinite NaN | VNonFinite NegInf => Ok false
  | VNonFinite PosInf => Ok true
  | _ => match as_number v with
         | Some q => Ok (Qlt_bool n q)
         | None => Raise TypeError
         end
  end.

Definition py_ge (n : Q) (v : value) : outcome bool :=
  match v with
  | VNull | VNonFinite NaN | VNonFinite NegInf => Ok false
  | VNonFinite PosInf => Ok true
  | _ => match as_number v with
         | Some q => Ok (Qle_bool n q)
         | None => Raise TypeError
         end
  end.

Definition py_eq (n : Q) (v : value) : bool :=
  match as_number v with
  | Some q => Qeq_bool q n
  | None => false
  end.

(** Python truthiness of the values the session stores. *)
Definition truthy (v : value) : bool :=
  match v with
  | VNull => false
  | VBool b => b
  | VInt z => negb (z =? 0)%Z
  | VFloat q => negb (Qeq_bool q 0)
  | VStr s => negb (String.eqb s "")
  | VTime _ => true
  | VList l => match l with [] => false | _ => true end
  | VDict d => match d with [] => false | _ => true end
  | VNonFinite _ => true
  end.

(** ** DataFrames *)

Definition row : Type := string → value.

Record DataFrame : Type := mkDataFrame {
  columns : list string;
  rows : list (Z * row)
}.

(** A Series taken from a frame: the frame's labels with one cell each. *)
Definition Series : Type := list (Z * value).

Definition NoFrame : DataFrame := mkDataFrame [] [].

Definition has_column (c : string) (df : DataFrame) : bool :=
  bool_decide (c ∈ columns df).

(** [df.empty]: no column or no row. *)
Definition df_empty (df : DataFrame) : bool :=
  match columns df, rows df with
  | [], _ => true
  | _, [] => true
  | _, _ => false
  end.

Definition upd (r : row) (c : string) (v : value) : row :=
  λ c', if String.eqb c' c then v else r c'.

Definition add_column (c : string) (cols : list string) : list string :=
  if bool_decide (c ∈ cols) then cols else cols ++ [c].

(** [df[c]] *)
Definition column (c : string) (df : DataFrame) : outcome Series :=
  if has_column c df
  then Ok (map (λ ir : Z * row, (ir.1, ir.2 c)) (rows df))
  else Raise (KeyError c).

(** [row[c]] on a row of [df] *)
Definition row_getitem (cols : list string) (r : row) (c : string) : outcome value :=
  if bool_decide (c ∈ cols) then Ok (r c) else Raise (KeyError c).

(** [df[c] = v] for a scalar [v] *)
Definition assign_scalar (c : string) (v : value) (df : DataFrame) : DataFrame :=
  mkDataFrame (add_column c (columns df))
              (map (λ ir : Z * row, (ir.1, upd ir.2 c v)) (rows df)).

(** [df[c] = s] for a Series [s] carrying the index of [df]: cell by cell,
    in order; a row beyond the end of [s] gets NaN. *)
Fixpoint set_cells (c : string) (rs : list (Z * row)) (vals : list value)
  : list (Z * row) :=
  match rs with
  | [] => []
  | ir :: rs' => (ir.1, upd ir.2 c (hd VNull vals)) :: set_cells c rs' (tl vals)
  end.

Definition assign_series (c : string) (s : Series) (df : DataFrame) : DataFrame :=
  mkDataFrame (add_column c (columns df)) (set_cells c (rows df) (map snd s)).

(** [df[mask]] for a boolean Series carrying the index of [df]. *)
Fixpoint take_rows (rs : list (Z * row)) (mask : list bool) : list (Z * row) :=
  match rs, mask with
  | ir :: rs', b :: mask' =>
      if b then ir :: take_rows rs' mask' else take_rows rs' mask'
  | _, _ => []
  end.

Definition boolean_index (mask : list bool) (df : DataFrame) : DataFrame :=
  mkDataFrame (columns df) (take_rows (rows df) mask).

(** [df.reset_index(drop=True)]: labels 0, 1, 2, ... *)
Fixpoint relabel (n : Z) (rs : list (Z * row)) : list (Z * row) :=
  match rs with
  | [] => []
  | ir :: rs' => (n, ir.2) :: relabel (n + 1) rs'
  end.

Definition reset_index_drop (df : DataFrame) : DataFrame :=
  mkDataFrame (columns df) (relabel 0 (rows df)).

(** [df.apply(f, axis=1)]: [f] on each row in order, stopping at the first
    exception; the result is a Series.  On an empty frame (no row or no
    column) pandas instead calls [f] once on a row of NaN: when that call
    raises, the result is a copy of the frame itself, otherwise a Series
    over the labels (empty for a frame without rows; the lambdas this
    program applies always raise on a row of NaN). *)
Inductive applied : Type :=
| Applied_series (s : Series)
| Applied_frame (d : DataFrame).

Definition apply_series (f : (string → outcome value) → outcome value)
    (df : DataFrame) : outcome Series :=
  traverse (λ ir : Z * row,
              match f (row_getitem (columns df) ir.2) with
              | Ok v => Ok (ir.1, v)
              | Raise e => Raise e
              end) (rows df).

Definition apply_axis1 (f : (string → outcome value) → outcome value)
    (df : DataFrame) : outcome applied :=
  if df_empty df
  then match f (row_getitem (columns df) (λ _, VNull)) with
       | Ok _ => Ok (Applied_series [])
       | Raise _ => Ok (Applied_frame df)
       end
  else match apply_series f df with
       | Ok s => Ok (Applied_series s)
       | Raise e => Raise e
       end.

(** [s > n], [s >= n], [s == n] cell by cell *)
Definition series_gt (n : Q) (s : Series) : outcome (list bool) :=
  traverse (λ iv : Z * value, py_gt n iv.2) s.

Definition series_ge (n : Q) (s : Series) : outcome (list bool) :=
  traverse (λ iv : Z * value, py_ge n iv.2) s.

Definition series_eq (n : Q) (s : Series) : list bool :=
  map (λ iv : Z * value, py_eq n iv.2) s.

Fixpoint mask_or (a b : list bool) : list bool :=
  match a, b with
  | x :: a', y :: b' => (x || y) :: mask_or a' b'
  | _, _ => []
  end.

Fixpoint mask_and (a b : list bool) : list bool :=
  match a, b with
  | x :: a', y :: b' => (x && y) :: mask_and a' b'
  | _, _ => []
  end.

(** [s.idxmin()] on a column of numbers, as the distance column is: the
    label of the first smallest cell, NaN skipped; [ValueError] when nothing
    is left. *)
Fixpoint argmin (best : option (Z * Q)) (s : Series) : outcome (option (Z * Q)) :=
  match s with
  | [] => Ok best
  | iv :: s' =>
      match iv.2 with
      | VNull | VNonFinite NaN => argmin best s'
      | v =>
          match as_number v with
          | Some q =>
              argmin (match best with
                      | Some (j, m) => if Qlt_bool q m then Some (iv.1, q) else best
                      | None => Some (iv.1, q)
                      end) s'
          | None => Raise TypeError
          end
      end
  end.

Definition idxmin (s : Series) : outcome Z :=
  match argmin None s with
  | Ok (Some (i, _)) => Ok i
  | Ok None => Raise ValueError
  | Raise e => Raise e
  end.

(** [df.loc[i]] with unique labels: the row labelled [i]. *)
Definition loc (i : Z) (df : DataFrame) : outcome row :=
  match List.find (λ ir : Z * row, (ir.1 =? i)%Z) (rows df) with
  | Some ir => Ok ir.2
  | None => Raise (KeyError (string_of_Z i))
  end.

(** ** The store and the monad of the program *)

Definition ref : Type := nat.

Record world : Type := mkWorld {
  frames : list DataFrame;
  session_state : gmap string value;
  notices : list string
}.

Definition M (A : Type) : Type := world → outcome A * world.

#[export] Instance M_ret : MRet M := λ A a w, (Ok a, w).
#[export] Instance M_bind : MBind M :=
  λ A B f m w,
    match m w with
    | (Ok a, w') => f a w'
    | (Raise e, w') => (Raise e, w')
    end.

Definition lift {A : Type} (o : outcome A) : M A := λ w, (o, w).

Definition set_frames (f : list DataFrame → list DataFrame) (w : world) : world :=
  mkWorld (f (frames w)) (session_state w) (notices w).

Definition deref (r : ref) : M DataFrame :=
  λ w, match frames w !! r with
       | Some d => (Ok d, w)
       | None => (Raise Dangling, w)
       end.

Definition alloc (d : DataFrame) : M ref :=
  λ w, (Ok (length (frames w)), set_frames (λ h, h ++ [d]) w).

Definition store (r : ref) (d : DataFrame) : M unit :=
  λ w, (Ok tt, set_frames (λ h, <[r := d]> h) w).

(** pandas methods on references *)
Definition DataFrame_copy (r : ref) : M ref := d ← deref r; alloc d.
Definition reset_index (r : ref) : M ref := d ← deref r; alloc (reset_index_drop d).
Definition contains_column (c : string) (r : ref) : M bool :=
  d ← deref r; mret (has_column c d).
Definition getitem (r : ref) (c : string) : M Series := d ← deref r; lift (column c d).
Definition setitem_scalar (r : ref) (c : string) (v : value) : M unit :=
  d ← deref r; store r (assign_scalar c v d).
Definition setitem (r : ref) (c : string) (s : Series) : M unit :=
  d ← deref r; store r (assign_series c s d).
Definition getitem_mask (r : ref) (mask : list bool) : M ref :=
  d ← deref r; alloc (boolean_index mask d).
Definition apply_rows (r : ref) (f : (string → outcome value) → outcome value)
  : M applied := d ← deref r; lift (apply_axis1 f d).

(** [df[c] = a] for the result [a] of [apply]: a frame can only be assigned
    to one column when it has exactly one column itself. *)
Definition setitem_applied (r : ref) (c : string) (a : applied) : M unit :=
  match a with
  | Applied_series s => setitem r c s
  | Applied_frame v =>
      match columns v with
      | [c0] => s ← lift (column c0 v); setitem r c s
      | _ => lift (Raise ValueError)
      end
  end.
Definition is_empty (r : ref) : M bool := d ← deref r; mret (df_empty d).
Definition loc_row (r : ref) (i : Z) : M (string → outcome value) :=
  d ← deref r; x ← lift (loc i d); mret (row_getitem (columns d) x).

(** ** More of pandas: building, cleaning and joining frames *)

Definition dict_get (d : list (string * value)) (k : string) : option value :=
  match List.find (λ kv : string * value, String.eqb kv.1 k) d with
  | Some kv => Some kv.2
  | None => None
  end.

(** [v[k]] for a string key and [v[i]] for a position *)
Definition subscript_key (v : value) (k : string) : outcome value :=
  match v with
  | VDict d => match dict_get d k with Some x => Ok x | None => Raise (KeyError k) end
  | _ => Raise TypeError
  end.

Definition subscript_pos (v : value) (i : nat) : outcome value :=
  match v with
  | VList l => match l !! i with Some x => Ok x | None => Raise IndexError end
  | VStr s => match String.get i s with
              | Some a => Ok (VStr (String a EmptyString))
              | None => Raise IndexError
              end
  | VDict d => Raise (KeyError (string_of_Z (Z.of_nat i)))
  | _ => Raise TypeError
  end.

(** The elements a [for] loop or an unpacking draws from a value. *)
Definition iterate (v : value) : outcome (list value) :=
  match v with
  | VList l => Ok l
  | VDict d => Ok (map (λ kv : string * value, VStr kv.1) d)
  | VStr s => Ok (map (λ a, VStr (String a EmptyString)) (list_ascii_of_string s))
  | _ => Raise TypeError
  end.

Definition record_row (d : list (string * value)) : row :=
  λ c, match dict_get d c with Some v => v | None => VNull end.

Fixpoint union_keys (seen : list string) (recs : list (list (string * value)))
  : list string :=
  match recs with
  | [] => seen
  | d :: recs' =>
      union_keys
        (fold_left (λ acc (kv : string * value),
                      if bool_decide (kv.1 ∈ acc) then acc else acc ++ [kv.1]) d seen)
        recs'
  end.

(** [pd.DataFrame(records)] for a list of flat records: the columns are the
    keys in order of first appearance, a key a record lacks is NaN, the
    labels are 0, 1, 2, ...; an element that is not a record counts as the
    empty record. *)
Definition as_record (v : value) : list (string * value) :=
  match v with VDict d => d | _ => [] end.

Definition frame_of_records (recs : list value) : DataFrame :=
  mkDataFrame (union_keys [] (map as_record recs))
              (relabel 0 (map (λ v, (0%Z, record_row (as_record v))) recs)).

Definition DataFrame_of (v : value) : outcome DataFrame :=
  match v with
  | VList recs => Ok (frame_of_records recs)
  | _ => Raise ValueError
  end.

(** Equality of two cells as [drop_duplicates] sees it (missing cells are
    equal to one another). *)
Definition cell_eqb (a b : value) : bool :=
  match a, b with
  | VNull, VNull | VNull, VNonFinite NaN | VNonFinite NaN, VNull
  | VNonFinite NaN, VNonFinite NaN
  | VNonFinite PosInf, VNonFinite PosInf | VNonFinite NegInf, VNonFinite NegInf => true
  | VStr x, VStr y => String.eqb x y
  | VTime x, VTime y => Qeq_bool x y
  | _, _ => match as_number a, as_number b with
            | Some x, Some y => Qeq_bool x y
            | _, _ => false
            end
  end.

Fixpoint cells_eqb (a b : list value) : bool :=
  match a, b with
  | [], [] => true
  | x :: a', y :: b' => cell_eqb x y && cells_eqb a' b'
  | _, _ => false
  end.

Fixpoint keep_first (key : row → list value) (seen : list (list value))
    (rs : list (Z * row)) : list (Z * row) :=
  match rs with
  | [] => []
  | ir :: rs' =>
      if existsb (cells_eqb (key ir.2)) seen
      then keep_first key seen rs'
      else ir :: keep_first key (key ir.2 :: seen) rs'
  end.

(** [df.drop_duplicates(subset)] *)
Definition drop_duplicates_of (subset : list string) (df : DataFrame)
  : outcome DataFrame :=
  match List.find (λ c, negb (has_column c df)) subset with
  | Some c => Raise (KeyError c)
  | None =>
      Ok (mkDataFrame (columns df)
            (keep_first (λ r, map r subset) [] (rows df)))
  end.

(** [pd.to_datetime(x, unit='s', utc=True)] on one cell *)
Definition to_datetime (v : value) : outcome value :=
  match v with
  | VNull | VNonFinite NaN => Ok VNull
  | VInt z => Ok (VTime (inject_Z z))
  | VFloat q => Ok (VTime q)
  | VTime t => Ok (VTime t)
  | VStr _ | VNonFinite _ => Raise ValueError
  | _ => Raise TypeError
  end.

Definition series_map (f : value → outcome value) (s : Series) : outcome Series :=
  traverse (λ iv : Z * value,
          match f iv.2 with Ok v => Ok (iv.1, v) | Raise e => Raise e end) s.

(** [pd.json_normalize(s)] for a Series [s] in pandas 2.x: the cells are
    taken as a plain list ([list(data)]), so the labels of [s] are lost and
    the result is labelled 0, 1, 2, ... *)
Definition json_normalize_of (s : Series) : DataFrame :=
  frame_of_records (map snd s).

Definition map_cells (f : value → outcome value) (df : DataFrame)
  : outcome DataFrame :=
  match
    traverse (λ ir : Z * row,
            match traverse (λ c, f (ir.2 c)) (columns df) with
            | Ok vs =>
                Ok (ir.1,
                    (λ c, match dict_get (combine (columns df) vs) c with
                          | Some v => v
                          | None => VNull
                          end) : row)
            | Raise e => Raise e
            end) (rows df)
  with
  | Ok rs => Ok (mkDataFrame (columns df) rs)
  | Raise e => Raise e
  end.

(** [pd.isna] on one cell *)
Definition isna (v : value) : bool :=
  match v with VNull | VNonFinite NaN => true | _ => false end.

(** [.fillna(0)] and [.astype(int)] on one cell *)
Definition fillna0 (v : value) : outcome value :=
  if isna v then Ok (VInt 0) else Ok v.

Definition astype_int (v : value) : outcome value :=
  match v with
  | VInt z => Ok (VInt z)
  | VBool b => Ok (VInt (if b then 1 else 0))
  | VFloat q => Ok (VInt (Qnum q ÷ Zpos (Qden q)))
  | VNull | VStr _ | VNonFinite _ => Raise ValueError
  | _ => Raise TypeError
  end.

Definition lower_ascii (a : ascii) : ascii :=
  let n := nat_of_ascii a in
  if (65 <=? n)%nat && (n <=? 90)%nat then ascii_of_nat (n + 32) else a.

Fixpoint lower (s : string) : string :=
  match s with
  | EmptyString => EmptyString
  | String a s' => String (lower_ascii a) (lower s')
  end.

(** [df.columns = [f(c) for c in df.columns]]: a cell is found under the
    new name of its column. *)
Definition rename_columns (f : string → string) (df : DataFrame) : DataFrame :=
  mkDataFrame (map f (columns df))
    (map (λ ir : Z * row,
            (ir.1,
             (λ c, match List.find (λ o, String.eqb (f o) c) (columns df) with
                   | Some o => ir.2 o
                   | None => VNull
                   end) : row)) (rows df)).

(** [df.drop(columns=cs)] *)
Definition drop_columns_of (cs : list string) (df : DataFrame) : outcome DataFrame :=
  match List.find (λ c, negb (has_column c df)) cs with
  | Some c => Raise (KeyError c)
  | None =>
      Ok (mkDataFrame (List.filter (λ c, negb (bool_decide (c ∈ cs))) (columns df))
                      (rows df))
  end.

(** [df[cs]] for a list of column names *)
Definition select_columns_of (cs : list string) (df : DataFrame) : outcome DataFrame :=
  match List.find (λ c, negb (has_column c df)) cs with
  | Some c => Raise (KeyError c)
  | None => Ok (mkDataFrame cs (rows df))
  end.

Definition row_at (i : Z) (rs : list (Z * row)) : option row :=
  match List.find (λ ir : Z * row, (ir.1 =? i)%Z) rs with
  | Some ir => Some ir.2
  | None => None
  end.

(** [pd.concat([a, b], axis=1)] with uniquely labelled frames: the rows are
    aligned on their labels (outer join: the labels of [a], then those of
    [b] that [a] lacks); a frame that lacks a label contributes NaN. *)
Definition concat_axis1 (a b : DataFrame) : DataFrame :=
  let labels :=
    map fst (rows a) ++
    List.filter (λ i, negb (existsb (Z.eqb i) (map fst (rows a)))) (map fst (rows b)) in
  mkDataFrame (columns a ++ columns b)
    (map (λ i : Z,
            (i, (λ c, if bool_decide (c ∈ columns a)
                      then match row_at i (rows a) with Some r => r c | None => VNull end
                      else if bool_decide (c ∈ columns b)
                      then match row_at i (rows b) with Some r => r c | None => VNull end
                      else VNull) : row)) labels).

(** [left.merge(right, how='left', on=key)]: every row of [left], in order,
    once per row of [right] with the same key, or once with NaN in the
    columns of [right] when there is none.  A column other than the key
    that both frames have is suffixed [_x] on the left and [_y] on the
    right.  The keys are strings here. *)
Definition suffixed (key : string) (others : list string) (sfx c : string) : string :=
  if String.eqb c key then c
  else if bool_decide (c ∈ others) then (c +:+ sfx)%string else c.

Definition renamed_cell (ren : string → string) (cols : list string) (r : row)
    (c : string) : option value :=
  match List.find (λ o, String.eqb (ren o) c) cols with
  | Some o => Some (r o)
  | None => None
  end.

Definition without (key : string) (cols : list string) : list string :=
  List.filter (λ c, negb (String.eqb c key)) cols.

Definition merged_row (key : string) (lcols rcols : list string)
    (lr : row) (rr : option row) : row :=
  λ c,
    match renamed_cell (suffixed key rcols "_x") lcols lr c with
    | Some v => v
    | None =>
        match rr with
        | Some r =>
            match renamed_cell (suffixed key lcols "_y") (without key rcols) r c with
            | Some v => v
            | None => VNull
            end
        | None => VNull
        end
    end.

Definition matches (key : string) (lr : row) (right : DataFrame) : list row :=
  map snd (List.filter (λ ir : Z * row, cell_eqb (ir.2 key) (lr key)) (rows right)).

Definition merge_left_on (key : string) (left right : DataFrame)
  : outcome DataFrame :=
  if negb (has_column key left) then Raise (KeyError key)
  else if negb (has_column key right) then Raise (KeyError key)
  else
    Ok (mkDataFrame
          (map (suffixed key (columns right) "_x") (columns left) ++
           map (suffixed key (columns left) "_y") (without key (columns right)))
          (relabel 0
             (flat_map
                (λ ir : Z * row,
                   match matches key ir.2 right with
                   | [] => [(0%Z, merged_row key (columns left) (columns right) ir.2 None)]
                   | ms => map (λ r, (0%Z, merged_row key (columns left) (columns right)
                                              ir.2 (Some r))) ms
                   end) (rows left)))).

(** ** helpers.py: the proximity resolvers *)

Section Proximity.

(** [geopy.distance.geodesic(p, q).km] on two valid points, as a rational. *)
Variable geodesic_km : Q * Q → Q * Q → Q.

(** geopy refuses a latitude outside [-90, 90] and a coordinate that is not
    finite; longitudes are normalised. *)
Definition valid_latitude (lat : Q) : bool :=
  Qle_bool (-(90 # 1)) lat && Qle_bool lat (90 # 1).

Definition point_of (lat lon : value) : outcome (Q * Q) :=
  match lat, lon with
  | VNull, _ | _, VNull | VNonFinite _, _ | _, VNonFinite _ => Raise ValueError
  | _, _ =>
      match as_number lat, as_number lon with
      | Some a, Some o => if valid_latitude a then Ok (a, o) else Raise ValueError
      | _, _ => Raise TypeError
      end
  end.

Definition geodesic (latlon : Q * Q) (lat lon : value) : outcome value :=
  if valid_latitude latlon.1
  then p ← point_of lat lon; Ok (VFloat (geodesic_km latlon p))
  else Raise ValueError.

(** The lambda of [df.apply]: [geodesic(latlon, (row['lat'], row['lon'])).km] *)
Definition distance_of (latlon : Q * Q) (rw : string → outcome value) : outcome value :=
  lat ← rw "lat"; lon ← rw "lon"; geodesic latlon lat lon.

Definition get_bike_availability (latlon : Q * Q) (df : ref)
    (input_bike_modes : list string) : M (option (list value)) :=
  df ← (c ← DataFrame_copy df; reset_index c);
  has ← contains_column "mechanical" df;
  _ ← (if negb has then setitem_scalar df "mechanical" (VInt 0) else mret tt);
  has ← contains_column "ebike" df;
  _ ← (if negb has then setitem_scalar df "ebike" (VInt 0) else mret tt);
  dist ← apply_rows df (distance_of latlon);
  _ ← setitem_applied df "distance" dist;
  df ← match input_bike_modes with
       | [mode] =>
           has ← contains_column mode df;
           if (has : bool)
           then s ← getitem df mode; m ← lift (series_gt 0 s); getitem_mask df m
           else mret df
       | _ =>
           s1 ← getitem df "mechanical"; m1 ← lift (series_gt 0 s1);
           s2 ← getitem df "ebike"; m2 ← lift (series_gt 0 s2);
           getitem_mask df (mask_or m1 m2)
       end;
  s ← getitem df "num_bikes_available"; m ← lift (series_gt 0 s);
  df ← getitem_mask df m;
  e ← is_empty df;
  if (e : bool) then mret None
  else
    d ← getitem df "distance"; i ← lift (idxmin d);
    closest ← loc_row df i;
    sid ← lift (closest "station_id");
    lat ← lift (closest "lat");
    lon ← lift (closest "lon");
    mret (Some [sid; lat; lon]).

Definition get_dock_availability (latlon : Q * Q) (df : ref)
  : M (option (list value)) :=
  df ← (c ← DataFrame_copy df; reset_index c);
  dist ← apply_rows df (distance_of latlon);
  _ ← setitem_applied df "distance" dist;
  s ← getitem df "num_docks_available"; m ← lift (series_gt 0 s);
  df ← getitem_mask df m;
  e ← is_empty df;
  if (e : bool) then mret None
  else
    d ← getitem df "distance"; i ← lift (idxmin d);
    closest ← loc_row df i;
    sid ← lift (closest "station_id");
    lat ← lift (closest "lat");
    lon ← lift (closest "lon");
    mret (Some [sid; lat; lon]).

End Proximity.

(** ** helpers.py: the feeds and their reconciliation *)

Definition NYC_GBFS_BASE_URL : string := "https://gbfs.citibikenyc.com/gbfs/en".
Definition NYC_STATION_STATUS_URL : string :=
  (NYC_GBFS_BASE_URL +:+ "/station_status.json")%string.
Definition NYC_STATION_INFO_URL : string :=
  (NYC_GBFS_BASE_URL +:+ "/station_information.json")%string.

Definition st_notice (msg : string) : M unit :=
  λ w, (Ok tt, mkWorld (frames w) (session_state w) (notices w ++ [msg])).

Definition new_frame (o : outcome DataFrame) : M ref := d ← lift o; alloc d.

Section Feeds.

(** [str(x)] for the cells whose text is not modelled (floats, timestamps,
    containers). *)
Variable py_repr : value → string.

(** [json.loads(urlopen(url).read().decode())]: the decoded feed, or the
    exception ([URLError] when the endpoint cannot be reached). *)
Variable urlopen_json : string → outcome value.

(** [str(x)] as [.astype(str)] applies it to one cell *)
Definition str_of (v : value) : string :=
  match v with
  | VStr s => s
  | VInt z => string_of_Z z
  | VBool b => if b then "True" else "False"
  | VNull => "nan"
  | _ => py_repr v
  end.

Definition astype_str (v : value) : outcome value := Ok (VStr (str_of v)).

Definition synthesize (col : string) (df : ref) : M unit :=
  has ← contains_column col df;
  if negb has then setitem_scalar df col (VInt 0) else mret tt.

Definition query_station_status (url : string) : M ref :=
  match urlopen_json url with
  | Raise URLError =>
      st_notice "Unable to reach Citi Bike status endpoint";;
      alloc NoFrame
  | Raise e => lift (Raise e)
  | Ok data =>
      df ← new_frame (d ← subscript_key data "data";
                      st ← subscript_key d "stations";
                      DataFrame_of st);
      e ← is_empty df;
      if (e : bool) then mret df
      else
        renting ← getitem df "is_renting";
        returning ← getitem df "is_returning";
        df ← getitem_mask df (mask_and (series_eq 1 renting) (series_eq 1 returning));
        df ← (d ← deref df;
              new_frame (drop_duplicates_of ["station_id"; "last_reported"] d));
        s ← getitem df "last_reported";
        t ← lift (series_map to_datetime s);
        setitem df "last_reported" t;;
        t ← lift (u ← subscript_key data "last_updated"; to_datetime u);
        setitem_scalar df "last_updated" t;;
        has ← contains_column "num_bikes_available_types" df;
        df ← (if (has : bool)
              then
                s ← getitem df "num_bikes_available_types";
                bike_types ← alloc (json_normalize_of s);
                bike_types ← (d ← deref bike_types; new_frame (map_cells fillna0 d));
                bike_types ← (d ← deref bike_types; new_frame (map_cells astype_int d));
                (d ← deref bike_types; store bike_types (rename_columns lower d));;
                dropped ← (d ← deref df;
                           new_frame (drop_columns_of ["num_bikes_available_types"] d));
                a ← deref dropped; b ← deref bike_types;
                alloc (concat_axis1 a b)
              else mret df);
        synthesize "mechanical" df;;
        synthesize "ebike" df;;
        s ← getitem df "station_id";
        t ← lift (series_map astype_str s);
        setitem df "station_id" t;;
        mret df
  end.

Definition get_station_latlon (url : string) : M ref :=
  match urlopen_json url with
  | Raise URLError =>
      st_notice "Unable to reach Citi Bike station info endpoint";;
      alloc NoFrame
  | Raise e => lift (Raise e)
  | Ok data =>
      latlon ← new_frame (d ← subscript_key data "data";
                          st ← subscript_key d "stations";
                          DataFrame_of st);
      e ← is_empty latlon;
      (if negb e
       then
         s ← getitem latlon "station_id";
         t ← lift (series_map astype_str s);
         setitem latlon "station_id" t
       else mret tt);;
      mret latlon
  end.

Definition merge_columns : list string :=
  ["station_id"; "lat"; "lon"; "name"; "capacity"; "region_id"].

Definition join_latlon (df1 df2 : ref) : M ref :=
  e1 ← is_empty df1;
  e2 ← (if (e1 : bool) then mret true else is_empty df2);
  if (e2 : bool) then alloc NoFrame
  else
    df1 ← DataFrame_copy df1;
    df2 ← DataFrame_copy df2;
    s ← getitem df1 "station_id";
    t ← lift (series_map astype_str s);
    setitem df1 "station_id" t;;
    s ← getitem df2 "station_id";
    t ← lift (series_map astype_str s);
    setitem df2 "station_id" t;;
    d2 ← deref df2;
    let available_cols := List.filter (λ col, has_column col d2) merge_columns in
    right ← new_frame (select_columns_of available_cols d2);
    l ← deref df1; r ← deref right;
    new_frame (merge_left_on "station_id" l r).

End Feeds.

(** ** helpers.py: the route adapter *)

Record response : Type := mkResponse {
  status_code : Z;
  json : outcome value
}.

(** [r.raise_for_status()] *)
Definition raise_for_status (r : response) : outcome unit :=
  if (400 <=? status_code r)%Z && (status_code r <? 600)%Z
  then Raise RequestException
  else Ok tt.

(** ** Python floats: IEEE 754 doubles *)

(** The nearest integer, a tie to the even one. *)
Definition round_half_even (q : Q) : Z :=
  let f := Qfloor q in
  match (q - inject_Z f) ?= (1 # 2) with
  | Lt => f
  | Gt => (f + 1)%Z
  | Eq => if Z.even f then f else (f + 1)%Z
  end%Q.

(** [2 ** e] *)
Definition pow2 (e : Z) : Q := (2 ^ e)%Q.

(** The [l] with [2 ** l <= q < 2 ** (l + 1)], for [q > 0]. *)
Definition log2_floor (q : Q) : Z :=
  let l := (Z.log2 (Qnum q) - Z.log2 (Zpos (Qden q)))%Z in
  if Qle_bool (pow2 l) q then l else (l - 1)%Z.

(** The exponent of the last place of the doubles next to [q]: 53 bits,
    down to [2 ** -1074] for the subnormal ones. *)
Definition ulp_exp (q : Q) : Z := Z.max (log2_floor (Qabs q) - 52) (-1074).

(** A Python float: the rational of a finite double, or NaN, inf, -inf. *)
Inductive float : Type :=
| Finite (q : Q)
| NonFinite (x : nonfinite).

Definition float_value (x : float) : value :=
  match x with Finite q => VFloat q | NonFinite n => VNonFinite n end.

(** Rounding to the nearest double, a tie to the even mantissa, inf past
    the largest double: what float arithmetic and the reading of a decimal
    do with their exact result. *)
Definition to_double (q : Q) : float :=
  if Qeq_bool q 0 then Finite 0
  else
    let e := ulp_exp q in
    let m := round_half_even (q / pow2 e) in
    let x := Qred (inject_Z m * pow2 e) in
    if Qle_bool (pow2 1024) (Qabs x)
    then NonFinite (if (0 <? m)%Z then PosInf else NegInf)
    else Finite x.

(** [round(x, 1)] on a float: NaN and the infinities are returned as they
    are; a finite [x] goes to the decimal with one digit nearest to its
    exact value (a tie to the even digit), and that decimal to the nearest
    double. *)
Definition round1 (x : float) : float :=
  match x with
  | Finite q => to_double (inject_Z (round_half_even (q * 10)) / 10)
  | NonFinite _ => x
  end.

(** [v / n] for an int [n > 0]: the quotient of two ints is rounded once
    ([OverflowError] past the doubles); a float is divided by the double of
    [n]; None, a string, a timestamp or a container raises [TypeError]. *)
Definition truediv (v : value) (n : positive) : outcome float :=
  let int_by_int (z : Z) :=
    match to_double (inject_Z z / inject_Z (Zpos n)) with
    | Finite q => Ok (Finite q)
    | NonFinite _ => Raise OverflowError
    end in
  match v with
  | VInt z => int_by_int z
  | VBool b => int_by_int (if b then 1 else 0)%Z
  | VFloat q =>
      match to_double (inject_Z (Zpos n)) with
      | Finite d =>
          match to_double q with
          | Finite x => Ok (to_double (x / d))
          | NonFinite i => Ok (NonFinite i)
          end
      | NonFinite _ => Raise OverflowError
      end
  | VNonFinite i =>
      match to_double (inject_Z (Zpos n)) with
      | Finite _ => Ok (NonFinite i)
      | NonFinite _ => Raise OverflowError
      end
  | _ => Raise TypeError
  end.

(** [[lat, lon] for lon, lat in coordinates]: one pair *)
Definition swap_pair (p : value) : outcome value :=
  l ← iterate p;
  match l with
  | [lon; lat] => Ok (VList [lat; lon])
  | _ => Raise ValueError
  end.

Section Routing.

Variable py_repr : value → string.

(** [requests.get(url, headers=headers, timeout=10)]: the response, or
    [RequestException] for a transport error or a timeout. *)
Variable requests_get : string → outcome response.

Definition osrm_url (chosen_station : list value) (iamhere : Q * Q) : outcome string :=
  lon ← subscript_pos (VList chosen_station) 2;
  lat ← subscript_pos (VList chosen_station) 1;
  let start := (py_repr (VFloat iamhere.2) +:+ "," +:+ py_repr (VFloat iamhere.1))%string in
  let end_ := (py_repr lon +:+ "," +:+ py_repr lat)%string in
  Ok ("http://router.project-osrm.org/route/v1/driving/" +:+ start +:+ ";" +:+ end_
      +:+ "?geometries=geojson")%string.

Definition run_osrm (chosen_station : list value) (iamhere : Q * Q)
  : outcome (value * value) :=
  url ← osrm_url chosen_station iamhere;
  match (r ← requests_get url; raise_for_status r;; Ok r) with
  | Raise RequestException => Ok (VNull, VNull)
  | Raise e => Raise e
  | Ok r =>
      routejson ← json r;
      routes ← match routejson with
               | VDict d => Ok (default (VList []) (dict_get d "routes"))
               | _ => Raise AttributeError
               end;
      if negb (truthy routes) then Ok (VNull, VNull)
      else
        route ← subscript_pos routes 0;
        geometry ← subscript_key route "geometry";
        cs ← subscript_key geometry "coordinates";
        pairs ← iterate cs;
        coordinates ← traverse swap_pair pairs;
        route ← subscript_pos routes 0;
        secs ← subscript_key route "duration";
        minutes ← truediv secs 60;
        Ok (VList coordinates, float_value (round1 minutes))
  end.

End Routing.

(** ** app.py: the filter engine and the session *)

Definition st_set (k : string) (v : value) : M unit :=
  λ w, (Ok tt, mkWorld (frames w) (<[k := v]> (session_state w)) (notices w)).

(** [if k not in st.session_state: st.session_state[k] = None] *)
Definition st_default (k : string) : M unit :=
  λ w, match session_state w !! k with
       | Some _ => (Ok tt, w)
       | None => st_set k VNull w
       end.

Definition tuple_of (p : Q * Q) : value := VList [VFloat p.1; VFloat p.2].

Definition nearest_value (n : option (list value)) : value :=
  match n with Some l => VList l | None => VNull end.

(** [s.str]: pandas refuses the accessor ([AttributeError]) unless the
    dtype it infers for the column is string, empty, bytes, mixed or
    mixed-integer.  A column whose dtype is not object is refused.  In an
    object column the missing cells are skipped: nothing left is "empty";
    numbers only, booleans only and timestamps only are refused; whatever
    else is left holds a string, a list or a dict or mixes kinds, and is
    accepted. *)
Definition is_number (v : value) : bool :=
  match v with VInt _ | VFloat _ | VNonFinite _ => true | _ => false end.

Definition is_boolean (v : value) : bool :=
  match v with VBool _ => true | _ => false end.

Definition is_timestamp (v : value) : bool :=
  match v with VTime _ => true | _ => false end.

Definition str_accessor (object_dtype : bool) (s : Series) : outcome unit :=
  if negb object_dtype then Raise AttributeError
  else
    match List.filter (λ v, negb (isna v)) (map snd s) with
    | [] => Ok tt
    | vals =>
        if forallb is_number vals || forallb is_boolean vals
           || forallb is_timestamp vals
        then Raise AttributeError
        else Ok tt
    end.

Section App.

(** The widgets of the sidebar, module globals of the script. *)
Variable min_bikes min_docks : Z.
Variable bike_type_value : option string.
Variable search_text : string.

(** The snapshot of the run, a module global too. *)
Variable stations_df : ref.

(** [re.compile(pat, re.IGNORECASE).search], or the exception of a pattern
    that does not compile. *)
Variable re_search : string → outcome (string → bool).

(** The dtype of the name column of the snapshot, which the frames do not
    record: [true] when it is object, the dtype of a column of strings
    (also when values or rows are missing), [false] for a numeric, boolean
    or datetime dtype. *)
Variable name_is_object : bool.

Variable geodesic_km : Q * Q → Q * Q → Q.
Variable py_repr : value → string.
Variable requests_get : string → outcome response.

(** [Nominatim(...).geocode(address)]: nothing found, or a location. *)
Variable geolocator_geocode : string → outcome (option (Q * Q)).

(** [s.str.contains(pat, case=False, na=False)]: the accessor, then the
    pattern; a cell that is no string does not match. *)
Definition str_contains (pat : string) (s : Series) : outcome (list bool) :=
  str_accessor name_is_object s;;
  found ← re_search pat;
  Ok (map (λ iv : Z * value, match iv.2 with VStr x => found x | _ => false end) s).

Definition chosen_mode : option string :=
  match bike_type_value with
  | Some mode => if truthy (VStr mode) then Some mode else None
  | None => None
  end.

Definition apply_filters (df : ref) : M ref :=
  filtered ← DataFrame_copy df;
  filtered ← (if (0 <? min_bikes)%Z
              then s ← getitem filtered "num_bikes_available";
                   m ← lift (series_ge (inject_Z min_bikes) s);
                   getitem_mask filtered m
              else mret filtered);
  filtered ← (if (0 <? min_docks)%Z
              then s ← getitem filtered "num_docks_available";
                   m ← lift (series_ge (inject_Z min_docks) s);
                   getitem_mask filtered m
              else mret filtered);
  filtered ← match chosen_mode with
             | Some mode =>
                 has ← contains_column mode filtered;
                 if (has : bool)
                 then s ← getitem filtered mode;
                      m ← lift (series_gt 0 s);
                      getitem_mask filtered m
                 else d ← deref filtered; alloc (mkDataFrame (columns d) [])
             | None => mret filtered
             end;
  has ← (if truthy (VStr search_text)
         then contains_column "name" filtered else mret false);
  filtered ← (if (has : bool)
              then s ← getitem filtered "name";
                   m ← lift (str_contains search_text s);
                   getitem_mask filtered m
              else mret filtered);
  mret filtered.

(** [geocode]: [None] stands for the empty string returned when the
    address is not found, [Some (lat, lon)] for the tuple. *)
Definition geocode (address : string) : outcome (option (Q * Q)) :=
  geolocator_geocode address.

Definition lookup_and_store_nearest (address lookup_type : string) : M unit :=
  coords ← lift (geocode address);
  match coords with
  | None => st_notice "Location not found. Please try a different address."
  | Some coords =>
      st_set "user_location" (tuple_of coords);;
      nearest ← (if String.eqb lookup_type "bike"
                 then
                   let modes := match chosen_mode with Some m => [m] | None => [] end in
                   nearest ← get_bike_availability geodesic_km coords stations_df modes;
                   st_set "nearest_bike_station" (nearest_value nearest);;
                   st_set "nearest_dock_station" VNull;;
                   mret nearest
                 else
                   nearest ← get_dock_availability geodesic_km coords stations_df;
                   st_set "nearest_dock_station" (nearest_value nearest);;
                   st_set "nearest_bike_station" VNull;;
                   mret nearest);
      match nearest with
      | Some station =>
          if truthy (VList station)
          then
            route ← lift (run_osrm py_repr requests_get station coords);
            st_set "route_coordinates" route.1;;
            st_set "route_duration" route.2
          else
            st_set "route_coordinates" VNull;;
            st_set "route_duration" VNull
      | None =>
          st_set "route_coordinates" VNull;;
          st_set "route_duration" VNull
      end
  end.

(** The part of the script that touches the session: the defaults of the
    five keys, then the dispatch of the two buttons. *)
Definition session_defaults : M unit :=
  st_default "user_location";;
  st_default "nearest_bike_station";;
  st_default "nearest_dock_station";;
  st_default "route_coordinates";;
  st_default "route_duration".

Definition dispatch (user_input_address : string)
    (find_bike_station find_dock_station : bool) : M unit :=
  if truthy (VStr user_input_address) && find_bike_station
  then lookup_and_store_nearest user_input_address "bike"
  else if truthy (VStr user_input_address) && find_dock_station
  then lookup_and_store_nearest user_input_address "dock"
  else mret tt.

Definition script (user_input_address : string)
    (find_bike_station find_dock_station : bool) : M unit :=
  session_defaults;;
  dispatch user_input_address find_bike_station find_dock_station.

End App.

(** The session states a browser session can be in: it starts with no key,
    and every run of the script, with whatever widgets, snapshot and
    service answers, takes it to the next one (also when the run ends in an
    exception). *)
Inductive reachable : gmap string value → Prop :=
| reachable_start : reachable ∅
| reachable_run (w : world) bike_type_value stations_df geodesic_km py_repr
    requests_get geolocator_geocode address find_bike find_dock :
    reachable (session_state w) →
    reachable
      (session_state
         (script bike_type_value stations_df geodesic_km py_repr requests_get
                 geolocator_geocode address find_bike find_dock w).2).

Definition stored (s : gmap string value) (k : string) : value :=
  default VNull (s !! k).

(** ** Vocabulary of the properties *)

(** The objects of [h0], the session and the notices are as they were. *)
Definition untouched (h0 : list DataFrame) (s0 : gmap string value)
    (n0 : list string) (w : world) : Prop :=
  h0 `prefix_of` frames w ∧ session_state w = s0 ∧ notices w = n0.

(** [m] only allocates, and only writes to objects allocated after [h0];
    every value it returns satisfies [post]. *)
Definition local {A : Type} (h0 : list DataFrame) (post : A → Prop) (m : M A) : Prop :=
  ∀ s0 n0 w, untouched h0 s0 n0 w →
    untouched h0 s0 n0 (m w).2 ∧ ∀ a, (m w).1 = Ok a → post a.

Definition newer (h0 : list DataFrame) (r : ref) : Prop := (length h0 ≤ r)%nat.

Definition anything {A : Type} (a : A) : Prop := True.

(** The proximity search, read off the code: the cell [> 0] test, the
    distance of a row, the row the search works on (sub-counts defaulted
    to 0 when their column is missing, distance added), the filters, and
    the first row at the least distance. *)
Definition is_positive (v : value) : bool :=
  match py_gt 0 v with Ok b => b | Raise _ => false end.

Definition number_or_missing (v : value) : bool :=
  match v with
  | VNull | VBool _ | VInt _ | VFloat _ => true
  | _ => false
  end.

(** [if c not in df.columns: df[c] = 0] on the frame *)
Definition defaulted (c : string) (d : DataFrame) : DataFrame :=
  if has_column c d then d else assign_scalar c (VInt 0) d.

Definition fill (c : string) (present : bool) (r : row) : row :=
  if present then r else upd r c (VInt 0).

Fixpoint nearest_from {A : Type} (dist : A → Q) (best : option A) (rs : list A)
  : option A :=
  match rs with
  | [] => best
  | r :: rs' =>
      nearest_from dist
        (match best with
         | Some b => if Qlt_bool (dist r) (dist b) then Some r else best
         | None => Some r
         end) rs'
  end.

Definition nearest {A : Type} (dist : A → Q) (rs : list A) : option A :=
  nearest_from dist None rs.

Definition station_of (r : row) : list value :=
  [r "station_id"; r "lat"; r "lon"].

Section ProximityVocabulary.

Variable geodesic_km : Q * Q → Q * Q → Q.

Definition km (latlon : Q * Q) (r : row) : Q :=
  match point_of (r "lat") (r "lon") with
  | Ok p => geodesic_km latlon p
  | Raise _ => 0
  end.

Definition work (latlon : Q * Q) (d : DataFrame) (r : row) : row :=
  upd (fill "ebike" (has_column "ebike" d)
         (fill "mechanical" (has_column "mechanical" d) r))
      "distance" (VFloat (km latlon r)).

Definition work_columns (d : DataFrame) : list string :=
  add_column "distance" (add_column "ebike" (add_column "mechanical" (columns d))).

Definition mode_filter (modes : list string) (cols : list string) (r : row) : bool :=
  match modes with
  | [mode] => if bool_decide (mode ∈ cols) then is_positive (r mode) else true
  | _ => is_positive (r "mechanical") || is_positive (r "ebike")
  end.

(** A row of the caller's frame [d] survives the bike search. *)
Definition bike_candidate (latlon : Q * Q) (modes : list string) (d : DataFrame)
    (r : row) : bool :=
  mode_filter modes (work_columns d) (work latlon d r)
  && is_positive (r "num_bikes_available").

Definition dock_candidate (r : row) : bool := is_positive (r "num_docks_available").

(** Every cell of the columns the search compares with 0 is a number or
    missing, and the columns it reads without a default are there. *)
Definition searchable (modes : list string) (d : DataFrame) : Prop :=
  has_column "num_bikes_available" d = true ∧ has_column "station_id" d = true ∧
  ∀ i r c, (i, r) ∈ rows d → c ∈ columns d →
    c ∈ "num_bikes_available" :: "mechanical" :: "ebike" :: modes →
    number_or_missing (r c) = true.

(** The rows of [L] are working rows of rows of [d]. *)
Definition work_rows (latlon : Q * Q) (d : DataFrame) (L : list (Z * row)) : Prop :=
  ∀ i r, (i, r) ∈ L → ∃ i0 r0, (i0, r0) ∈ rows d ∧ r = work latlon d r0.

Definition valid_geography (d : DataFrame) : Prop :=
  has_column "lat" d = true ∧ has_column "lon" d = true ∧
  ∀ i r, (i, r) ∈ rows d → ∃ p, point_of (r "lat") (r "lon") = Ok p.

End ProximityVocabulary.

(** Sample data for the instances: a stand-in distance (degrees of
    latitude plus degrees of longitude), feed records and one-frame stores. *)
Definition planar_km (p q : Q * Q) : Q :=
  Qabs (p.1 - q.1) + Qabs (p.2 - q.2).

Definition station (sid : string) (lat lon : Q) (bikes docks mechanical ebike : Z) : value :=
  VDict [("station_id", VStr sid); ("lat", VFloat lat); ("lon", VFloat lon);
         ("num_bikes_available", VInt bikes); ("num_docks_available", VInt docks);
         ("mechanical", VInt mechanical); ("ebike", VInt ebike)].

Definition world_of (fs : list DataFrame) : world := mkWorld fs ∅ [].

Definition times_square : Q * Q := (40758 # 1000, -(73985 # 1000)).

Definition mixed_stations : DataFrame :=
  frame_of_records
    [station "X" (40758 # 1000) (-(73985 # 1000)) 5 3 5 0;
     station "Y" (4076 # 100) (-(7399 # 100)) 3 9 0 3].

Definition classic_only_station : DataFrame :=
  frame_of_records [station "X" (40758 # 1000) (-(73985 # 1000)) 5 3 5 0].

Definition tie_stations : DataFrame :=
  frame_of_records
    [station "A" (4075 # 100) (-(7398 # 100)) 5 3 5 0;
     station "B" (4075 # 100) (-(7398 # 100)) 4 9 2 2].

Definition coords_json (pairs : list (value * value)) : value :=
  VList (map (λ p : value * value, VList [p.1; p.2]) pairs).

Definition osrm_reply (body : value) : string → outcome response :=
  λ _, Ok (mkResponse 200 (Ok body)).

Definition sample_route : value :=
  VDict [("routes",
          VList [VDict [("geometry",
                         VDict [("coordinates",
                                 coords_json
                                   [(VFloat (-(7398 # 100)), VFloat (4075 # 100));
                                    (VFloat (-(7399 # 100)), VFloat (4076 # 100))])]);
                        ("duration", VInt 630)]])].

Definition plain_repr (v : value) : string := "".

(** The join, read off the code: the frame with its station ids turned
    into strings, the columns taken from the info frame, the merge. *)
Definition geography : list string := ["lat"; "lon"; "name"; "capacity"; "region_id"].

Section ReconcileVocabulary.

Variable py_repr : value → string.

Definition stringified (d : DataFrame) : DataFrame :=
  mkDataFrame (add_column "station_id" (columns d))
    (map (λ ir : Z * row, (ir.1, upd ir.2 "station_id" (VStr (str_of py_repr (ir.2 "station_id")))))
       (rows d)).


Definition available_cols (d2 : DataFrame) : list string :=
  List.filter (λ col, has_column col (stringified d2)) merge_columns.

Definition joined (d1 d2 : DataFrame) : outcome DataFrame :=
  merge_left_on "station_id" (stringified d1)
    (mkDataFrame (available_cols d2) (rows (stringified d2))).

End ReconcileVocabulary.

Definition status_record (sid : string) (renting returning bikes docks reported : Z)
  : value :=
  VDict [("station_id", VStr sid); ("is_renting", VInt renting);
         ("is_returning", VInt returning); ("num_bikes_available", VInt bikes);
         ("num_docks_available", VInt docks); ("last_reported", VInt reported)].

Definition info_record (sid name : string) (lat lon : Q) (capacity : Z) : value :=
  VDict [("station_id", VStr sid); ("name", VStr name); ("lat", VFloat lat);
         ("lon", VFloat lon); ("capacity", VInt capacity)].

Definition status_sample : DataFrame :=
  frame_of_records [status_record "A" 1 1 5 3 1700000000;
                    status_record "B" 1 1 4 9 1700000000].

Definition info_sample : DataFrame :=
  frame_of_records [info_record "A" "W 42 St" (4075 # 100) (-(7398 # 100)) 20].

(** At most one of the two stored nearest results is not None. *)
Definition one_destination (s : gmap string value) : Prop :=
  stored s "nearest_bike_station" = VNull ∨ stored s "nearest_dock_station" = VNull.

(** [[bike_type_value] if bike_type_value else []] *)
Definition bike_modes (bike_type_value : option string) : list string :=
  match chosen_mode bike_type_value with Some m => [m] | None => [] end.

(** A status row of a station that rents and takes returns. *)
Definition open_station (r : row) : bool :=
  py_eq 1 (r "is_renting") && py_eq 1 (r "is_returning").

Definition typed_status_record (sid : string)
    (renting returning bikes docks reported mechanical ebike : Z) : value :=
  VDict [("station_id", VStr sid); ("is_renting", VInt renting);
         ("is_returning", VInt returning); ("num_bikes_available", VInt bikes);
         ("num_docks_available", VInt docks); ("last_reported", VInt reported);
         ("num_bikes_available_types",
          VDict [("mechanical", VInt mechanical); ("ebike", VInt ebike)])].

Definition status_feed (stations : list value) : value :=
  VDict [("last_updated", VInt 1700000060); ("data", VDict [("stations", VList stations)])].

Definition closed_then_open_feed : value :=
  status_feed [typed_status_record "A" 0 1 5 3 1700000000 3 2;
               typed_status_record "B" 1 1 4 9 1700000000 1 3].

Section DockVocabulary.
Variable geodesic_km : Q * Q → Q * Q → Q.

(** The row the dock search works on: the distance added. *)
Definition measured (latlon : Q * Q) (r : row) : row :=
  upd r "distance" (VFloat (km geodesic_km latlon r)).

(** The columns the dock search reads are there and its counts are numbers
    or missing. *)
Definition dock_searchable (d : DataFrame) : Prop :=
  has_column "num_docks_available" d = true ∧ has_column "station_id" d = true ∧
  ∀ i (r : row), (i, r) ∈ rows d → number_or_missing (r "num_docks_available") = true.
End DockVocabulary.

Definition full_then_free_stations : DataFrame :=
  frame_of_records
    [station "X" (40758 # 1000) (-(73985 # 1000)) 5 0 5 0;
     station "Y" (4076 # 100) (-(7399 # 100)) 3 9 0 3].

Definition full_station : DataFrame :=
  frame_of_records [station "X" (40758 # 1000) (-(73985 # 1000)) 5 0 5 0].

(** The five keys of the session. *)
Definition session_keys : list string :=
  ["user_location"; "nearest_bike_station"; "nearest_dock_station";
   "route_coordinates"; "route_duration"].

(** The search a lookup runs: the bike search for ["bike"], the dock search
    for any other lookup type. *)
Definition search_of (bike_type_value : option string) (stations_df : ref)
    (geodesic_km : Q * Q → Q * Q → Q) (lookup_type : string) (coords : Q * Q)
  : M (option (list value)) :=
  if String.eqb lookup_type "bike"
  then get_bike_availability geodesic_km coords stations_df (bike_modes bike_type_value)
  else get_dock_availability geodesic_km coords stations_df.

Definition not_found_warning : string :=
  "Location not found. Please try a different address.".

(** The filter engine, read off the code: the cell tests of the four
    predicates and the rows that pass them all. *)
Definition at_least (n : Z) (v : value) : bool :=
  match py_ge (inject_Z n) v with Ok b => b | Raise _ => false end.

Definition name_matches (found : string → bool) (v : value) : bool :=
  match v with VStr x => found x | _ => false end.


Section FilterVocabulary.
Variable min_bikes min_docks : Z.
Variable bike_type_value : option string.
Variable search_text : string.
Variable re_search : string → outcome (string → bool).
Variable name_is_object : bool.

Definition passes_mode (cols : list string) (r : row) : bool :=
  match chosen_mode bike_type_value with
  | Some mode => if bool_decide (mode ∈ cols) then is_positive (r mode) else false
  | None => true
  end.

Definition passes_search (cols : list string) (r : row) : bool :=
  if truthy (VStr search_text) && bool_decide ("name" ∈ cols)
  then match re_search search_text with
       | Ok found => name_matches found (r "name")
       | Raise _ => false
       end
  else true.

Definition kept (cols : list string) (r : row) : bool :=
  (if (0 <? min_bikes)%Z then at_least min_bikes (r "num_bikes_available") else true)
  && (if (0 <? min_docks)%Z then at_least min_docks (r "num_docks_available") else true)
  && passes_mode cols r
  && passes_search cols r.

End FilterVocabulary.



(** A stand-in for the regular expression search: the text occurs in the
    name as it is written. *)
Definition substring_search (pat : string) : outcome (string → bool) :=
  Ok (λ x, match String.index 0 pat x with Some _ => true | None => false end).

(** ** helpers.py: the marker colour *)

(** [v <= n] on one cell *)
Definition py_le (n : Q) (v : value) : outcome bool :=
  match v with
  | VNull | VNonFinite NaN | VNonFinite PosInf => Ok false
  | VNonFinite NegInf => Ok true
  | _ => match as_number v with
         | Some q => Ok (Qle_bool q n)
         | None => Raise TypeError
         end
  end.

Definition get_marker_color (num_bikes_available : value) : outcome string :=
  b ← py_gt 3 num_bikes_available;
  if (b : bool) then Ok "green"
  else
    b1 ← py_gt 0 num_bikes_available;
    b2 ← (if (b1 : bool) then py_le 3 num_bikes_available else Ok false);
    if (b2 : bool) then Ok "yellow" else Ok "red".

(** The frame [pd.DataFrame(data['data']['stations'])] of a decoded feed. *)
Definition feed_frame (data : value) : outcome DataFrame :=
  d ← subscript_key data "data"; st ← subscript_key d "stations"; DataFrame_of st.

Definition status_unreachable : string := "Unable to reach Citi Bike status endpoint".
Definition info_unreachable : string := "Unable to reach Citi Bike station info endpoint".

(** ** app.py: the snapshot of a run *)

Definition numeric_columns : list string :=
  ["num_bikes_available"; "num_docks_available"; "mechanical"; "ebike"; "capacity"].

(** [for x in l: body(x)] *)
Fixpoint for_each {A : Type} (l : list A) (body : A → M unit) : M unit :=
  match l with
  | [] => mret tt
  | a :: l' => body a;; for_each l' body
  end.

Section Snapshot.
Variable py_repr : value → string.
Variable urlopen_json : string → outcome value.

(** [pd.to_numeric(s, errors="coerce")] on one cell: the number pandas
    reads in it, or NaN. *)
Variable to_numeric : value → value.

(** The body of [load_station_data], as it runs when the cache has no
    entry. *)
Definition load_station_data : M (ref * ref * ref) :=
  status_df ← query_station_status py_repr urlopen_json NYC_STATION_STATUS_URL;
  info_df ← get_station_latlon py_repr urlopen_json NYC_STATION_INFO_URL;
  stations_df ← join_latlon py_repr status_df info_df;
  e ← is_empty stations_df;
  if (e : bool) then mret (status_df, info_df, stations_df)
  else
    for_each numeric_columns
      (λ col,
         has ← contains_column col stations_df;
         if (has : bool)
         then s ← getitem stations_df col;
              t ← lift (series_map (λ v, Ok (to_numeric v)) s);
              u ← lift (series_map fillna0 t);
              setitem stations_df col u
         else mret tt);;
    s ← getitem stations_df "station_id";
    t ← lift (series_map (astype_str py_repr) s);
    setitem stations_df "station_id" t;;
    (has ← contains_column "region_id" stations_df;
     if (has : bool)
     then s ← getitem stations_df "region_id"; setitem stations_df "region_id" s
     else setitem_scalar stations_df "region_id" VNull);;
    mret (status_df, info_df, stations_df).

(** One numeric column after [pd.to_numeric(...).fillna(0)]. *)
Definition filled (v : value) : value :=
  if isna (to_numeric v) then VInt 0 else to_numeric v.

Definition coerced (c : string) (d : DataFrame) : DataFrame :=
  if has_column c d
  then mkDataFrame (columns d) (map (λ ir : Z * row, (ir.1, upd ir.2 c (filled (ir.2 c)))) (rows d))
  else d.
End Snapshot.

(** Stand-ins for the instances: a reading of cells that takes numbers as
    they are, and an endpoint per feed. *)
Definition numbers_only (v : value) : value :=
  match v with VBool _ | VInt _ | VFloat _ => v | _ => VNull end.

Definition two_feeds (status info : outcome value) (url : string) : outcome value :=
  if String.eqb url NYC_STATION_STATUS_URL then status else info.

(** A stored route or duration comes with a stored destination. *)
Definition route_has_destination (s : gmap string value) : Prop :=
  stored s "route_coordinates" ≠ VNull ∨ stored s "route_duration" ≠ VNull →
  stored s "nearest_bike_station" ≠ VNull ∨ stored s "nearest_dock_station" ≠ VNull.

(** Two status rows report the same update: equal station_id and
    last_reported, as [drop_duplicates] compares them. *)
Definition update_key (r : row) : list value := map r ["station_id"; "last_reported"].

Definition same_update (x y : row) : bool := cells_eqb (update_key x) (update_key y).

(** A status feed that reports station A twice for the same moment. *)
Definition twice_reported_feed : value :=
  status_feed [status_record "A" 1 1 5 3 1700000000;
               status_record "A" 1 1 6 2 1700000000;
               status_record "B" 1 1 4 9 1700000000].

(** * Properties *)

(** ** The monad and the store *)

Lemma local_ret {A : Type} h0 (post : A → Prop) (a : A) :
  post a → local h0 post (mret a).
Proof.
  intros Hp s0 n0 w Hw. split; [exact Hw|].
  intros a' Ha. cbn in Ha. injection Ha as <-. exact Hp.
Qed.

Lemma local_bind {A B : Type} h0 (P : A → Prop) (Q : B → Prop) (m : M A) (f : A → M B) :
  local h0 P m → (∀ a, P a → local h0 Q (f a)) → local h0 Q (m ≫= f).
Proof.
  intros Hm Hf s0 n0 w Hw. destruct (Hm s0 n0 w Hw) as [Hk Hp].
  unfold mbind, M_bind. destruct (m w) as [[a|e] w1]; cbn in *.
  - apply (Hf a (Hp a eq_refl) s0 n0 w1 Hk).
  - split; [exact Hk|]. intros a Ha. discriminate Ha.
Qed.

Lemma local_weaken {A : Type} h0 (P Q : A → Prop) (m : M A) :
  (∀ a, P a → Q a) → local h0 P m → local h0 Q m.
Proof.
  intros HPQ Hm s0 n0 w Hw. destruct (Hm s0 n0 w Hw) as [Hk Hp].
  split; [exact Hk|]. intros a Ha. apply HPQ, Hp, Ha.
Qed.

Lemma local_lift {A : Type} h0 (o : outcome A) : local h0 anything (lift o).
Proof. intros s0 n0 w Hw. split; [exact Hw|]. intros; exact I. Qed.

Lemma local_deref h0 r : local h0 anything (deref r).
Proof.
  intros s0 n0 w Hw. unfold deref.
  destruct (frames w !! r); (split; [exact Hw|]); intros; exact I.
Qed.

Lemma local_alloc h0 d : local h0 (newer h0) (alloc d).
Proof.
  intros s0 n0 w (Hp & Hs & Hn). unfold alloc, set_frames; cbn. split.
  - split; [|split; assumption]. by apply prefix_app_r.
  - intros a Ha. injection Ha as <-. unfold newer. by apply prefix_length.
Qed.

Lemma local_store h0 r d : newer h0 r → local h0 anything (store r d).
Proof.
  intros Hr s0 n0 w (Hp & Hs & Hn). unfold store, set_frames; cbn. split.
  - split; [|split; assumption].
    destruct Hp as [ex ->]. exists (<[r - length h0 := d]> ex).
    unfold newer in Hr. by rewrite insert_app_r_alt.
  - intros; exact I.
Qed.

Ltac local_bind_typed :=
  lazymatch goal with
  | |- local ?h0 _ (@mbind _ _ ?A _ _ _) =>
      let A' := eval cbv in A in
      lazymatch A' with
      | nat => apply (local_bind h0 (newer h0))
      | _ => apply (local_bind h0 anything)
      end
  end.

Ltac local_leaf :=
  first
    [ apply local_ret; first [ assumption | exact I ]
    | apply local_lift
    | apply local_deref
    | apply local_alloc
    | apply local_store; assumption ].

Ltac local_case :=
  lazymatch goal with
  | |- local _ _ (if ?b then _ else _) => destruct b
  | |- local _ _ (match ?x with _ => _ end) => destruct x
  end.

Ltac local_auto :=
  repeat first
    [ local_leaf
    | local_bind_typed; [| intros ? ? ]
    | local_case ].

(** ** Lists, masks and the nearest element *)

Lemma traverse_map {A B : Type} (f : A → outcome B) (g : A → B) (l : list A) l' :
  (∀ a b, a ∈ l → f a = Ok b → b = g a) →
  traverse f l = Ok l' → l' = map g l.
Proof.
  revert l'. induction l as [|a l IH]; intros l' Hg H; cbn in H.
  - by injection H as <-.
  - destruct (f a) as [b|e] eqn:Ea; [|discriminate].
    destruct (traverse f l) as [bs|e] eqn:El; [|discriminate].
    injection H as <-. cbn. f_equal.
    + eapply Hg; [left|done].
    + apply IH; [|done]. intros a' b' Ha'. apply Hg. by right.
Qed.

Lemma traverse_total {A B : Type} (f : A → outcome B) (g : A → B) (l : list A) :
  (∀ a, a ∈ l → f a = Ok (g a)) → traverse f l = Ok (map g l).
Proof.
  induction l as [|a l IH]; intros Hg; cbn; [done|].
  rewrite Hg by left. rewrite IH; [done|]. intros a' Ha'. apply Hg. by right.
Qed.

Lemma take_rows_map (p : Z * row → bool) rs :
  take_rows rs (map p rs) = List.filter p rs.
Proof. induction rs as [|ir rs IH]; cbn; [done|]. destruct (p ir); by rewrite IH. Qed.

Lemma set_cells_map c (g : Z * row → value) rs :
  set_cells c rs (map g rs) = map (λ ir, (ir.1, upd ir.2 c (g ir))) rs.
Proof. induction rs as [|ir rs IH]; cbn; [done|]. by rewrite IH. Qed.

Lemma mask_or_map {A} (p q : A → bool) (l : list A) :
  mask_or (map p l) (map q l) = map (λ a, p a || q a) l.
Proof. induction l as [|a l IH]; cbn; [done|]. by rewrite IH. Qed.

Lemma py_gt_is_positive v b : py_gt 0 v = Ok b → b = is_positive v.
Proof. unfold is_positive. by intros ->. Qed.

Lemma Qlt_bool_true x y : Qlt_bool x y = true → (x < y)%Q.
Proof.
  unfold Qlt_bool. intros H. apply negb_true_iff in H.
  apply Qnot_le_lt. intros Hle. apply Qle_bool_iff in Hle. congruence.
Qed.

Lemma Qlt_bool_false x y : Qlt_bool x y = false → (y <= x)%Q.
Proof.
  unfold Qlt_bool. intros H. apply negb_false_iff in H. by apply Qle_bool_iff.
Qed.

Lemma nearest_from_some {A : Type} (dist : A → Q) (pre rs : list A) (b : A) (kb : nat) :
  pre !! kb = Some b →
  (∀ k' r', pre !! k' = Some r' → (dist b <= dist r')%Q) →
  (∀ k' r', (k' < kb)%nat → pre !! k' = Some r' → (dist b < dist r')%Q) →
  ∃ k r, nearest_from dist (Some b) rs = Some r ∧ (pre ++ rs) !! k = Some r ∧
    (∀ k' r', (pre ++ rs) !! k' = Some r' → (dist r <= dist r')%Q) ∧
    (∀ k' r', (k' < k)%nat → (pre ++ rs) !! k' = Some r' → (dist r < dist r')%Q).
Proof.
  revert pre b kb. induction rs as [|x rs IH]; intros pre b kb Hb Hmin Hstrict.
  - exists kb, b. rewrite app_nil_r. cbn. auto.
  - cbn [nearest_from]. rewrite (cons_middle x pre rs), app_assoc.
    destruct (Qlt_bool (dist x) (dist b)) eqn:Hc.
    + apply Qlt_bool_true in Hc.
      apply (IH (pre ++ [x]) x (length pre)).
      * by rewrite list_lookup_middle.
      * intros k' r' Hk'. apply lookup_app_Some in Hk' as [Hk'|[Hlen Hk']].
        -- apply Qlt_le_weak. eapply Qlt_le_trans; [exact Hc|]. eapply Hmin, Hk'.
        -- destruct (k' - length pre)%nat; cbn in Hk'; [|done].
           injection Hk' as <-. apply Qle_refl.
      * intros k' r' Hlt Hk'. rewrite lookup_app_l in Hk' by done.
        eapply Qlt_le_trans; [exact Hc|]. eapply Hmin, Hk'.
    + apply Qlt_bool_false in Hc.
      apply (IH (pre ++ [x]) b kb).
      * by apply lookup_app_l_Some.
      * intros k' r' Hk'. apply lookup_app_Some in Hk' as [Hk'|[Hlen Hk']].
        -- eapply Hmin, Hk'.
        -- destruct (k' - length pre)%nat; cbn in Hk'; [|done]. by injection Hk' as <-.
      * intros k' r' Hlt Hk'. apply lookup_lt_Some in Hb.
        rewrite lookup_app_l in Hk' by lia. eapply Hstrict; done.
Qed.

Lemma nearest_spec {A : Type} (dist : A → Q) (rs : list A) (r : A) :
  nearest dist rs = Some r →
  ∃ k, rs !! k = Some r ∧
    (∀ k' r', rs !! k' = Some r' → (dist r <= dist r')%Q) ∧
    (∀ k' r', (k' < k)%nat → rs !! k' = Some r' → (dist r < dist r')%Q).
Proof.
  unfold nearest. destruct rs as [|x rs]; [done|]. cbn [nearest_from]. intros H.
  destruct (nearest_from_some dist [x] rs x 0) as (k & r0 & Hn & Hk & Hmin & Hs).
  - done.
  - intros [|k'] r' Hk'; [|done]. injection Hk' as <-. apply Qle_refl.
  - intros k' r' Hlt. lia.
  - rewrite H in Hn. injection Hn as <-. exists k. auto.
Qed.

Lemma nearest_none {A : Type} (dist : A → Q) (rs : list A) :
  nearest dist rs = None ↔ rs = [].
Proof.
  split; [|by intros ->]. unfold nearest. destruct rs as [|x rs]; [done|].
  cbn [nearest_from]. intros H.
  destruct (nearest_from_some dist [x] rs x 0) as (k & r0 & Hn & _).
  - done.
  - intros [|k'] r' Hk'; [|done]. injection Hk' as <-. apply Qle_refl.
  - intros k' r' Hlt. lia.
  - congruence.
Qed.

Lemma nearest_from_map {A B : Type} (f : A → B) (dist : B → Q) best (l : list A) :
  nearest_from dist (f <$> best) (map f l) = f <$> nearest_from (λ a, dist (f a)) best l.
Proof.
  revert best. induction l as [|a l IH]; intros best; cbn; [done|].
  rewrite <- IH. f_equal. destruct best as [b|]; cbn; [|done].
  by destruct (Qlt_bool (dist (f a)) (dist (f b))).
Qed.

Lemma nearest_from_ext {A : Type} (d1 d2 : A → Q) best (l : list A) :
  (∀ a, d1 a = d2 a) → nearest_from d1 best l = nearest_from d2 best l.
Proof.
  intros H. revert best. induction l as [|a l IH]; intros best; cbn; [done|].
  rewrite IH. f_equal. destruct best as [b|]; [|done]. by rewrite !H.
Qed.

Lemma argmin_nearest (dist : Z * row → Q) best (L : list (Z * row)) :
  argmin ((λ ir, (ir.1, dist ir)) <$> best) (map (λ ir, (ir.1, VFloat (dist ir))) L)
  = Ok ((λ ir, (ir.1, dist ir)) <$> nearest_from dist best L).
Proof.
  revert best. induction L as [|x L IH]; intros best; cbn; [done|].
  rewrite <- IH. f_equal. destruct best as [b|]; cbn; [|done].
  by destruct (Qlt_bool (dist x) (dist b)).
Qed.

Lemma relabel_labels_ge n (rs : list (Z * row)) i :
  i ∈ map fst (relabel n rs) → (n <= i)%Z.
Proof.
  revert n. induction rs as [|x rs IH]; intros n; cbn.
  - by intros ?%elem_of_nil.
  - intros [->|Hi]%elem_of_cons; [lia|]. apply IH in Hi. lia.
Qed.

Lemma relabel_NoDup n (rs : list (Z * row)) : NoDup (map fst (relabel n rs)).
Proof.
  revert n. induction rs as [|x rs IH]; intros n; cbn; constructor.
  - intros Hi%relabel_labels_ge. lia.
  - apply IH.
Qed.

Lemma relabel_map n (f : row → row) (rs : list (Z * row)) :
  relabel n (map (λ ir, (ir.1, f ir.2)) rs) = map (λ ir, (ir.1, f ir.2)) (relabel n rs).
Proof. revert n. induction rs as [|x rs IH]; intros n; cbn; [done|]. by rewrite IH. Qed.

Lemma relabel_snd n (rs : list (Z * row)) : map snd (relabel n rs) = map snd rs.
Proof. revert n. induction rs as [|x rs IH]; intros n; cbn; [done|]. by rewrite IH. Qed.

Lemma filter_labels_NoDup (p : Z * row → bool) (L : list (Z * row)) :
  NoDup (map fst L) → NoDup (map fst (List.filter p L)).
Proof.
  induction L as [|x L IH]; cbn; [done|]. intros [Hx HL]%NoDup_cons.
  destruct (p x); cbn; [|by apply IH]. constructor; [|by apply IH].
  intros Hin. apply Hx. apply list_elem_of_In, in_map_iff in Hin as (y & Hy & Hin).
  apply filter_In in Hin as [Hin _]. apply list_elem_of_In, in_map_iff. eauto.
Qed.

Lemma find_label_unique (L : list (Z * row)) i r :
  NoDup (map fst L) → (i, r) ∈ L →
  List.find (λ ir : Z * row, (ir.1 =? i)%Z) L = Some (i, r).
Proof.
  induction L as [|x L IH]; cbn [List.find map]; [by intros _ ?%elem_of_nil|].
  intros [Hx HL]%NoDup_cons [Heq|Hin]%elem_of_cons.
  - subst x. cbn [fst]. by rewrite Z.eqb_refl.
  - destruct (x.1 =? i)%Z eqn:Hxi; [|by apply IH].
    apply Z.eqb_eq in Hxi. exfalso. apply Hx. apply list_elem_of_In, in_map_iff.
    exists (i, r). split; [done|]. by apply list_elem_of_In.
Qed.

Lemma filter_map_comm {A B} (f : A → B) (p : B → bool) (l : list A) :
  List.filter p (map f l) = map f (List.filter (λ a, p (f a)) l).
Proof. induction l as [|a l IH]; cbn; [done|]. destruct (p (f a)); cbn; by rewrite IH. Qed.

Lemma filter_filter_and {A} (p q : A → bool) (l : list A) :
  List.filter q (List.filter p l) = List.filter (λ a, p a && q a) l.
Proof.
  induction l as [|a l IH]; cbn; [done|].
  destruct (p a); cbn; [destruct (q a)|]; by rewrite IH.
Qed.

Lemma filter_all {A} (p : A → bool) (l : list A) :
  (∀ a, a ∈ l → p a = true) → List.filter p l = l.
Proof.
  induction l as [|a l IH]; cbn; [done|]. intros H.
  rewrite H by left. f_equal. apply IH. intros; apply H. by right.
Qed.

Lemma filter_ext_elem {A} (p q : A → bool) (l : list A) :
  (∀ a, a ∈ l → p a = q a) → List.filter p l = List.filter q l.
Proof.
  induction l as [|a l IH]; cbn; [done|]. intros H.
  rewrite H by left. rewrite IH; [done|]. intros; apply H. by right.
Qed.

(** One filtering statement of the code: [df[df[c] > 0]]. *)
Lemma filter_positive c (dd : DataFrame) s m :
  column c dd = Ok s → series_gt 0 s = Ok m →
  boolean_index m dd
  = mkDataFrame (columns dd) (List.filter (λ ir, is_positive (ir.2 c)) (rows dd)).
Proof.
  unfold column, series_gt, boolean_index. destruct (has_column c dd); [|done].
  intros [= <-] Hm.
  apply (traverse_map _ (λ iv : Z * value, is_positive iv.2)) in Hm.
  2:{ intros a b _. apply py_gt_is_positive. }
  subst m. rewrite map_map. cbn. f_equal.
  apply (take_rows_map (λ ir, is_positive (ir.2 c))).
Qed.

Lemma filter_positive_or c1 c2 (dd : DataFrame) s1 m1 s2 m2 :
  column c1 dd = Ok s1 → series_gt 0 s1 = Ok m1 →
  column c2 dd = Ok s2 → series_gt 0 s2 = Ok m2 →
  boolean_index (mask_or m1 m2) dd
  = mkDataFrame (columns dd)
      (List.filter (λ ir, is_positive (ir.2 c1) || is_positive (ir.2 c2)) (rows dd)).
Proof.
  unfold column, series_gt, boolean_index.
  destruct (has_column c1 dd); [|done]. destruct (has_column c2 dd); [|done].
  intros [= <-] Hm1 [= <-] Hm2.
  apply (traverse_map _ (λ iv : Z * value, is_positive iv.2)) in Hm1.
  2:{ intros a b _. apply py_gt_is_positive. }
  apply (traverse_map _ (λ iv : Z * value, is_positive iv.2)) in Hm2.
  2:{ intros a b _. apply py_gt_is_positive. }
  subst m1 m2. rewrite !map_map. cbn. f_equal.
  rewrite (mask_or_map (λ ir : Z * row, is_positive (ir.2 c1))
                       (λ ir : Z * row, is_positive (ir.2 c2))).
  apply (take_rows_map (λ ir, is_positive (ir.2 c1) || is_positive (ir.2 c2))).
Qed.


Lemma filter_lookup {A : Type} (f : A → bool) (l : list A) (j : nat) (r : A) :
  List.filter f l !! j = Some r →
  ∃ k, l !! k = Some r ∧ f r = true ∧
    ∀ k' r', (k' < k)%nat → l !! k' = Some r' → f r' = true →
      ∃ j', (j' < j)%nat ∧ List.filter f l !! j' = Some r'.
Proof.
  revert j. induction l as [|x l IH]; intros j Hj; cbn in Hj; [done|].
  cbn [List.filter]. destruct (f x) eqn:Hx.
  - destruct j as [|j]; cbn in Hj.
    + injection Hj as <-. exists 0%nat. split; [done|]. split; [done|]. intros; lia.
    + destruct (IH j Hj) as (k & Hk & Hf & Hbefore).
      exists (S k). split; [done|]. split; [done|].
      intros [|k'] r' Hlt Hk' Hf'; cbn in Hk'.
      * injection Hk' as <-. exists 0%nat. split; [lia|done].
      * destruct (Hbefore k' r') as (j' & Hj' & Hr'); [lia|done|done|].
        exists (S j'). split; [lia|done].
  - destruct (IH j Hj) as (k & Hk & Hf & Hbefore).
    exists (S k). split; [done|]. split; [done|].
    intros [|k'] r' Hlt Hk' Hf'; cbn in Hk'.
    + injection Hk' as <-. congruence.
    + apply (Hbefore k' r'); [lia|done|done].
Qed.

Lemma nearest_filter_spec {A : Type} (dist : A → Q) (f : A → bool) (l : list A) (r : A) :
  nearest dist (List.filter f l) = Some r →
  ∃ k, l !! k = Some r ∧ f r = true ∧
    ∀ k' r', l !! k' = Some r' → f r' = true →
      (dist r <= dist r')%Q ∧ ((k' < k)%nat → (dist r < dist r')%Q).
Proof.
  intros Hn. apply nearest_spec in Hn as (j & Hj & Hmin & Hstrict).
  destruct (filter_lookup f l j r Hj) as (k & Hk & Hf & Hbefore).
  exists k. split; [done|]. split; [done|].
  intros k' r' Hk' Hf'. split.
  - assert (r' ∈ List.filter f l) as Hin.
    { apply list_elem_of_In, filter_In. split; [|done].
      apply list_elem_of_In. by eapply list_elem_of_lookup_2. }
    apply list_elem_of_lookup_1 in Hin as [j' Hj']. by eapply Hmin.
  - intros Hlt. destruct (Hbefore k' r' Hlt Hk' Hf') as (j' & Hj' & Hr').
    by eapply Hstrict.
Qed.

(** ** Running the pandas methods on a store [h ++ ex] *)

Abbreviation W h ex s n := (mkWorld (h ++ ex) s n).

Lemma run_deref_old h ex s n r d :
  h !! r = Some d →
  deref r (mkWorld (h ++ ex) s n) = (Ok d, mkWorld (h ++ ex) s n).
Proof. intros H. unfold deref; cbn. by rewrite (lookup_app_l_Some _ _ _ _ H). Qed.

Lemma run_deref h ex s n k d :
  ex !! k = Some d →
  deref (length h + k) (mkWorld (h ++ ex) s n) = (Ok d, mkWorld (h ++ ex) s n).
Proof. intros H. unfold deref; cbn. by rewrite lookup_app_r, Nat.add_comm, Nat.add_sub, H by lia. Qed.

Lemma run_alloc h ex s n d :
  alloc d (mkWorld (h ++ ex) s n)
  = (Ok (length h + length ex)%nat, mkWorld (h ++ (ex ++ [d])) s n).
Proof. unfold alloc, set_frames; cbn. by rewrite length_app, app_assoc. Qed.

Lemma run_store h ex s n k d :
  store (length h + k) d (mkWorld (h ++ ex) s n)
  = (Ok tt, mkWorld (h ++ <[k := d]> ex) s n).
Proof.
  unfold store, set_frames; cbn. f_equal. f_equal.
  rewrite insert_app_r_alt by lia. f_equal. f_equal. lia.
Qed.

Ltac run_method_start :=
  intros H; unfold DataFrame_copy, reset_index, contains_column, getitem, setitem,
    setitem_scalar, getitem_mask, apply_rows, is_empty, loc_row, new_frame,
    mbind, M_bind, mret, M_ret, lift;
  first [ rewrite (run_deref _ _ _ _ _ _ H) | rewrite (run_deref_old _ _ _ _ _ _ H) ];
  rewrite ?run_alloc, ?run_store.
Ltac run_method := run_method_start; reflexivity.

Lemma run_copy_old h ex s n r d :
  h !! r = Some d →
  DataFrame_copy r (W h ex s n) = (Ok (length h + length ex)%nat, W h (ex ++ [d]) s n).
Proof. run_method. Qed.

Lemma run_reset_index h ex s n k d :
  ex !! k = Some d →
  reset_index (length h + k) (W h ex s n)
  = (Ok (length h + length ex)%nat, W h (ex ++ [reset_index_drop d]) s n).
Proof. run_method. Qed.

Lemma run_contains_column h ex s n k d c :
  ex !! k = Some d →
  contains_column c (length h + k) (W h ex s n) = (Ok (has_column c d), W h ex s n).
Proof. run_method. Qed.

Lemma run_getitem h ex s n k d c :
  ex !! k = Some d →
  getitem (length h + k) c (W h ex s n) = (column c d, W h ex s n).
Proof. run_method. Qed.

Lemma run_setitem h ex s n k d c x :
  ex !! k = Some d →
  setitem (length h + k) c x (W h ex s n)
  = (Ok tt, W h (<[k := assign_series c x d]> ex) s n).
Proof. run_method. Qed.

Lemma run_setitem_scalar h ex s n k d c v :
  ex !! k = Some d →
  setitem_scalar (length h + k) c v (W h ex s n)
  = (Ok tt, W h (<[k := assign_scalar c v d]> ex) s n).
Proof. run_method. Qed.

Lemma run_getitem_mask h ex s n k d m :
  ex !! k = Some d →
  getitem_mask (length h + k) m (W h ex s n)
  = (Ok (length h + length ex)%nat, W h (ex ++ [boolean_index m d]) s n).
Proof. run_method. Qed.

Lemma run_apply_rows h ex s n k d f :
  ex !! k = Some d →
  apply_rows (length h + k) f (W h ex s n) = (apply_axis1 f d, W h ex s n).
Proof. run_method. Qed.

Lemma run_is_empty h ex s n k d :
  ex !! k = Some d →
  is_empty (length h + k) (W h ex s n) = (Ok (df_empty d), W h ex s n).
Proof. run_method. Qed.

Lemma run_loc_row h ex s n k d i :
  ex !! k = Some d →
  loc_row (length h + k) i (W h ex s n)
  = (match loc i d with Ok x => Ok (row_getitem (columns d) x) | Raise e => Raise e end,
     W h ex s n).
Proof. run_method_start. by destruct (loc i d). Qed.

Lemma run_default h ex s n k d c :
  ex !! k = Some d →
  (if negb (has_column c d) then setitem_scalar (length h + k) c (VInt 0) else mret tt)
    (W h ex s n)
  = (Ok tt, W h (<[k := defaulted c d]> ex) s n).
Proof.
  intros H. unfold defaulted. destruct (has_column c d); cbn [negb].
  - by rewrite list_insert_id.
  - by apply run_setitem_scalar.
Qed.

Ltac step H :=
  first
    [ erewrite run_reset_index in H by reflexivity
    | erewrite run_contains_column in H by reflexivity
    | erewrite run_default in H by reflexivity
    | erewrite run_getitem in H by reflexivity
    | erewrite run_setitem in H by reflexivity
    | erewrite run_setitem_scalar in H by reflexivity
    | erewrite run_getitem_mask in H by reflexivity
    | erewrite run_apply_rows in H by reflexivity
    | erewrite run_is_empty in H by reflexivity
    | erewrite run_loc_row in H by reflexivity ];
  cbn [length app list_lookup lookup list_insert insert Nat.add] in H.

Ltac ok_or_raise H :=
  match type of H with
  | context [match ?o with Ok _ => _ | Raise _ => _ end] =>
      let E := fresh "E" in
      destruct o eqn:E; [| discriminate H]
  end.

(** ** The proximity resolvers *)

Section ProximityFacts.

Variable geodesic_km : Q * Q → Q * Q → Q.

#[local] Abbreviation km' := (km geodesic_km).
#[local] Abbreviation work' := (work geodesic_km).
#[local] Abbreviation distance_of' := (distance_of geodesic_km).
#[local] Abbreviation bike_candidate' := (bike_candidate geodesic_km).
#[local] Abbreviation work_rows' := (work_rows geodesic_km).

Lemma local_get_bike_availability h0 latlon df modes :
  local h0 anything (get_bike_availability geodesic_km latlon df modes).
Proof.
  unfold get_bike_availability, DataFrame_copy, reset_index, contains_column,
    getitem, setitem_applied, setitem, setitem_scalar, getitem_mask, apply_rows,
    is_empty, loc_row.
  local_auto.
Qed.

Lemma local_get_dock_availability h0 latlon df :
  local h0 anything (get_dock_availability geodesic_km latlon df).
Proof.
  unfold get_dock_availability, DataFrame_copy, reset_index, contains_column,
    getitem, setitem_applied, setitem, setitem_scalar, getitem_mask, apply_rows,
    is_empty, loc_row.
  local_auto.
Qed.


Lemma columns_defaulted c d : columns (defaulted c d) = add_column c (columns d).
Proof.
  unfold defaulted, has_column. destruct (bool_decide (c ∈ columns d)) eqn:E; cbn.
  - unfold add_column. by rewrite E.
  - done.
Qed.

Lemma rows_defaulted c d :
  rows (defaulted c d) = map (λ ir, (ir.1, fill c (has_column c d) ir.2)) (rows d).
Proof.
  unfold defaulted, fill. destruct (has_column c d); cbn; [|done].
  induction (rows d) as [|[i r] l IH]; cbn; [done|]. by rewrite <- IH.
Qed.

Lemma elem_of_add_column c x cols : c ∈ add_column x cols ↔ c ∈ cols ∨ c = x.
Proof.
  unfold add_column. case_bool_decide as Hx.
  - split; [auto|]. intros [?| ->]; done.
  - by rewrite elem_of_app, list_elem_of_singleton.
Qed.

Lemma has_column_add_ne c c' cols :
  c ≠ c' → bool_decide (c ∈ add_column c' cols) = bool_decide (c ∈ cols).
Proof.
  intros Hne. unfold add_column. destruct (bool_decide (c' ∈ cols)); [done|].
  apply bool_decide_ext. rewrite elem_of_app, list_elem_of_singleton. tauto.
Qed.


Lemma distance_of_km latlon cols r v :
  distance_of' latlon (row_getitem cols r) = Ok v → v = VFloat (km' latlon r).
Proof.
  unfold distance_of, row_getitem, geodesic, km, mbind, outcome_bind.
  destruct (bool_decide ("lat" ∈ cols)); [|done].
  destruct (bool_decide ("lon" ∈ cols)); [|done].
  destruct (valid_latitude latlon.1); [|done].
  destruct (point_of (r "lat") (r "lon")); [|done]. by intros [= <-].
Qed.

Lemma km_fill latlon c b r :
  c ≠ "lat" → c ≠ "lon" → km' latlon (fill c b r) = km' latlon r.
Proof.
  intros H1 H2. unfold km, fill, upd. destruct b; [done|].
  apply String.eqb_neq in H1, H2. rewrite String.eqb_sym in H1, H2.
  by rewrite H1, H2.
Qed.

Lemma distance_of_missing latlon cols :
  ∃ e, distance_of' latlon (row_getitem cols (λ _, VNull)) = Raise e.
Proof.
  unfold distance_of, row_getitem, geodesic, mbind, outcome_bind.
  destruct (bool_decide ("lat" ∈ cols)); [|by eexists].
  destruct (bool_decide ("lon" ∈ cols)); [|by eexists].
  destruct (valid_latitude latlon.1); by eexists.
Qed.

Lemma searched_columns_two d :
  ∃ a b rest,
    columns (defaulted "ebike" (defaulted "mechanical" (reset_index_drop d)))
    = a :: b :: rest.
Proof.
  rewrite !columns_defaulted.
  set (cols := add_column "ebike" (add_column "mechanical" _)).
  assert (Hm : "mechanical" ∈ cols).
  { unfold cols. rewrite !elem_of_add_column. auto. }
  assert (He : "ebike" ∈ cols).
  { unfold cols. rewrite !elem_of_add_column. auto. }
  destruct cols as [|a [|b rest]]; [by apply elem_of_nil in Hm | | by eexists _, _, _].
  apply list_elem_of_singleton in Hm, He. congruence.
Qed.

(** The distance column on the working copy: on a frame without rows the
    assignment raises, otherwise it is the Series of the row distances. *)
Lemma apply_distance_cases latlon d :
  let d2 := defaulted "ebike" (defaulted "mechanical" (reset_index_drop d)) in
  (rows d = [] ∧
   apply_axis1 (distance_of' latlon) d2 = Ok (Applied_frame d2))
  ∨ (rows d ≠ [] ∧
     apply_axis1 (distance_of' latlon) d2
     = match apply_series (distance_of' latlon) d2 with
       | Ok s => Ok (Applied_series s)
       | Raise e => Raise e
       end).
Proof.
  intros d2. unfold apply_axis1.
  assert (Hrows : length (rows d2) = length (rows d)).
  { unfold d2. rewrite !rows_defaulted. cbn [reset_index_drop rows].
    rewrite !length_map. generalize 0%Z. induction (rows d) as [|x l IH]; intros z; cbn; [done|].
    by rewrite IH. }
  destruct (searched_columns_two d) as (a & b & rest & Hcols). fold d2 in Hcols.
  destruct (rows d) as [|x l] eqn:Hd.
  - left. split; [done|].
    destruct (distance_of_missing latlon (columns d2)) as [e ->].
    unfold df_empty. rewrite Hcols. by destruct (rows d2).
  - right. split; [done|]. unfold df_empty. rewrite Hcols.
    by destruct (rows d2).
Qed.

Lemma setitem_applied_frame_raises r c v a b rest w :
  columns v = a :: b :: rest →
  setitem_applied r c (Applied_frame v) w = (Raise ValueError, w).
Proof. unfold setitem_applied. by intros ->. Qed.

Lemma working_frame latlon d a :
  apply_series (distance_of' latlon)
    (defaulted "ebike" (defaulted "mechanical" (reset_index_drop d))) = Ok a →
  assign_series "distance" a
    (defaulted "ebike" (defaulted "mechanical" (reset_index_drop d)))
  = mkDataFrame (work_columns d)
      (map (λ ir, (ir.1, work' latlon d ir.2)) (relabel 0 (rows d))).
Proof.
  intros Ha. unfold apply_series in Ha.
  apply (traverse_map _ (λ ir : Z * row, (ir.1, VFloat (km' latlon ir.2)))) in Ha.
  2:{ intros ir b _ Hb.
      destruct (distance_of' latlon _) as [v|] eqn:Hv; [|done].
      injection Hb as <-. by rewrite (distance_of_km _ _ _ _ Hv). }
  subst a. unfold assign_series. rewrite map_map. cbn [snd].
  rewrite (set_cells_map "distance" (λ ir, VFloat (km' latlon ir.2))).
  rewrite !columns_defaulted, !rows_defaulted. cbn [reset_index_drop columns rows].
  unfold has_column at 1. rewrite columns_defaulted. cbn [reset_index_drop columns].
  rewrite has_column_add_ne by done.
  f_equal. rewrite !map_map. apply map_ext. intros [i r]. cbn [fst snd].
  unfold work. f_equal. rewrite !km_fill by done. done.
Qed.


Lemma closest_station (dist : row → Q) cols (L : list (Z * row)) :
  NoDup (map fst L) →
  (∀ i r, (i, r) ∈ L → r "distance" = VFloat (dist r)) →
  ∀ s i x a7 a8 a9,
    column "distance" (mkDataFrame cols L) = Ok s →
    idxmin s = Ok i →
    loc i (mkDataFrame cols L) = Ok x →
    row_getitem cols x "station_id" = Ok a7 →
    row_getitem cols x "lat" = Ok a8 →
    row_getitem cols x "lon" = Ok a9 →
    Some [a7; a8; a9] = option_map station_of (nearest dist (map snd L)).
Proof.
  intros Hnd Hdist s i x a7 a8 a9 Hs Hi Hx H7 H8 H9.
  unfold column in Hs. destruct (has_column _ _); [|done]. injection Hs as <-.
  cbn [rows] in Hi.
  rewrite (map_ext_in _ (λ ir : Z * row, (ir.1, VFloat (dist ir.2)))) in Hi.
  2:{ intros [j r] Hin. cbn. f_equal. apply Hdist with j. by apply list_elem_of_In. }
  unfold idxmin in Hi.
  pose proof (argmin_nearest (λ ir, dist ir.2) None L) as Ha. cbn [fmap option_fmap option_map] in Ha.
  rewrite Ha in Hi. clear Ha.
  unfold nearest. rewrite (nearest_from_map snd dist None L : nearest_from dist None (map snd L) = _).
  destruct (nearest_from (λ ir : Z * row, dist ir.2) None L) as [[j r]|] eqn:Hn; [|done].
  cbn in Hi. injection Hi as ->.
  apply (nearest_spec (λ ir : Z * row, dist ir.2)) in Hn as (k & Hk & _).
  apply list_elem_of_lookup_2 in Hk.
  unfold loc in Hx. cbn [rows] in Hx. rewrite (find_label_unique _ _ _ Hnd Hk) in Hx.
  injection Hx as <-. cbn [fmap option_fmap option_map snd].
  unfold row_getitem in H7, H8, H9.
  destruct (bool_decide _); [|done]. destruct (bool_decide _); [|done].
  destruct (bool_decide _); [|done]. by injection H7 as <-; injection H8 as <-; injection H9 as <-.
Qed.

Lemma map_snd_filter (q : row → bool) (R : list (Z * row)) :
  map snd (List.filter (λ ir, q ir.2) R) = List.filter q (map snd R).
Proof. induction R as [|x R IH]; cbn; [done|]. destruct (q x.2); cbn; by rewrite IH. Qed.


Lemma work_other latlon d r c :
  c ≠ "mechanical" → c ≠ "ebike" → c ≠ "distance" → work' latlon d r c = r c.
Proof.
  intros H1 H2 H3. unfold work, fill, upd.
  apply String.eqb_neq in H1, H2, H3. rewrite H3.
  destruct (has_column "ebike" d), (has_column "mechanical" d); by rewrite ?H1, ?H2.
Qed.

Lemma km_work latlon d r : km' latlon (work' latlon d r) = km' latlon r.
Proof. unfold km. by rewrite !work_other. Qed.

Lemma station_of_work latlon d r : station_of (work' latlon d r) = station_of r.
Proof. unfold station_of. by rewrite !work_other. Qed.

Lemma work_distance latlon d r : work' latlon d r "distance" = VFloat (km' latlon r).
Proof. done. Qed.

(** The rows left after the two filters, in terms of the caller's rows. *)
Lemma searched_rows latlon d (fM fB : Z * row → bool) :
  (∀ i j r, fM (i, r) = fM (j, r)) → (∀ i j r, fB (i, r) = fB (j, r)) →
  map snd (List.filter fB
             (List.filter fM
                (map (λ ir : Z * row, (ir.1, work' latlon d ir.2)) (relabel 0 (rows d)))))
  = map (work' latlon d)
      (List.filter (λ r, fM (0%Z, work' latlon d r) && fB (0%Z, work' latlon d r))
         (map snd (rows d))).
Proof.
  intros HM HB. rewrite filter_filter_and.
  rewrite (filter_ext_elem _ (λ ir, (λ r, fM (0%Z, r) && fB (0%Z, r)) ir.2)).
  2:{ intros [i r] _. cbn. by rewrite (HM i 0%Z), (HB i 0%Z). }
  rewrite (map_snd_filter (λ r, fM (0%Z, r) && fB (0%Z, r))).
  rewrite map_map. cbn [snd].
  rewrite <- (map_map snd (work' latlon d)), relabel_snd.
  apply (filter_map_comm (work' latlon d) (λ r, fM (0%Z, r) && fB (0%Z, r))).
Qed.

Lemma searched_labels latlon d (pM pB : Z * row → bool) :
  NoDup (map fst (List.filter pB (List.filter pM
    (map (λ ir : Z * row, (ir.1, work' latlon d ir.2)) (relabel 0 (rows d)))))).
Proof.
  do 2 apply filter_labels_NoDup. rewrite map_map. cbn [fst].
  apply (relabel_NoDup 0).
Qed.

Lemma searched_distance latlon d (pM pB : Z * row → bool) i r :
  (i, r) ∈ List.filter pB (List.filter pM
    (map (λ ir : Z * row, (ir.1, work' latlon d ir.2)) (relabel 0 (rows d)))) →
  r "distance" = VFloat (km' latlon r).
Proof.
  intros Hin. apply list_elem_of_In, filter_In in Hin as [Hin _].
  apply filter_In in Hin as [Hin _]. apply in_map_iff in Hin as ([j r0] & [= _ <-] & _).
  by rewrite km_work.
Qed.

Lemma nearest_work latlon d (l : list row) :
  option_map station_of (nearest (km' latlon) (map (work' latlon d) l))
  = option_map station_of (nearest (km' latlon) l).
Proof.
  unfold nearest.
  rewrite (nearest_from_map (work' latlon d) (km' latlon) None l
            : nearest_from _ None (map _ l) = _).
  rewrite (nearest_from_ext _ (km' latlon)) by apply km_work.
  destruct (nearest_from (km' latlon) None l); cbn; [|done]. by rewrite station_of_work.
Qed.

Lemma work_columns_nonempty d : work_columns d ≠ [].
Proof.
  unfold work_columns, add_column at 1. intros H.
  destruct (bool_decide _) eqn:E.
  - apply bool_decide_eq_true in E. rewrite H in E. by apply elem_of_nil in E.
  - by destruct (add_column "ebike" _).
Qed.

Lemma df_empty_rows cols L : cols ≠ [] → df_empty (mkDataFrame cols L) = true → L = [].
Proof. unfold df_empty; cbn. destruct cols, L; done. Qed.

Ltac search_tail H Hcand :=
  step H;
  let Hemp := fresh "Hemp" in
  destruct (df_empty _) eqn:Hemp in H;
  [ apply df_empty_rows in Hemp; [|apply work_columns_nonempty];
    injection H as <- _;
    apply (f_equal (map snd)) in Hemp;
    rewrite searched_rows in Hemp by reflexivity; cbn [fst snd] in Hemp;
    apply map_eq_nil in Hemp;
    rewrite <- (filter_ext_elem _ _ _ Hcand), Hemp; reflexivity
  | step H; do 2 ok_or_raise H; step H; do 4 ok_or_raise H;
    injection H as <- _;
    lazymatch goal with
    | El : match loc _ _ with Ok _ => _ | Raise _ => _ end = Ok _ |- _ =>
        let Eloc := fresh "Eloc" in
        destruct (loc _ _) eqn:Eloc in El; [|discriminate El];
        injection El as <-
    end;
    cbn [columns] in *;
    rewrite <- (filter_ext_elem _ _ _ Hcand);
    lazymatch goal with
    | Hc : column _ (mkDataFrame (work_columns ?dd)
                       (List.filter ?fB (List.filter ?fM _))) = Ok _
      |- context [nearest (km _ ?ll) (List.filter ?f (map snd _))] =>
        rewrite <- (nearest_work ll dd);
        let Hrows := fresh "Hrows" in
        pose proof (searched_rows ll dd fM fB ltac:(reflexivity) ltac:(reflexivity))
          as Hrows;
        cbn beta in Hrows; cbn [fst snd] in Hrows; rewrite <- Hrows
    end;
    eapply closest_station; eauto using searched_labels, searched_distance ].

Lemma has_column_work_columns mode d (L : list (Z * row)) :
  has_column mode (mkDataFrame (work_columns d) L) = bool_decide (mode ∈ work_columns d).
Proof. done. Qed.

Lemma get_bike_availability_result h s n df d latlon modes res w' :
  h !! df = Some d →
  get_bike_availability geodesic_km latlon df modes (mkWorld h s n) = (Ok res, w') →
  res = option_map station_of
          (nearest (km' latlon)
             (List.filter (bike_candidate' latlon modes d) (map snd (rows d)))).
Proof.
  intros Hd H. rewrite <- (app_nil_r h) in H.
  unfold get_bike_availability in H.
  unfold mbind, M_bind, lift in H.
  rewrite (run_copy_old _ _ _ _ _ _ Hd) in H. cbn [length app] in H.
  do 6 step H.
  destruct (apply_distance_cases latlon d) as [[_ Ha]|[_ Ha]]; rewrite Ha in H; clear Ha.
  { destruct (searched_columns_two d) as (a & b & rest & Hcols).
    rewrite (setitem_applied_frame_raises _ _ _ _ _ _ _ Hcols) in H. discriminate H. }
  destruct (apply_series _ _) as [a|] eqn:E in H; [|discriminate H].
  cbn [setitem_applied] in H.
  step H.
  rewrite (working_frame _ _ _ E) in H. clear E.
  assert (Hany : ∀ ms, (∀ m, ms ≠ [m]) → ∀ r, r ∈ map snd (rows d) →
            (is_positive (work' latlon d r "mechanical")
             || is_positive (work' latlon d r "ebike"))
            && is_positive (work' latlon d r "num_bikes_available")
            = bike_candidate' latlon ms d r).
  { intros ms Hms r _. unfold bike_candidate, mode_filter.
    rewrite (work_other _ _ _ "num_bikes_available") by done. destruct ms as [|m [|m2 ms]]; [done| |done].
    by destruct (Hms m). }
  destruct modes as [|mode [|mode2 modes]].
  - step H. do 2 ok_or_raise H. step H. do 2 ok_or_raise H.
    step H. rewrite (filter_positive_or _ _ _ _ _ _ _ E E0 E1 E2) in H.
    clear E E0 E1 E2.
    step H. do 2 ok_or_raise H. step H.
    rewrite (filter_positive _ _ _ _ E E0) in H. clear E E0. cbn [columns rows] in H.
    search_tail H (Hany [] ltac:(done)).
  - step H. rewrite has_column_work_columns in H.
    assert (Hone : ∀ r, r ∈ map snd (rows d) →
              (if bool_decide (mode ∈ work_columns d)
               then is_positive (work' latlon d r mode) else true)
              && is_positive (work' latlon d r "num_bikes_available")
              = bike_candidate' latlon [mode] d r).
    { intros r _. unfold bike_candidate, mode_filter.
      by rewrite (work_other _ _ _ "num_bikes_available") by done. }
    destruct (bool_decide (mode ∈ work_columns d)) eqn:Hmode.
    + step H. do 2 ok_or_raise H. step H.
      rewrite (filter_positive _ _ _ _ E E0) in H. clear E E0. cbn [columns rows] in H.
      step H. do 2 ok_or_raise H. step H.
      rewrite (filter_positive _ _ _ _ E E0) in H. clear E E0. cbn [columns rows] in H.
      search_tail H Hone.
    + unfold mret, M_ret in H.
      step H. do 2 ok_or_raise H. step H.
      rewrite (filter_positive _ _ _ _ E E0) in H. clear E E0. cbn [columns rows] in H.
      rewrite <- (filter_all (λ _ : Z * row, true)
                    (map (λ ir : Z * row, (ir.1, work' latlon d ir.2)) (relabel 0 (rows d))))
        in H by done.
      search_tail H Hone.
  - step H. do 2 ok_or_raise H. step H. do 2 ok_or_raise H.
    step H. rewrite (filter_positive_or _ _ _ _ _ _ _ E E0 E1 E2) in H.
    clear E E0 E1 E2.
    step H. do 2 ok_or_raise H. step H.
    rewrite (filter_positive _ _ _ _ E E0) in H. clear E E0. cbn [columns rows] in H.
    search_tail H (Hany (mode :: mode2 :: modes) ltac:(done)).
Qed.

Lemma py_gt_number v : number_or_missing v = true → py_gt 0 v = Ok (is_positive v).
Proof. unfold is_positive. by destruct v. Qed.

Lemma column_ok c dd :
  has_column c dd = true → column c dd = Ok (map (λ ir : Z * row, (ir.1, ir.2 c)) (rows dd)).
Proof. unfold column. by intros ->. Qed.

Lemma series_gt_ok c (L : list (Z * row)) :
  (∀ i r, (i, r) ∈ L → number_or_missing (r c) = true) →
  series_gt 0 (map (λ ir : Z * row, (ir.1, ir.2 c)) L)
  = Ok (map (λ ir : Z * row, is_positive (ir.2 c)) L).
Proof.
  intros H. unfold series_gt.
  rewrite (traverse_total _ (λ iv : Z * value, is_positive iv.2)).
  - by rewrite map_map.
  - intros [i v] Hin. apply list_elem_of_In, in_map_iff in Hin as ([j r] & [= <- <-] & Hin).
    cbn. apply py_gt_number, (H j). by apply list_elem_of_In.
Qed.

Lemma work_columns_elem c d :
  c ∈ work_columns d ↔ c ∈ columns d ∨ c = "mechanical" ∨ c = "ebike" ∨ c = "distance".
Proof.
  unfold work_columns. rewrite !elem_of_add_column. tauto.
Qed.


Lemma work_number latlon modes d i r c :
  searchable modes d → (i, r) ∈ rows d → c ∈ work_columns d →
  c ∈ "num_bikes_available" :: "mechanical" :: "ebike" :: modes →
  number_or_missing (work' latlon d r c) = true.
Proof.
  intros (_ & _ & Hnum) Hin Hc Ht. unfold work, upd.
  destruct (String.eqb_spec c "distance") as [->|Hd]; [done|].
  assert (Hfill : ∀ x b r', fill x b r' c = if String.eqb c x && negb b then VInt 0 else r' c).
  { intros x b r'. unfold fill, upd. destruct b; [by rewrite andb_false_r|].
    by rewrite andb_true_r. }
  rewrite !Hfill.
  destruct (String.eqb_spec c "ebike") as [->|He]; cbn [andb].
  - destruct (has_column "ebike" d) eqn:Hhas; cbn [negb]; [|done].
    apply (Hnum i); [done| |done]. unfold has_column in Hhas. by apply bool_decide_eq_true in Hhas.
  - destruct (String.eqb_spec c "mechanical") as [->|Hm]; cbn [andb].
    + destruct (has_column "mechanical" d) eqn:Hhas; cbn [negb]; [|done].
      apply (Hnum i); [done| |done]. unfold has_column in Hhas. by apply bool_decide_eq_true in Hhas.
    + apply (Hnum i); [done| |done]. apply work_columns_elem in Hc. tauto.
Qed.

Lemma apply_distance_ok latlon d :
  valid_latitude latlon.1 = true → valid_geography d →
  ∃ a, apply_series (distance_of' latlon)
         (defaulted "ebike" (defaulted "mechanical" (reset_index_drop d))) = Ok a.
Proof.
  intros Hq (Hlat & Hlon & Hrows). eexists. unfold apply_series.
  apply (traverse_total _ (λ ir : Z * row, (ir.1, VFloat (km' latlon ir.2)))).
  intros [j r] Hin. cbn [fst snd].
  rewrite !rows_defaulted in Hin. cbn [reset_index_drop rows] in Hin.
  rewrite !map_map in Hin. cbn [fst snd] in Hin.
  apply list_elem_of_In, in_map_iff in Hin as ([j' r0] & [= -> <-] & Hin).
  assert (∃ i0, (i0, r0) ∈ rows d) as [i0 Hin0].
  { assert (r0 ∈ map snd (relabel 0 (rows d))) as Hr.
    { apply list_elem_of_In, in_map_iff. by exists (j, r0). }
    rewrite relabel_snd in Hr. apply list_elem_of_In, in_map_iff in Hr as ([i0 r'] & <- & Hr).
    exists i0. by apply list_elem_of_In. }
  destruct (Hrows _ _ Hin0) as [p Hp].
  unfold distance_of, row_getitem, geodesic, km, mbind, outcome_bind.
  rewrite !columns_defaulted. cbn [reset_index_drop columns].
  rewrite !has_column_add_ne by done.
  unfold has_column in Hlat, Hlon. rewrite Hlat, Hlon, Hq.
  cbn [fst snd].
  assert (Hother : ∀ x b r' c', c' ≠ x → fill x b r' c' = r' c').
  { intros x b r' c' Hne. unfold fill, upd. destruct b; [done|].
    apply String.eqb_neq in Hne. by rewrite Hne. }
  rewrite !Hother by done. by rewrite Hp.
Qed.

Lemma boolean_index_map (p : Z * row → bool) cols L :
  boolean_index (map p L) (mkDataFrame cols L) = mkDataFrame cols (List.filter p L).
Proof. unfold boolean_index; cbn. by rewrite take_rows_map. Qed.

Lemma find_label_some (L : list (Z * row)) i r :
  (i, r) ∈ L → ∃ x, List.find (λ ir : Z * row, (ir.1 =? i)%Z) L = Some x.
Proof.
  induction L as [|y L IH]; [by intros ?%elem_of_nil|].
  intros [Heq|Hin]%elem_of_cons; cbn [List.find].
  - subst y. cbn [fst]. rewrite Z.eqb_refl. eauto.
  - destruct (y.1 =? i)%Z; eauto.
Qed.



Lemma work_rows_all latlon d :
  work_rows' latlon d (map (λ ir : Z * row, (ir.1, work' latlon d ir.2)) (relabel 0 (rows d))).
Proof.
  intros i r Hin. apply list_elem_of_In, in_map_iff in Hin as ([j r0] & [= _ <-] & Hin).
  assert (r0 ∈ map snd (relabel 0 (rows d))) as Hr.
  { apply list_elem_of_In, in_map_iff. by exists (j, r0). }
  rewrite relabel_snd in Hr. apply list_elem_of_In, in_map_iff in Hr as ([i0 r'] & <- & Hr).
  exists i0, r'. split; [by apply list_elem_of_In|done].
Qed.

Lemma work_rows_filter latlon d p L :
  work_rows' latlon d L → work_rows' latlon d (List.filter p L).
Proof.
  intros H i r Hin. apply list_elem_of_In, filter_In in Hin as [Hin _].
  apply (H i). by apply list_elem_of_In.
Qed.

Lemma work_rows_gt latlon modes d L c :
  searchable modes d → work_rows' latlon d L → c ∈ work_columns d →
  c ∈ "num_bikes_available" :: "mechanical" :: "ebike" :: modes →
  series_gt 0 (map (λ ir : Z * row, (ir.1, ir.2 c)) L)
  = Ok (map (λ ir : Z * row, is_positive (ir.2 c)) L).
Proof.
  intros Hs HL Hc Ht. apply series_gt_ok. intros i r Hin.
  destruct (HL i r Hin) as (i0 & r0 & Hin0 & ->). by eapply work_number.
Qed.

Lemma closest_ok latlon d cols L :
  work_rows' latlon d L → L ≠ [] →
  ∃ i x, idxmin (map (λ ir : Z * row, (ir.1, ir.2 "distance")) L) = Ok i
         ∧ loc i (mkDataFrame cols L) = Ok x.
Proof.
  intros HL Hne.
  rewrite (map_ext_in _ (λ ir : Z * row, (ir.1, VFloat (km' latlon ir.2)))).
  2:{ intros [j r] Hin. cbn. f_equal. apply list_elem_of_In in Hin.
      destruct (HL j r Hin) as (i0 & r0 & _ & ->). by rewrite km_work. }
  unfold idxmin.
  pose proof (argmin_nearest (λ ir, km' latlon ir.2) None L) as Ha.
  cbn [fmap option_fmap option_map] in Ha. rewrite Ha. clear Ha.
  destruct (nearest_from _ None L) as [[i r]|] eqn:Hn.
  - cbn. apply (nearest_spec (λ ir : Z * row, km' latlon ir.2)) in Hn as (k & Hk & _).
    apply list_elem_of_lookup_2 in Hk. destruct (find_label_some _ _ _ Hk) as [x Hx].
    exists i, x.2. split; [done|]. unfold loc; cbn [rows]. by rewrite Hx.
  - by apply (nearest_none (λ ir : Z * row, km' latlon ir.2)) in Hn.
Qed.

Lemma in_work_columns c d : has_column c d = true → bool_decide (c ∈ work_columns d) = true.
Proof.
  intros H. apply bool_decide_eq_true. apply work_columns_elem. left.
  by apply bool_decide_eq_true in H.
Qed.

Ltac filter_stage H Hs :=
  step H; rewrite column_ok in H
    by (first [ unfold has_column; cbn [columns]; assumption
              | apply in_work_columns; assumption
              | apply bool_decide_eq_true, work_columns_elem; naive_solver ]);
  cbn [rows] in H;
  lazymatch type of H with
  | context [series_gt 0 (map (λ ir : Z * row, (ir.1, ir.2 ?c)) _)] =>
      erewrite (work_rows_gt _ _ _ _ c Hs) in H;
      [ | repeat apply work_rows_filter; apply work_rows_all
        | first [ lazymatch goal with
                  | Hm : bool_decide (?c ∈ _) = true |- ?c ∈ _ =>
                      exact (proj1 (bool_decide_eq_true _) Hm)
                  end
                | apply work_columns_elem; naive_solver ]
        | set_solver ]
  end.

Ltac total_tail H Hs Hgeo :=
  step H;
  let Hemp := fresh "Hemp" in
  destruct (df_empty _) eqn:Hemp in H; [discriminate H|];
  step H;
  rewrite column_ok in H by (apply bool_decide_eq_true, work_columns_elem; naive_solver);
  cbn [rows] in H;
  lazymatch type of Hemp with
  | df_empty (mkDataFrame ?cols ?L) = false =>
      let i := fresh "i" in let x := fresh "x" in
      let Hi := fresh "Hi" in let Hx := fresh "Hx" in
      destruct (closest_ok _ _ cols L
                  ltac:(repeat apply work_rows_filter; apply work_rows_all)
                  ltac:(intros Hnil; rewrite Hnil in Hemp; unfold df_empty in Hemp;
                        cbn in Hemp; by destruct cols))
        as (i & x & Hi & Hx);
      rewrite Hi in H; step H; rewrite Hx in H
  end;
  unfold row_getitem in H; cbn [columns] in H;
  rewrite !in_work_columns in H by assumption;
  discriminate H.

Lemma get_bike_availability_returns h s n df d latlon modes :
  h !! df = Some d → rows d ≠ [] →
  valid_latitude latlon.1 = true → valid_geography d → searchable modes d →
  ∃ res w', get_bike_availability geodesic_km latlon df modes (mkWorld h s n) = (Ok res, w').
Proof.
  intros Hd Hne Hq Hgeo Hs.
  pose proof Hs as (Hnba & Hsid & _). pose proof Hgeo as (Hlat & Hlon & _).
  pose proof (proj1 (bool_decide_eq_true _) Hnba) as Hnba'.
  destruct (get_bike_availability _ _ _ _ _) as [[res|e] w'] eqn:H; [eauto|exfalso].
  rewrite <- (app_nil_r h) in H.
  unfold get_bike_availability in H.
  unfold mbind, M_bind, lift in H.
  rewrite (run_copy_old _ _ _ _ _ _ Hd) in H. cbn [length app] in H.
  do 6 step H.
  destruct (apply_distance_cases latlon d) as [[Hnil _]|[_ Ha]]; [done|].
  rewrite Ha in H; clear Ha.
  destruct (apply_distance_ok latlon d Hq Hgeo) as [a Ea]. rewrite Ea in H.
  cbn [setitem_applied] in H.
  step H.
  rewrite (working_frame _ _ _ Ea) in H. clear Ea.
  destruct modes as [|mode [|mode2 modes]].
  - filter_stage H Hs. filter_stage H Hs.
    rewrite mask_or_map in H. step H. rewrite boolean_index_map in H.
    filter_stage H Hs. step H. rewrite boolean_index_map in H.
    total_tail H Hs Hgeo.
  - step H. rewrite has_column_work_columns in H.
    destruct (bool_decide (mode ∈ work_columns d)) eqn:Hmode.
    + filter_stage H Hs. step H. rewrite boolean_index_map in H.
      filter_stage H Hs. step H. rewrite boolean_index_map in H.
      total_tail H Hs Hgeo.
    + unfold mret, M_ret in H.
      filter_stage H Hs. step H. rewrite boolean_index_map in H.
      total_tail H Hs Hgeo.
  - filter_stage H Hs. filter_stage H Hs.
    rewrite mask_or_map in H. step H. rewrite boolean_index_map in H.
    filter_stage H Hs. step H. rewrite boolean_index_map in H.
    total_tail H Hs Hgeo.
Qed.

Lemma get_bike_availability_survivor latlon df modes w d res :
  frames w !! df = Some d →
  (get_bike_availability geodesic_km latlon df modes w).1 = Ok res →
  res = option_map station_of
          (nearest (km' latlon)
             (List.filter (bike_candidate' latlon modes d) (map snd (rows d)))).
Proof.
  destruct w as [h s n]. cbn [frames]. intros Hd Hr.
  destruct (get_bike_availability _ _ _ _ _) as [o w'] eqn:H. cbn in Hr. subst o.
  by eapply get_bike_availability_result.
Qed.

(** C1 (amended). Whenever the bike search returns a station, it is the
    (station_id, lat, lon) of a row of the caller's frame that has
    num_bikes_available > 0 and passes the mode filter, its distance to the
    query is at most that of every surviving row and strictly below that
    of every surviving row that comes before it (a tie goes to the first).
    The search returns none only when no row survives; and on a frame
    that has rows, valid lat/lon and numeric count columns it does return,
    with none when no row survives. *)
Theorem get_bike_availability_nearest_available
    (latlon : Q * Q) (df : ref) (modes : list string) (w : world) (d : DataFrame) :
  frames w !! df = Some d →
  (∀ res, (get_bike_availability geodesic_km latlon df modes w).1 = Ok (Some res) →
     ∃ k i r, rows d !! k = Some (i, r) ∧ res = station_of r ∧
       is_positive (r "num_bikes_available") = true ∧
       bike_candidate' latlon modes d r = true ∧
       ∀ k' i' r', rows d !! k' = Some (i', r') →
         bike_candidate' latlon modes d r' = true →
         (km' latlon r <= km' latlon r')%Q ∧
         ((k' < k)%nat → (km' latlon r < km' latlon r')%Q))
  ∧ ((get_bike_availability geodesic_km latlon df modes w).1 = Ok None →
       ∀ i r, (i, r) ∈ rows d → bike_candidate' latlon modes d r = false)
  ∧ (rows d ≠ [] →
     valid_latitude latlon.1 = true → valid_geography d → searchable modes d →
       ∃ res, (get_bike_availability geodesic_km latlon df modes w).1 = Ok res ∧
         ((∀ i r, (i, r) ∈ rows d → bike_candidate' latlon modes d r = false) →
          res = None)).
Proof.
  intros Hd.
  pose proof (λ res, get_bike_availability_survivor latlon df modes w d res Hd) as Hres.
  destruct w as [h s n]. cbn [frames] in Hd.
  split; [|split].
  - intros res Hr. apply Hres in Hr.
    destruct (nearest _ _) as [r|] eqn:Hn; [|done]. injection Hr as ->.
    apply nearest_filter_spec in Hn as (k & Hk & Hc & Hmin).
    rewrite list_lookup_fmap in Hk.
    destruct (rows d !! k) as [[i r0]|] eqn:Hk0; [|done]. injection Hk as ->.
    exists k, i, r. split; [done|]. split; [done|]. split.
    { unfold bike_candidate in Hc. by apply andb_true_iff in Hc as [_ ?]. }
    split; [done|]. intros k' i' r' Hk' Hc'. apply (Hmin k' r'); [|done].
    by rewrite list_lookup_fmap, Hk'.
  - intros Hr i r Hin. apply Hres in Hr. symmetry in Hr.
    destruct (nearest _ _) eqn:Hn; [done|]. apply nearest_none in Hn.
    destruct (bike_candidate' latlon modes d r) eqn:Hc; [|done].
    assert (r ∈ List.filter (bike_candidate' latlon modes d) (map snd (rows d))) as Hf.
    { apply list_elem_of_In, filter_In. split; [|done].
      apply in_map_iff. exists (i, r). split; [done|]. by apply list_elem_of_In. }
    rewrite Hn in Hf. by apply elem_of_nil in Hf.
  - intros Hne Hq Hgeo Hs.
    destruct (get_bike_availability_returns h s n df d latlon modes
                Hd Hne Hq Hgeo Hs) as (res & w' & Hrun).
    exists res. rewrite Hrun. split; [done|]. intros Hnone.
    specialize (Hres res). rewrite Hrun in Hres. rewrite (Hres eq_refl).
    rewrite (filter_ext_elem _ (λ _, false)).
    + assert (Hnil : ∀ l : list row, List.filter (λ _, false) l = [])
        by (induction l; auto).
      by rewrite Hnil.
    + intros r Hin. apply list_elem_of_In, in_map_iff in Hin as ([i r0] & <- & Hin).
      apply (Hnone i). by apply list_elem_of_In.
Qed.

(** C2. Every station the bike search returns is a row that survives the
    filters; with exactly one mode, mechanical or ebike, a surviving row
    has that column in the caller's frame and a positive count in it; with
    no mode or several, a surviving row has mechanical > 0 or ebike > 0. *)
Theorem get_bike_availability_mode_filter
    (latlon : Q * Q) (df : ref) (modes : list string) (w : world) (d : DataFrame) :
  frames w !! df = Some d →
  (∀ res, (get_bike_availability geodesic_km latlon df modes w).1 = Ok (Some res) →
     ∃ i r, (i, r) ∈ rows d ∧ res = station_of r ∧
       bike_candidate' latlon modes d r = true)
  ∧ (∀ r mode, modes = [mode] → mode = "mechanical" ∨ mode = "ebike" →
       bike_candidate' latlon modes d r = true →
       has_column mode d = true ∧ is_positive (r mode) = true)
  ∧ (∀ r, (∀ mode, modes ≠ [mode]) →
       bike_candidate' latlon modes d r = true →
       (has_column "mechanical" d = true ∧ is_positive (r "mechanical") = true)
       ∨ (has_column "ebike" d = true ∧ is_positive (r "ebike") = true)).
Proof.
  intros Hd. split; [|split].
  - intros res Hr. apply (get_bike_availability_survivor _ _ _ _ _ _ Hd) in Hr.
    destruct (nearest _ _) as [r|] eqn:Hn; [|done]. injection Hr as ->.
    apply nearest_filter_spec in Hn as (k & Hk & Hc & _).
    rewrite list_lookup_fmap in Hk.
    destruct (rows d !! k) as [[i r0]|] eqn:Hk0; [|done]. injection Hk as ->.
    exists i, r. split; [by eapply list_elem_of_lookup_2|done].
  - intros r mode -> Hmode Hc. unfold bike_candidate, mode_filter in Hc.
    apply andb_true_iff in Hc as [Hc _].
    assert (bool_decide (mode ∈ work_columns d) = true) as Hin.
    { destruct Hmode as [-> | ->]; apply bool_decide_eq_true, work_columns_elem; auto. }
    rewrite Hin in Hc. unfold work, upd, fill in Hc.
    destruct Hmode as [-> | ->];
      destruct (has_column "mechanical" d), (has_column "ebike" d);
      cbn in Hc; done.
  - intros r Hmodes Hc. unfold bike_candidate, mode_filter in Hc.
    apply andb_true_iff in Hc as [Hc _].
    assert (is_positive (work geodesic_km latlon d r "mechanical")
            || is_positive (work geodesic_km latlon d r "ebike") = true) as Hor.
    { destruct modes as [|m [|m2 ms]]; [done| |done]. by destruct (Hmodes m). }
    clear Hc. unfold work, upd, fill in Hor. cbn in Hor.
    destruct (has_column "ebike" d), (has_column "mechanical" d); cbn in Hor;
      apply orb_true_iff in Hor as [?|?]; try done; auto.
Qed.

(** C10. The two proximity resolvers leave every DataFrame object that
    existed before the call exactly as it was, the caller's frame included:
    no distance column, no synthesized mechanical or ebike column, no row
    removed, no cell altered. *)
Theorem proximity_resolvers_leave_frames_unchanged
    (latlon : Q * Q) (df : ref) (modes : list string) (w : world) :
  (∀ r d, frames w !! r = Some d →
     frames (get_bike_availability geodesic_km latlon df modes w).2 !! r = Some d)
  ∧ (∀ r d, frames w !! r = Some d →
       frames (get_dock_availability geodesic_km latlon df w).2 !! r = Some d).
Proof.
  split; intros r d Hr.
  - destruct (local_get_bike_availability (frames w) latlon df modes
                (session_state w) (notices w) w) as [(Hp & _) _]; [done|].
    by eapply prefix_lookup_Some.
  - destruct (local_get_dock_availability (frames w) latlon df
                (session_state w) (notices w) w) as [(Hp & _) _]; [done|].
    by eapply prefix_lookup_Some.
Qed.

End ProximityFacts.



Lemma classic_only_rows i r :
  (i, r) ∈ rows classic_only_station →
  r = record_row (as_record (station "X" (40758 # 1000) (-(73985 # 1000)) 5 3 5 0)).
Proof.
  intros Hin. apply list_elem_of_lookup_1 in Hin as [[|k] Hk].
  - by injection Hk as _ <-.
  - destruct k; discriminate Hk.
Qed.

Lemma get_bike_availability_nearest_available_witness :
  (∃ k i r, rows tie_stations !! k = Some (i, r) ∧
    [VStr "A"; VFloat (4075 # 100); VFloat (-(7398 # 100))] = station_of r ∧
    is_positive (r "num_bikes_available") = true ∧
    bike_candidate planar_km times_square [] tie_stations r = true ∧
    ∀ k' i' r', rows tie_stations !! k' = Some (i', r') →
      bike_candidate planar_km times_square [] tie_stations r' = true →
      (km planar_km times_square r <= km planar_km times_square r')%Q ∧
      ((k' < k)%nat → (km planar_km times_square r < km planar_km times_square r')%Q))
  ∧ (∀ i r, (i, r) ∈ rows classic_only_station →
       bike_candidate planar_km times_square ["ebike"] classic_only_station r = false)
  ∧ ∃ res, (get_bike_availability planar_km times_square 0 ["ebike"]
              (world_of [classic_only_station])).1 = Ok res ∧
      ((∀ i r, (i, r) ∈ rows classic_only_station →
          bike_candidate planar_km times_square ["ebike"] classic_only_station r = false) →
       res = None).
Proof.
  split; [|split].
  - apply (proj1 (get_bike_availability_nearest_available planar_km times_square 0 []
                    (world_of [tie_stations]) tie_stations eq_refl)).
    vm_compute. reflexivity.
  - apply (proj1 (proj2 (get_bike_availability_nearest_available planar_km times_square 0
                    ["ebike"] (world_of [classic_only_station]) classic_only_station
                    eq_refl))).
    vm_compute. reflexivity.
  - apply (proj2 (proj2 (get_bike_availability_nearest_available planar_km times_square 0
                    ["ebike"] (world_of [classic_only_station]) classic_only_station
                    eq_refl))).
    + discriminate.
    + reflexivity.
    + split; [reflexivity|]. split; [reflexivity|].
      intros i r Hin. rewrite (classic_only_rows i r Hin). eexists. vm_compute. reflexivity.
    + split; [reflexivity|]. split; [reflexivity|].
      intros i r c Hin _ Hc. rewrite (classic_only_rows i r Hin).
      repeat (apply elem_of_cons in Hc as [->|Hc]; [reflexivity|]).
      by apply elem_of_nil in Hc.
Defined.

(** C1 as stated fails on a tie: two stations at the same coordinates both
    survive, the first is returned, and its distance is not strictly below
    the other's (whatever the distance function). *)
Lemma get_bike_availability_tie :
  (get_bike_availability planar_km times_square 0 [] (world_of [tie_stations])).1
  = Ok (Some [VStr "A"; VFloat (4075 # 100); VFloat (-(7398 # 100))])
  ∧ ∃ rA rB, rows tie_stations = [(0%Z, rA); (1%Z, rB)] ∧
      rB "station_id" = VStr "B" ∧
      bike_candidate planar_km times_square [] tie_stations rB = true ∧
      ¬ (km planar_km times_square rA < km planar_km times_square rB)%Q.
Proof.
  split; [vm_compute; reflexivity|].
  eexists _, _. split; [reflexivity|]. split; [reflexivity|].
  split; [vm_compute; reflexivity|].
  intros H. vm_compute in H. discriminate H.
Qed.

(** On a frame with columns and no row [apply] hands back a frame, and the
    assignment of the distance column raises. *)
Example get_bike_availability_no_rows :
  (get_bike_availability planar_km times_square 0 []
     (world_of [mkDataFrame (columns tie_stations) []])).1 = Raise ValueError.
Proof. vm_compute. reflexivity. Qed.

Lemma get_bike_availability_mode_filter_witness :
  (∃ i r, (i, r) ∈ rows mixed_stations ∧
    [VStr "Y"; VFloat (4076 # 100); VFloat (-(7399 # 100))] = station_of r ∧
    bike_candidate planar_km times_square ["ebike"] mixed_stations r = true)
  ∧ (has_column "ebike" mixed_stations = true ∧
     is_positive
       (record_row (as_record (station "Y" (4076 # 100) (-(7399 # 100)) 3 9 0 3)) "ebike")
     = true)
  ∧ ((has_column "mechanical" mixed_stations = true ∧
      is_positive
        (record_row (as_record (station "X" (40758 # 1000) (-(73985 # 1000)) 5 3 5 0))
           "mechanical") = true)
     ∨ (has_column "ebike" mixed_stations = true ∧
        is_positive
          (record_row (as_record (station "X" (40758 # 1000) (-(73985 # 1000)) 5 3 5 0))
             "ebike") = true)).
Proof.
  split; [|split].
  - apply (proj1 (get_bike_availability_mode_filter planar_km times_square 0 ["ebike"]
                    (world_of [mixed_stations]) mixed_stations eq_refl)).
    vm_compute. reflexivity.
  - apply (proj1 (proj2 (get_bike_availability_mode_filter planar_km times_square 0
                           ["ebike"] (world_of [mixed_stations]) mixed_stations eq_refl))
             _ "ebike").
    + reflexivity.
    + by right.
    + vm_compute. reflexivity.
  - apply (proj2 (proj2 (get_bike_availability_mode_filter planar_km times_square 0
                           [] (world_of [mixed_stations]) mixed_stations eq_refl))).
    + discriminate.
    + vm_compute. reflexivity.
Defined.

(** The instance of the specification: ebike-only excludes a station with
    mechanical = 5 and ebike = 0 although it has bikes. *)
Example ebike_only_excludes_classic_station :
  bike_candidate planar_km times_square ["ebike"] classic_only_station
    (record_row (as_record (station "X" (40758 # 1000) (-(73985 # 1000)) 5 3 5 0)))
  = false
  ∧ (get_bike_availability planar_km times_square 0 ["ebike"]
       (world_of [classic_only_station])).1 = Ok None.
Proof. split; vm_compute; reflexivity. Qed.

Lemma proximity_resolvers_leave_frames_unchanged_witness :
  frames (get_bike_availability planar_km times_square 0 ["ebike"]
            (world_of [mixed_stations])).2 !! 0%nat = Some mixed_stations
  ∧ frames (get_dock_availability planar_km times_square 0
              (world_of [mixed_stations])).2 !! 0%nat = Some mixed_stations.
Proof.
  split.
  - apply (proj1 (proximity_resolvers_leave_frames_unchanged planar_km times_square 0
                    ["ebike"] (world_of [mixed_stations]))). reflexivity.
  - apply (proj2 (proximity_resolvers_leave_frames_unchanged planar_km times_square 0
                    ["ebike"] (world_of [mixed_stations]))). reflexivity.
Defined.

(** ** The route adapter *)

Section FloatFacts.
Local Open Scope Q_scope.

Lemma round_half_even_close (q : Q) :
  (Qabs (inject_Z (round_half_even q) - q) <= 1 # 2)%Q.
Proof.
  unfold round_half_even.
  pose proof (Qfloor_le q) as Hlo. pose proof (Qlt_floor q) as Hhi.
  rewrite inject_Z_plus in Hhi. change (inject_Z 1) with 1%Q in Hhi.
  apply Qabs_Qle_condition.
  destruct (Qcompare_spec (q - inject_Z (Qfloor q)) (1 # 2)) as [He|Hl|Hg].
  - destruct (Z.even (Qfloor q)); rewrite ?inject_Z_plus; change (inject_Z 1) with 1%Q;
      split; lra.
  - split; lra.
  - rewrite inject_Z_plus. change (inject_Z 1) with 1%Q. split; lra.
Qed.

Lemma pow2_pos e : 0 < pow2 e.
Proof. unfold pow2. by apply Qpower_0_lt. Qed.

Lemma pow2_add a b : pow2 (a + b) == pow2 a * pow2 b.
Proof. unfold pow2. by apply Qpower_plus. Qed.

Lemma pow2_sub a b : pow2 (a - b) == pow2 a / pow2 b.
Proof. unfold pow2. by apply Qpower_minus. Qed.

Lemma pow2_inject (n : Z) : (0 <= n)%Z → pow2 n == inject_Z (2 ^ n).
Proof. intros H. unfold pow2. symmetry. by apply (Zpower_Qpower 2). Qed.

Lemma pow2_le a b : (a <= b)%Z → pow2 a <= pow2 b.
Proof. intros H. unfold pow2. by apply Qpower_le_compat_l. Qed.

(** [log2_floor] is at most the binary logarithm. *)
Lemma log2_floor_le (q : Q) : 0 < q → pow2 (log2_floor q) <= q.
Proof.
  intros Hq. unfold log2_floor.
  destruct (Qle_bool _ q) eqn:E; [by apply Qle_bool_iff in E|]. clear E.
  destruct q as [n d]. cbn [Qnum Qden].
  assert (0 < n)%Z as Hn.
  { unfold Qlt in Hq. cbn in Hq. lia. }
  set (a := Z.log2 n). set (b := Z.log2 (Z.pos d)).
  assert (0 <= a)%Z as Ha by apply Z.log2_nonneg.
  assert (0 <= b)%Z as Hb by apply Z.log2_nonneg.
  destruct (Z.log2_spec n Hn) as [Hn1 _]. fold a in Hn1.
  destruct (Z.log2_spec (Z.pos d) ltac:(lia)) as [_ Hd2]. fold b in Hd2.
  replace (a - b - 1)%Z with (a - (b + 1))%Z by lia.
  rewrite pow2_sub, !pow2_inject by lia.
  replace (Z.succ b) with (b + 1)%Z in Hd2 by lia.
  assert (0 < 2 ^ (b + 1))%Z as Hp by (apply Z.pow_pos_nonneg; lia).
  unfold Qdiv, Qle, Qinv, inject_Z, Qmult. cbn [Qnum Qden].
  destruct (2 ^ (b + 1))%Z as [|p|p] eqn:Ep; [lia| |lia].
  cbn [Qnum Qden]. rewrite !Z.mul_1_r, Pos.mul_1_l.
  nia.
Qed.

Lemma ulp_le (q : Q) :
  ¬ q == 0 → pow2 (ulp_exp q) <= Qabs q * pow2 (-52) + pow2 (-1074).
Proof.
  intros Hq. unfold ulp_exp.
  assert (0 < Qabs q) as Hpos.
  { destruct (Qlt_le_dec 0 q) as [H0|H0].
    - rewrite Qabs_pos; lra.
    - destruct (Qlt_le_dec q 0) as [H1|H1].
      + rewrite Qabs_neg; lra.
      + exfalso. apply Hq. by apply Qle_antisym. }
  pose proof (log2_floor_le _ Hpos) as Hl.
  pose proof (pow2_pos (-52)) as H52. pose proof (pow2_pos (-1074)) as H74.
  set (A := Qabs q) in *. set (l := log2_floor A) in *.
  destruct (Z.max_spec (l - 52) (-1074)) as [[_ ->]|[_ ->]].
  - assert (0 <= A * pow2 (-52)) by (apply Qmult_le_0_compat; lra). lra.
  - replace (l - 52)%Z with (l + -52)%Z by lia. rewrite pow2_add.
    assert (pow2 l * pow2 (-52) <= A * pow2 (-52)).
    { apply Qmult_le_compat_r; lra. }
    lra.
Qed.

(** The double of [q] is within half a unit in the last place of [q]. *)
Lemma to_double_close (q x : Q) :
  to_double q = Finite x →
  Qabs (x - q) <= (Qabs q * pow2 (-52) + pow2 (-1074)) / 2.
Proof.
  unfold to_double. pose proof (pow2_pos (-52)) as H52.
  pose proof (pow2_pos (-1074)) as H74. pose proof (Qabs_nonneg q) as Hq.
  assert (0 <= Qabs q * pow2 (-52)) as Hm by (apply Qmult_le_0_compat; lra).
  destruct (Qeq_bool q 0) eqn:E.
  - apply Qeq_bool_iff in E. intros [= <-].
    assert (0 - q == 0) as -> by lra. change (Qabs 0) with 0.
    set (P := Qabs q * pow2 (-52)) in *. set (S := pow2 (-1074)) in *.
    unfold Qdiv. change (/ 2) with (1 # 2). lra.
  - assert (¬ q == 0) as Hne.
    { intros H0. apply Qeq_bool_iff in H0. congruence. }
    destruct (Qle_bool _ _); [done|]. intros H.
    assert (x = Qred (inject_Z (round_half_even (q / pow2 (ulp_exp q)))
                      * pow2 (ulp_exp q))) as -> by congruence.
    clear H.
    pose proof (ulp_le q Hne) as Hu. pose proof (pow2_pos (ulp_exp q)) as Hp.
    set (u := pow2 (ulp_exp q)) in *.
    pose proof (round_half_even_close (q / u)) as Hr.
    set (m := inject_Z (round_half_even (q / u))) in *.
    rewrite Qred_correct.
    assert (m * u - q == (m - q / u) * u) as -> by (field; lra).
    rewrite Qabs_Qmult, (Qabs_pos u) by lra.
    assert (Qabs (m - q / u) * u <= (1 # 2) * u).
    { apply Qmult_le_compat_r; lra. }
    set (X := Qabs (m - q / u) * u) in *.
    set (P := Qabs q * pow2 (-52)) in *. set (S := pow2 (-1074)) in *.
    unfold Qdiv. change (/ 2) with (1 # 2). lra.
Qed.

(** No overflow below [2 ** 1023]. *)
Lemma to_double_finite (q : Q) :
  Qabs q <= pow2 1023 → ∃ x, to_double q = Finite x.
Proof.
  intros Hb. unfold to_double.
  destruct (Qeq_bool q 0) eqn:E; [by eexists|].
  destruct (Qle_bool _ _) eqn:Eo; [|by eexists]. exfalso.
  apply Qle_bool_iff in Eo.
  assert (¬ q == 0) as Hne.
  { intros H0. apply Qeq_bool_iff in H0. congruence. }
  pose proof (ulp_le q Hne) as Hu. pose proof (pow2_pos (ulp_exp q)) as Hp.
  set (u := pow2 (ulp_exp q)) in *.
  pose proof (round_half_even_close (q / u)) as Hr.
  set (m := inject_Z (round_half_even (q / u))) in *.
  rewrite Qred_correct in Eo.
  assert (Qabs (m * u - q) <= (1 # 2) * u) as Hc.
  { assert (m * u - q == (m - q / u) * u) as -> by (field; lra).
    rewrite Qabs_Qmult, (Qabs_pos u) by lra.
    apply Qmult_le_compat_r; lra. }
  assert (pow2 1024 == 2 * pow2 1023) as H1024.
  { change 1024%Z with (1 + 1023)%Z. rewrite pow2_add. reflexivity. }
  assert (pow2 (-52) <= 1 # 2) as H52.
  { change (1 # 2) with (pow2 (-1)). by apply pow2_le. }
  assert (pow2 (-1074) <= pow2 1023) as H74 by by apply pow2_le.
  pose proof (pow2_pos 1023) as HP. pose proof (pow2_pos (-52)) as H52'.
  pose proof (Qabs_nonneg q) as Hq.
  assert (Qabs q * pow2 (-52) <= pow2 1023 * (1 # 2)) as Hprod.
  { apply Qmult_le_compat_nonneg; split; lra. }
  pose proof (Qabs_triangle (m * u - q) q) as Ht.
  assert (m * u - q + q == m * u) as Hs by ring. rewrite Hs in Ht.
  lra.
Qed.

Lemma pow2_52 : pow2 (-52) == 1 # 4503599627370496.
Proof. reflexivity. Qed.

Lemma pow2_1074_le : pow2 (-1074) <= 1 # 4503599627370496.
Proof. rewrite <- pow2_52. by apply pow2_le. Qed.

Lemma pow2_1023_ge : 1000000000 <= pow2 1023.
Proof.
  apply Qle_trans with (pow2 30); [|by apply pow2_le].
  rewrite pow2_inject by done. unfold Qle; cbn. lia.
Qed.

(** One rounding to a double, for a number of moderate size. *)
Lemma to_double_moderate (q : Q) :
  Qabs q <= 1000000001 →
  ∃ x, to_double q = Finite x ∧
       Qabs (x - q) <= (Qabs q * (1 # 4503599627370496) + (1 # 4503599627370496)) / 2.
Proof.
  intros Hb. pose proof pow2_1023_ge as HP.
  destruct (to_double_finite q) as [x Hx].
  { pose proof (pow2_le 31 1023 ltac:(done)) as H31.
    rewrite (pow2_inject 31) in H31 by done.
    assert (1000000001 <= inject_Z (2 ^ 31)) by (unfold Qle; cbn; lia). lra. }
  exists x. split; [done|]. apply to_double_close in Hx.
  pose proof pow2_1074_le as HS. rewrite pow2_52 in Hx.
  set (S := pow2 (-1074)) in *. set (A := Qabs q * (1 # 4503599627370496)) in *.
  unfold Qdiv in *. change (/ 2) with (1 # 2) in *. lra.
Qed.

Lemma Qabs_bounds (a b : Q) : Qabs a <= b ↔ - b <= a ∧ a <= b.
Proof. apply Qabs_Qle_condition. Qed.

(** A tenth next to [x]. *)
Lemma round_half_even_tenths (x : Q) :
  Qabs (inject_Z (round_half_even (x * 10)) / 10 - x) <= 1 # 20.
Proof.
  pose proof (round_half_even_close (x * 10)) as H.
  apply Qabs_bounds in H as [H1 H2]. apply Qabs_bounds.
  set (n := inject_Z (round_half_even (x * 10))) in *.
  unfold Qdiv. change (/ 10) with (1 # 10). split; lra.
Qed.

Lemma to_double_60 : to_double (inject_Z 60) = Finite 60.
Proof. vm_compute. reflexivity. Qed.

(** The division of a duration of at most 10^9 seconds: a finite float
    next to the exact quotient. *)
Lemma truediv_minutes (secs : value) (q : Q) :
  as_number secs = Some q → Qabs q <= 1000000000 →
  ∃ x, truediv secs 60 = Ok (Finite x) ∧ Qabs (x - q / 60) <= 1 # 200000000.
Proof.
  intros Hq Hb.
  assert (∀ z : Z, Qabs (inject_Z z) <= 1000000000 →
            ∃ x, match to_double (inject_Z z / inject_Z 60) with
                 | Finite q => Ok (Finite q)
                 | NonFinite _ => Raise OverflowError
                 end = Ok (Finite x)
                 ∧ Qabs (x - inject_Z z / 60) <= 1 # 200000000) as Hint.
  { intros z Hz. change (inject_Z 60) with 60.
    apply Qabs_bounds in Hz as [Hz1 Hz2].
    assert (Qabs (inject_Z z / 60) <= 16666667) as Hq60.
    { apply Qabs_bounds. unfold Qdiv. change (/ 60) with (1 # 60). split; lra. }
    destruct (to_double_moderate (inject_Z z / 60)) as (x & Hx & Hc); [lra|].
    rewrite Hx. exists x. split; [done|].
    pose proof (Qabs_nonneg (inject_Z z / 60)) as H0.
    set (A := Qabs (inject_Z z / 60)) in *.
    set (E := Qabs (x - inject_Z z / 60)) in *.
    unfold Qdiv in Hc. change (/ 2) with (1 # 2) in Hc. lra. }
  destruct secs as [|b|z|f| | | | |]; try discriminate Hq; injection Hq as <-.
  - unfold truediv. destruct b.
    + apply (Hint 1%Z). done.
    + apply (Hint 0%Z). done.
  - unfold truediv. by apply Hint.
  - unfold truediv. change (Z.pos 60) with 60%Z. rewrite to_double_60.
    destruct (to_double_moderate f) as (x0 & Hx0 & Hc0); [lra|]. rewrite Hx0.
    pose proof (Qabs_nonneg f) as Hf0.
    assert (Qabs (x0 - f) <= 1 # 8000000) as Hc0'.
    { set (A := Qabs f) in *. unfold Qdiv in Hc0. change (/ 2) with (1 # 2) in Hc0. lra. }
    apply Qabs_bounds in Hc0' as [Ha Hb']. apply Qabs_bounds in Hb as [Hb1 Hb2].
    assert (Qabs (x0 / 60) <= 16666667) as Hq60.
    { apply Qabs_bounds. unfold Qdiv. change (/ 60) with (1 # 60). split; lra. }
    destruct (to_double_moderate (x0 / 60)) as (x & Hx & Hc); [lra|].
    rewrite Hx. exists x. split; [done|].
    pose proof (Qabs_nonneg (x0 / 60)) as H0.
    assert (Qabs (x - x0 / 60) <= 1 # 500000000) as Hc'.
    { set (A := Qabs (x0 / 60)) in *. set (E := Qabs (x - x0 / 60)) in *.
      unfold Qdiv in Hc. change (/ 2) with (1 # 2) in Hc. lra. }
    apply Qabs_bounds in Hc' as [Hc1 Hc2]. apply Qabs_bounds.
    unfold Qdiv in *. change (/ 60) with (1 # 60) in *. split; lra.
Qed.

(** [round(x, 1)] on a float of moderate size: the double next to a whole
    number of tenths, the tenth next to [x]. *)
Lemma round1_minutes (x : Q) :
  Qabs x <= 20000000 →
  ∃ m, round1 (Finite x) = Finite m ∧
       to_double (inject_Z (round_half_even (x * 10)) / 10) = Finite m ∧
       Qabs (m - inject_Z (round_half_even (x * 10)) / 10) <= 1 # 400000000.
Proof.
  intros Hb. pose proof (round_half_even_tenths x) as Ht.
  set (t := inject_Z (round_half_even (x * 10)) / 10) in *.
  apply Qabs_bounds in Hb as [Hb1 Hb2]. apply Qabs_bounds in Ht as [Ht1 Ht2].
  assert (Qabs t <= 20000001) as Hbt by (apply Qabs_bounds; split; lra).
  destruct (to_double_moderate t) as (m & Hm & Hc); [lra|].
  exists m. cbn [round1]. fold t. split; [done|]. split; [done|].
  pose proof (Qabs_nonneg t) as H0. set (A := Qabs t) in *.
  unfold Qdiv in Hc. change (/ 2) with (1 # 2) in Hc. lra.
Qed.

End FloatFacts.

Lemma traverse_swap (pairs : list (value * value)) :
  traverse swap_pair (map (λ p : value * value, VList [p.1; p.2]) pairs)
  = Ok (map (λ p : value * value, VList [p.2; p.1]) pairs).
Proof. induction pairs as [|p l IH]; cbn; [done|]. by rewrite IH. Qed.

Section RoutingFacts.
Variable py_repr : value → string.
Variable requests_get : string → outcome response.

(** C7. On a successful response whose first route carries the polyline
    [[lon, lat], ...] and a numeric duration of at most 10^9 seconds, the
    route adapter returns the pairs swapped to [lat, lon] in the same
    order, and the duration in minutes rounded to one decimal place: the
    float next to tenths / 10 for a whole number of tenths, and tenths / 10
    is within 0.05 of seconds / 60, up to the rounding of the float
    division (less than 10^-8). *)
Theorem run_osrm_converts_units (chosen_station : list value) (iamhere : Q * Q)
    (url : string) (r : response) (d : list (string * value))
    (route : value) (others : list value) (geometry secs : value)
    (pairs : list (value * value)) (q : Q) :
  osrm_url py_repr chosen_station iamhere = Ok url →
  requests_get url = Ok r →
  raise_for_status r = Ok tt →
  json r = Ok (VDict d) →
  dict_get d "routes" = Some (VList (route :: others)) →
  subscript_key route "geometry" = Ok geometry →
  subscript_key geometry "coordinates"
    = Ok (VList (map (λ p : value * value, VList [p.1; p.2]) pairs)) →
  subscript_key route "duration" = Ok secs →
  as_number secs = Some q →
  (Qabs q <= 1000000000)%Q →
  ∃ (tenths : Z) (minutes : Q),
    run_osrm py_repr requests_get chosen_station iamhere
    = Ok (VList (map (λ p : value * value, VList [p.2; p.1]) pairs), VFloat minutes)
    ∧ to_double (inject_Z tenths / 10) = Finite minutes
    ∧ (Qabs (inject_Z tenths / 10 - q / 60) <= (1 # 20) + (1 # 100000000))%Q
    ∧ (Qabs (minutes - q / 60) <= (1 # 20) + (1 # 100000000))%Q.
Proof.
  intros Hurl Hget Hst Hjson Hroutes Hgeo Hcs Hsecs Hq Hb.
  destruct (truediv_minutes secs q Hq Hb) as (x & Hx & Hc).
  assert (Qabs x <= 20000000)%Q as Hbx.
  { apply Qabs_bounds in Hb as [Hb1 Hb2]. apply Qabs_bounds in Hc as [Hc1 Hc2].
    apply Qabs_bounds. unfold Qdiv in *. change (/ 60)%Q with (1 # 60)%Q in *.
    split; lra. }
  destruct (round1_minutes x Hbx) as (m & Hr & Hm & Hcm).
  pose proof (round_half_even_tenths x) as Ht.
  exists (round_half_even (x * 10)), m.
  set (t := (inject_Z (round_half_even (x * 10)) / 10)%Q) in *.
  split; [|split; [done|]].
  - unfold run_osrm. rewrite Hurl. cbn [mbind outcome_bind]. rewrite Hget.
    cbn [mbind outcome_bind]. rewrite Hst. cbn [mbind outcome_bind].
    rewrite Hjson. cbn [mbind outcome_bind].
    rewrite Hroutes. cbn [default id truthy negb subscript_pos lookup list_lookup mbind outcome_bind].
    rewrite Hgeo. cbn [mbind outcome_bind]. rewrite Hcs. cbn [mbind outcome_bind iterate].
    rewrite traverse_swap. rewrite Hsecs. cbn [mbind outcome_bind].
    rewrite Hx. cbn [mbind outcome_bind]. by rewrite Hr.
  - apply Qabs_bounds in Hc as [Hc1 Hc2]. apply Qabs_bounds in Ht as [Ht1 Ht2].
    apply Qabs_bounds in Hcm as [Hm1 Hm2].
    split; apply Qabs_bounds; split; lra.
Qed.

End RoutingFacts.


Lemma run_osrm_converts_units_witness :
  ∃ (tenths : Z) (minutes : Q),
    run_osrm plain_repr (osrm_reply sample_route)
      [VStr "A"; VFloat (4075 # 100); VFloat (-(7398 # 100))] times_square
    = Ok (VList [VList [VFloat (4075 # 100); VFloat (-(7398 # 100))];
                 VList [VFloat (4076 # 100); VFloat (-(7399 # 100))]],
          VFloat minutes)
    ∧ to_double (inject_Z tenths / 10) = Finite minutes
    ∧ (Qabs (inject_Z tenths / 10 - 630 / 60) <= (1 # 20) + (1 # 100000000))%Q
    ∧ (Qabs (minutes - 630 / 60) <= (1 # 20) + (1 # 100000000))%Q.
Proof.
  eapply (run_osrm_converts_units plain_repr (osrm_reply sample_route)
           [VStr "A"; VFloat (4075 # 100); VFloat (-(7398 # 100))] times_square
           _ (mkResponse 200 (Ok sample_route)) _ _ [] _ (VInt 630)
           [(VFloat (-(7398 # 100)), VFloat (4075 # 100));
            (VFloat (-(7399 # 100)), VFloat (4076 # 100))] 630);
    try reflexivity.
  unfold Qle; cbn; lia.
Defined.

(** The instance of the specification, and durations whose quotient is no
    tenth: 630 seconds are 10.5 minutes; 639 seconds are 10.65 minutes in
    exact arithmetic, the float of 639 / 60 is above 10.65 and the result
    is the float 10.7; 3 seconds give the float 0.1. *)
Example run_osrm_rounds_as_floats :
  let reply secs :=
    osrm_reply (VDict [("routes",
                        VList [VDict [("geometry", VDict [("coordinates", VList [])]);
                                      ("duration", secs)]])]) in
  let station := [VStr "A"; VFloat (4075 # 100); VFloat (-(7398 # 100))] in
  run_osrm plain_repr (reply (VInt 630)) station times_square
  = Ok (VList [], VFloat (21 # 2))
  ∧ run_osrm plain_repr (reply (VInt 639)) station times_square
    = Ok (VList [], float_value (to_double (107 # 10)))
  ∧ run_osrm plain_repr (reply (VFloat 639)) station times_square
    = Ok (VList [], float_value (to_double (107 # 10)))
  ∧ run_osrm plain_repr (reply (VInt 3)) station times_square
    = Ok (VList [], float_value (to_double (1 # 10)))
  ∧ run_osrm plain_repr (reply (VNonFinite NaN)) station times_square
    = Ok (VList [], VNonFinite NaN)
  ∧ run_osrm plain_repr (reply (VFloat (inject_Z (10 ^ 999)))) station times_square
    = Ok (VList [], VNonFinite PosInf)
  ∧ run_osrm plain_repr (reply VNull) station times_square = Raise TypeError.
Proof. repeat split; vm_compute; reflexivity. Qed.


(** C8 fails for a status that is no success and no error either: a
    final 304 passes raise_for_status, and the body, which does not decode,
    is read outside the try block, so the exception reaches the caller. *)
Lemma run_osrm_not_modified_raises :
  raise_for_status (mkResponse 304 (Raise JSONDecodeError)) = Ok tt
  ∧ run_osrm plain_repr (λ _, Ok (mkResponse 304 (Raise JSONDecodeError)))
      [VStr "A"; VFloat (4075 # 100); VFloat (-(7398 # 100))] times_square
    = Raise JSONDecodeError.
Proof. split; reflexivity. Qed.

(** ** The reconciliation: [join_latlon] *)

Lemma run_is_empty_old h ex s n r d :
  h !! r = Some d →
  is_empty r (W h ex s n) = (Ok (df_empty d), W h ex s n).
Proof. run_method. Qed.

Lemma run_new_frame h ex s n d :
  new_frame (Ok d) (W h ex s n) = (Ok (length h + length ex)%nat, W h (ex ++ [d]) s n).
Proof. unfold new_frame, mbind, M_bind, lift. by rewrite run_alloc. Qed.

Lemma relabel_elem n (L : list (Z * row)) (r : row) :
  r ∈ map snd L → ∃ j, (j, r) ∈ relabel n L.
Proof.
  rewrite <- (relabel_snd n L). intros Hin.
  apply list_elem_of_In, in_map_iff in Hin as ([j r'] & <- & Hin).
  exists j. by apply list_elem_of_In.
Qed.

Section ReconcileFacts.
Variable py_repr : value → string.
#[local] Abbreviation str_of' := (str_of py_repr).
#[local] Abbreviation astype_str' := (astype_str py_repr).
#[local] Abbreviation stringified' := (stringified py_repr).
#[local] Abbreviation available_cols' := (available_cols py_repr).
#[local] Abbreviation joined' := (joined py_repr).

Lemma stringify_station_id d :
  has_column "station_id" d = true →
  ∃ s t, column "station_id" d = Ok s ∧ series_map astype_str' s = Ok t ∧
    assign_series "station_id" t d = stringified' d.
Proof.
  intros Hc. unfold column. rewrite Hc. eexists _, _. split; [done|]. split.
  - unfold series_map.
    apply (traverse_total _ (λ iv : Z * value, (iv.1, VStr (str_of' iv.2)))). by intros [i v] _.
  - unfold assign_series, stringified. f_equal. rewrite !map_map. cbn [fst snd].
    apply (set_cells_map "station_id" (λ ir, VStr (str_of' (ir.2 "station_id")))).
Qed.

Lemma select_available d2 :
  select_columns_of (available_cols' d2) (stringified' d2)
  = Ok (mkDataFrame (available_cols' d2) (rows (stringified' d2))).
Proof.
  unfold select_columns_of.
  destruct (List.find _ _) as [c|] eqn:Hf; [|done].
  apply find_some in Hf as [Hin Hc]. apply filter_In in Hin as [_ Hin].
  by rewrite Hin in Hc.
Qed.

Lemma join_latlon_run h s n df1 df2 d1 d2 :
  h !! df1 = Some d1 → h !! df2 = Some d2 →
  df_empty d1 = false → df_empty d2 = false →
  has_column "station_id" d1 = true → has_column "station_id" d2 = true →
  ∃ ex,
    join_latlon py_repr df1 df2 (mkWorld h s n)
    = (match joined' d1 d2 with Ok _ => Ok (length h + 3)%nat | Raise e => Raise e end,
       mkWorld (h ++ ex) s n)
    ∧ ∀ m, joined' d1 d2 = Ok m → ex !! 3%nat = Some m.
Proof.
  intros H1 H2 He1 He2 Hc1 Hc2.
  replace (mkWorld h s n) with (mkWorld (h ++ []) s n) by (by rewrite app_nil_r).
  destruct (stringify_station_id d1 Hc1) as (s1 & t1 & Hs1 & Ht1 & Ha1).
  destruct (stringify_station_id d2 Hc2) as (s2 & t2 & Hs2 & Ht2 & Ha2).
  unfold join_latlon. unfold mbind at 1 2 3, M_bind.
  rewrite (run_is_empty_old _ _ _ _ _ _ H1), He1.
  rewrite (run_is_empty_old _ _ _ _ _ _ H2), He2.
  unfold mbind, M_bind, lift.
  rewrite (run_copy_old _ _ _ _ _ _ H1). cbn [length app].
  rewrite (run_copy_old _ _ _ _ _ _ H2). cbn [length app].
  erewrite run_getitem by reflexivity. rewrite Hs1, Ht1.
  erewrite run_setitem by reflexivity. cbn [list_insert insert]. rewrite Ha1.
  erewrite run_getitem by reflexivity. rewrite Hs2, Ht2.
  erewrite run_setitem by reflexivity. cbn [list_insert insert]. rewrite Ha2.
  erewrite run_deref by reflexivity.
  fold (available_cols py_repr d2). rewrite select_available.
  rewrite run_new_frame. cbn [length app].
  erewrite run_deref by reflexivity. erewrite run_deref by reflexivity.
  fold (joined py_repr d1 d2). unfold new_frame, mbind, M_bind, lift.
  destruct (joined' d1 d2) as [m|e] eqn:Hj.
  - rewrite run_alloc. cbn [length app]. eexists. split; [reflexivity|].
    by intros ? [= <-].
  - eexists. split; [reflexivity|]. done.
Qed.

Lemma renamed_cell_own (ren : string → string) (cols : list string) (r : row) (c : string) :
  c ∈ cols → ren c = c → (∀ o, o ∈ cols → ren o = c → o = c) →
  renamed_cell ren cols r c = Some (r c).
Proof.
  intros Hin Hc Hinj. unfold renamed_cell.
  destruct (List.find _ cols) as [o|] eqn:Hf.
  - apply find_some in Hf as [Ho Heq]. apply String.eqb_eq in Heq.
    by rewrite (Hinj o (proj2 (list_elem_of_In _ _) Ho) Heq).
  - apply find_none with (x := c) in Hf; [|by apply list_elem_of_In].
    by rewrite Hc, String.eqb_refl in Hf.
Qed.

Lemma renamed_cell_none (ren : string → string) (cols : list string) (r : row) (c : string) :
  (∀ o, o ∈ cols → ren o ≠ c) → renamed_cell ren cols r c = None.
Proof.
  intros Hne. unfold renamed_cell.
  destruct (List.find _ cols) as [o|] eqn:Hf; [|done].
  apply find_some in Hf as [Ho Heq]. apply String.eqb_eq in Heq.
  by destruct (Hne o (proj2 (list_elem_of_In _ _) Ho)).
Qed.

Lemma available_cols_merge d2 c : c ∈ available_cols' d2 → c ∈ merge_columns.
Proof. unfold available_cols. intros Hin%list_elem_of_In%filter_In. apply list_elem_of_In, Hin. Qed.

Lemma suffixed_left (d2 : DataFrame) o :
  suffixed "station_id" (available_cols' d2) "_x" o = o
  ∨ (o ∈ geography ∧ suffixed "station_id" (available_cols' d2) "_x" o = (o +:+ "_x")%string).
Proof.
  unfold suffixed. destruct (String.eqb_spec o "station_id") as [->|Hne]; [by left|].
  case_bool_decide as Hin; [|by left]. right. split; [|done].
  apply available_cols_merge in Hin. unfold merge_columns in Hin.
  apply elem_of_cons in Hin as [->|Hin]; [done|]. done.
Qed.

(** C4. When the status and the info frames are both non-empty (and both
    carry station_id), a status row whose station id, as a string, equals
    that of no info row still has a row in the joined frame: it carries the
    station id as a string, every geography column the status frame does
    not have itself (lat, lon, name, capacity, region_id) is null in it,
    and when the status frame has none of them all its other cells are
    those of the status row. *)
Theorem join_latlon_keeps_unmatched_status (w : world) (df1 df2 : ref)
    (d1 d2 : DataFrame) (i : Z) (x : row) :
  frames w !! df1 = Some d1 → frames w !! df2 = Some d2 →
  df_empty d1 = false → df_empty d2 = false →
  has_column "station_id" d1 = true → has_column "station_id" d2 = true →
  (i, x) ∈ rows d1 →
  (∀ i2 r2, (i2, r2) ∈ rows d2 →
     str_of' (r2 "station_id") ≠ str_of' (x "station_id")) →
  ∃ r m j y,
    (join_latlon py_repr df1 df2 w).1 = Ok r ∧
    frames (join_latlon py_repr df1 df2 w).2 !! r = Some m ∧
    (j, y) ∈ rows m ∧
    y "station_id" = VStr (str_of' (x "station_id")) ∧
    (∀ c, c ∈ geography → has_column c d1 = false → y c = VNull) ∧
    ((∀ c, c ∈ geography → has_column c d1 = false) →
     ∀ c, c ∈ columns d1 → c ≠ "station_id" → y c = x c).
Proof.
  destruct w as [h s n]. cbn [frames]. intros H1 H2 He1 He2 Hc1 Hc2 Hin Hno.
  destruct (join_latlon_run h s n df1 df2 d1 d2 H1 H2 He1 He2 Hc1 Hc2)
    as (ex & Hrun & Hex).
  unfold joined, merge_left_on in Hrun, Hex.
  assert (Hk1 : has_column "station_id" (stringified' d1) = true).
  { unfold has_column, stringified; cbn [columns]. apply bool_decide_eq_true.
    unfold add_column. case_bool_decide; [done|]. set_solver. }
  assert (Hk2 : has_column "station_id"
                  (mkDataFrame (available_cols' d2) (rows (stringified' d2))) = true).
  { unfold has_column; cbn [columns]. apply bool_decide_eq_true.
    apply list_elem_of_In, filter_In. split; [by left|].
    unfold has_column, stringified; cbn [columns]. apply bool_decide_eq_true.
    unfold add_column. case_bool_decide; [done|]. set_solver. }
  rewrite Hk1, Hk2 in Hrun, Hex. cbn [negb] in Hrun, Hex.
  set (x' := upd x "station_id" (VStr (str_of' (x "station_id")))).
  set (lcols := columns (stringified' d1)) in *.
  set (y := merged_row "station_id" lcols (available_cols' d2) x' None).
  assert (Hy : y ∈ map snd (flat_map
            (λ ir : Z * row,
               match matches "station_id" ir.2
                       (mkDataFrame (available_cols' d2) (rows (stringified' d2))) with
               | [] => [(0%Z, merged_row "station_id" lcols (available_cols' d2) ir.2 None)]
               | ms => map (λ r, (0%Z, merged_row "station_id" lcols (available_cols' d2)
                                         ir.2 (Some r))) ms
               end) (rows (stringified' d1)))).
  { apply list_elem_of_In, in_map_iff. exists (0%Z, y). split; [done|].
    apply in_flat_map. exists (i, x'). split.
    - unfold stringified; cbn [rows]. apply in_map_iff. exists (i, x).
      split; [done|]. by apply list_elem_of_In.
    - cbn [snd]. replace (matches _ _ _) with (@nil row); [by left|].
      symmetry. unfold matches; cbn [rows].
      rewrite (filter_ext_elem _ (λ _, false)).
      + assert (Hnil : ∀ l : list (Z * row), List.filter (λ _, false) l = [])
          by (induction l; auto).
        by rewrite Hnil.
      + intros [i2 r2'] Hin2. cbn [snd].
        unfold stringified in Hin2; cbn [rows] in Hin2.
        apply list_elem_of_In, in_map_iff in Hin2 as ([i2' r2] & [= _ <-] & Hin2).
        unfold x', upd. cbn. apply String.eqb_neq.
        apply (Hno i2'). by apply list_elem_of_In. }
  apply (relabel_elem 0) in Hy as [j Hj].
  eexists _, _, j, y. rewrite Hrun. cbn [fst snd frames].
  split; [reflexivity|]. split.
  { rewrite lookup_app_r by lia. rewrite Nat.add_comm, Nat.add_sub. by apply Hex. }
  split; [exact Hj|].
  assert (Hl : ∀ c, c ∈ lcols ↔ c ∈ columns d1 ∨ c = "station_id").
  { intros c. unfold lcols, stringified; cbn [columns]. apply elem_of_add_column. }
  split; [|split].
  - unfold y, merged_row.
    rewrite (renamed_cell_own _ lcols x' "station_id"); [done| |done|].
    + apply Hl. by right.
    + intros o Ho Heq. destruct (suffixed_left d2 o) as [Hs|[Hg Hs]]; [congruence|].
      rewrite Hs in Heq. unfold geography in Hg.
      repeat (apply elem_of_cons in Hg as [->|Hg]; [done|]). by apply elem_of_nil in Hg.
  - intros c Hc Hhas. unfold y, merged_row.
    rewrite renamed_cell_none; [done|].
    intros o Ho Heq. destruct (suffixed_left d2 o) as [Hs|[Hg Hs]].
    + rewrite Hs in Heq. subst o. apply Hl in Ho as [Ho| ->].
      * unfold has_column in Hhas. apply bool_decide_eq_false in Hhas. done.
      * unfold geography in Hc.
        repeat (apply elem_of_cons in Hc as [Hc|Hc]; [done|]). by apply elem_of_nil in Hc.
    + rewrite Hs in Heq. unfold geography in Hg, Hc.
      repeat (apply elem_of_cons in Hg as [->|Hg];
              [repeat (apply elem_of_cons in Hc as [->|Hc]; [done|]);
               by apply elem_of_nil in Hc|]).
      by apply elem_of_nil in Hg.
  - intros Hnone c Hc Hne. unfold y, merged_row.
    assert (Hown : ∀ o, o ∈ lcols → suffixed "station_id" (available_cols' d2) "_x" o = o).
    { intros o Ho. destruct (suffixed_left d2 o) as [Hs|[Hg Hs]]; [done|].
      apply Hl in Ho as [Ho| ->].
      - specialize (Hnone o Hg). unfold has_column in Hnone.
        apply bool_decide_eq_false in Hnone. done.
      - unfold geography in Hg.
        repeat (apply elem_of_cons in Hg as [Hg|Hg]; [done|]). by apply elem_of_nil in Hg. }
    rewrite (renamed_cell_own _ lcols x' c).
    + unfold x', upd. apply String.eqb_neq in Hne. by rewrite Hne.
    + apply Hl. by left.
    + apply Hown, Hl. by left.
    + intros o Ho Heq. by rewrite (Hown o Ho) in Heq.
Qed.

(** C3 (amended). When the info frame is empty, [join_latlon] returns a
    new, empty DataFrame (no rows, no columns) and touches nothing else:
    the status rows are not carried over. *)
Theorem join_latlon_short_circuits_on_empty_info (w : world) (df1 df2 : ref)
    (d1 d2 : DataFrame) :
  frames w !! df1 = Some d1 → frames w !! df2 = Some d2 →
  df_empty d2 = true →
  join_latlon py_repr df1 df2 w
  = (Ok (length (frames w)), set_frames (λ h, h ++ [NoFrame]) w).
Proof.
  intros H1 H2 He. unfold join_latlon, is_empty, deref, mbind, M_bind, mret, M_ret.
  rewrite H1. destruct (df_empty d1); [done|]. by rewrite H2, He.
Qed.

End ReconcileFacts.

Lemma join_latlon_keeps_unmatched_status_witness :
  ∃ r m j y,
    (join_latlon plain_repr 0 1 (world_of [status_sample; info_sample])).1 = Ok r ∧
    frames (join_latlon plain_repr 0 1 (world_of [status_sample; info_sample])).2 !! r
      = Some m ∧
    (j, y) ∈ rows m ∧
    y "station_id" = VStr "B" ∧
    (∀ c, c ∈ geography → has_column c status_sample = false → y c = VNull) ∧
    ((∀ c, c ∈ geography → has_column c status_sample = false) →
     ∀ c, c ∈ columns status_sample → c ≠ "station_id" →
       y c = record_row (as_record (status_record "B" 1 1 4 9 1700000000)) c).
Proof.
  apply (join_latlon_keeps_unmatched_status plain_repr
           (world_of [status_sample; info_sample]) 0 1 status_sample info_sample 1
           (record_row (as_record (status_record "B" 1 1 4 9 1700000000))));
    try reflexivity.
  - apply (list_elem_of_lookup_2 _ 1%nat). reflexivity.
  - intros i2 r2 Hin. apply list_elem_of_lookup_1 in Hin as [[|k] Hk].
    + injection Hk as _ <-. vm_compute. discriminate.
    + destruct k; discriminate Hk.
Defined.

(** C3 as stated fails: with two status rows and an empty info frame the
    join returns a frame with no rows and no columns. *)
Lemma join_latlon_empty_info_drops_status_rows :
  df_empty status_sample = false ∧ length (rows status_sample) = 2%nat ∧
  ∃ r m,
    (join_latlon plain_repr 0 1 (world_of [status_sample; NoFrame])).1 = Ok r ∧
    frames (join_latlon plain_repr 0 1 (world_of [status_sample; NoFrame])).2 !! r
      = Some m ∧
    rows m = [] ∧ columns m = [].
Proof.
  split; [reflexivity|]. split; [reflexivity|].
  exists 2%nat, NoFrame. repeat split; vm_compute; reflexivity.
Qed.

Lemma join_latlon_short_circuits_on_empty_info_witness :
  join_latlon plain_repr 0 1 (world_of [status_sample; NoFrame])
  = (Ok 2%nat, world_of [status_sample; NoFrame; NoFrame]).
Proof.
  apply (join_latlon_short_circuits_on_empty_info plain_repr
           (world_of [status_sample; NoFrame]) 0 1 status_sample NoFrame);
    reflexivity.
Defined.

(** ** The status feed: [query_station_status] *)

Lemma mask_and_map {A} (p q : A → bool) (l : list A) :
  mask_and (map p l) (map q l) = map (λ a, p a && q a) l.
Proof. induction l as [|a l IH]; cbn; [done|]. by rewrite IH. Qed.

Lemma set_cells_elem c rs vals i y :
  (i, y) ∈ set_cells c rs vals →
  ∃ x, (i, x) ∈ rs ∧ ∀ c', c' ≠ c → y c' = x c'.
Proof.
  revert vals. induction rs as [|[j x] rs IH]; intros vals H; cbn in H.
  - by apply elem_of_nil in H.
  - apply elem_of_cons in H as [H|H].
    + injection H as -> ->. exists x. split; [by left|].
      intros c' Hne. unfold upd. apply String.eqb_neq in Hne. by rewrite Hne.
    + destruct (IH _ H) as (x' & Hin & Hx). exists x'. split; [by right|done].
Qed.

Lemma assign_series_elem c s d i y :
  (i, y) ∈ rows (assign_series c s d) →
  ∃ x, (i, x) ∈ rows d ∧ ∀ c', c' ≠ c → y c' = x c'.
Proof. apply set_cells_elem. Qed.

Lemma assign_scalar_elem c v d i y :
  (i, y) ∈ rows (assign_scalar c v d) →
  ∃ x, (i, x) ∈ rows d ∧ ∀ c', c' ≠ c → y c' = x c'.
Proof.
  unfold assign_scalar; cbn. intros H.
  apply list_elem_of_fmap in H as ([j x] & Heq & Hin). injection Heq as -> ->.
  exists x. split; [done|]. intros c' Hne. unfold upd.
  apply String.eqb_neq in Hne. by rewrite Hne.
Qed.

Lemma defaulted_elem c d i y :
  (i, y) ∈ rows (defaulted c d) →
  ∃ x, (i, x) ∈ rows d ∧ ∀ c', c' ≠ c → y c' = x c'.
Proof.
  unfold defaulted. destruct (has_column c d); [by exists y|apply assign_scalar_elem].
Qed.

Lemma keep_first_elem key seen rs ir :
  ir ∈ keep_first key seen rs → ir ∈ rs.
Proof.
  revert seen. induction rs as [|a rs IH]; intros seen H; cbn in H; [done|].
  destruct (existsb _ seen).
  - right. by eapply IH.
  - apply elem_of_cons in H as [->|H]; [by left|right; by eapply IH].
Qed.

Lemma has_column_add c c' cols :
  bool_decide (c ∈ add_column c' cols) = bool_decide (c = c' ∨ c ∈ cols).
Proof.
  apply bool_decide_ext. unfold add_column. case_bool_decide as Hin.
  - split; [by right|]. by intros [->|?].
  - rewrite elem_of_app, list_elem_of_singleton. tauto.
Qed.

Lemma has_column_assign_scalar c c' v d :
  c ≠ c' → has_column c (assign_scalar c' v d) = has_column c d.
Proof.
  intros Hne. unfold has_column, assign_scalar; cbn [columns].
  rewrite has_column_add. apply bool_decide_ext. tauto.
Qed.

Lemma has_column_assign_series c c' s d :
  c ≠ c' → has_column c (assign_series c' s d) = has_column c d.
Proof.
  intros Hne. unfold has_column, assign_series; cbn [columns].
  rewrite has_column_add. apply bool_decide_ext. tauto.
Qed.

Lemma drop_duplicates_of_spec subset d d' :
  drop_duplicates_of subset d = Ok d' →
  columns d' = columns d ∧ ∀ ir, ir ∈ rows d' → ir ∈ rows d.
Proof.
  unfold drop_duplicates_of. destruct (List.find _ subset); [done|].
  intros [= <-]. split; [done|]. cbn. intros ir. apply keep_first_elem.
Qed.

Section FeedFacts.
Variable py_repr : value → string.
Variable urlopen_json : string → outcome value.

(** The filter itself holds when the feed has no breakdown column: every
    row of the result comes from a row of the feed's frame with the same
    label, and is_renting and is_returning are 1 in it. *)
Lemma query_station_status_plain h s n url data d0 r w' :
  urlopen_json url = Ok data →
  (d ← subscript_key data "data"; st ← subscript_key d "stations"; DataFrame_of st)
    = Ok d0 →
  has_column "is_renting" d0 = true →
  has_column "num_bikes_available_types" d0 = false →
  query_station_status py_repr urlopen_json url (mkWorld h s n) = (Ok r, w') →
  ∃ d, frames w' !! r = Some d ∧
    ∀ i y, (i, y) ∈ rows d →
      open_station y = true ∧
      ∃ x, (i, x) ∈ rows d0 ∧ y "is_renting" = x "is_renting"
           ∧ y "is_returning" = x "is_returning".
Proof.
  intros Hurl Hd0 Hren Hno H. rewrite <- (app_nil_r h) in H.
  unfold query_station_status in H. rewrite Hurl, Hd0 in H.
  unfold new_frame, mbind, M_bind, lift in H. rewrite run_alloc in H.
  cbn [length app Nat.add] in H.
  step H.
  destruct (df_empty d0) eqn:He.
  { unfold mret, M_ret in H. injection H as <- <-. exists d0. split.
    - cbn. by rewrite lookup_app_r, Nat.add_0_r, Nat.sub_diag by lia.
    - intros i y Hin. unfold df_empty in He. unfold has_column in Hren.
      apply bool_decide_eq_true in Hren.
      destruct (columns d0); [by apply elem_of_nil in Hren|].
      destruct (rows d0); [by apply elem_of_nil in Hin|done]. }
  step H. rewrite column_ok in H by done.
  step H. destruct (column "is_returning" d0) as [ret|] eqn:Eret; [|discriminate H].
  unfold column in Eret. destruct (has_column "is_returning" d0); [|discriminate Eret].
  injection Eret as <-.
  unfold series_eq in H. rewrite !map_map in H. cbn [snd] in H.
  rewrite mask_and_map in H.
  step H.
  erewrite run_deref in H by reflexivity.
  destruct (drop_duplicates_of _ _) as [d2|] eqn:Edup; [|discriminate H].
  rewrite run_alloc in H. cbn [length app Nat.add] in H.
  step H.
  destruct (column "last_reported" d2) as [lr|] eqn:Elr; [|discriminate H].
  destruct (series_map to_datetime lr) as [t|] eqn:Et; [|discriminate H].
  step H.
  destruct (outcome_bind _ _ _ _) as [u|] eqn:Eu; [|discriminate H].
  step H. step H.
  apply drop_duplicates_of_spec in Edup as [Hcols Hrows].
  cbn [columns rows boolean_index] in Hcols, Hrows. rewrite take_rows_map in Hrows.
  rewrite has_column_assign_scalar, has_column_assign_series in H by done.
  replace (has_column "num_bikes_available_types" d2) with false in H
    by (unfold has_column in *; by rewrite Hcols).
  unfold mret, M_ret, synthesize in H.
  unfold mbind, M_bind in H.
  step H. step H. step H. step H. step H.
  destruct (column "station_id" _) as [sid|] eqn:Esid; [|discriminate H].
  destruct (series_map (astype_str py_repr) sid) as [t'|] eqn:Et'; [|discriminate H].
  step H. injection H as <- <-.
  eexists. split.
  { cbn [frames]. rewrite lookup_app_r by lia.
    replace (length h + 2 - length h)%nat with 2%nat by lia. reflexivity. }
  intros i y Hin.
  apply assign_series_elem in Hin as (y1 & Hin & E1).
  apply defaulted_elem in Hin as (y2 & Hin & E2).
  apply defaulted_elem in Hin as (y3 & Hin & E3).
  apply assign_scalar_elem in Hin as (y4 & Hin & E4).
  apply assign_series_elem in Hin as (y5 & Hin & E5).
  apply Hrows in Hin. apply list_elem_of_In in Hin. apply filter_In in Hin as [Hin Hopen].
  apply list_elem_of_In in Hin. cbn [snd] in Hopen.
  assert (∀ c, c = "is_renting" ∨ c = "is_returning" → y c = y5 c) as Hsame.
  { intros c Hc. rewrite E1, E2, E3, E4, E5 by (destruct Hc as [-> | ->]; done). done. }
  unfold open_station. rewrite !Hsame by auto. split; [done|]. by exists y5.
Qed.
End FeedFacts.

Example query_station_status_plain_feed :
  ∃ d, frames (query_station_status plain_repr
                 (λ _, Ok (status_feed [status_record "A" 0 1 5 3 1700000000;
                                        status_record "B" 1 1 4 9 1700000000]))
                 NYC_STATION_STATUS_URL (world_of [])).2 !! 2%nat = Some d ∧
    map (λ ir : Z * row, (ir.1, ir.2 "station_id")) (rows d) = [(1%Z, VStr "B")] ∧
    ∀ i y, (i, y) ∈ rows d → open_station y = true.
Proof.
  destruct (query_station_status_plain plain_repr
              (λ _, Ok (status_feed [status_record "A" 0 1 5 3 1700000000;
                                     status_record "B" 1 1 4 9 1700000000]))
              [] ∅ [] NYC_STATION_STATUS_URL _ _ 2%nat _
              eq_refl eq_refl eq_refl eq_refl eq_refl) as (d & Hd & Hrows).
  exists d. split; [exact Hd|]. split.
  - vm_compute in Hd. injection Hd as <-. vm_compute. reflexivity.
  - intros i y Hin. by destruct (Hrows i y Hin).
Qed.

(** C5 fails on this feed: the closed station A comes before the open station
    B and both carry a breakdown object.  The frame of the breakdown is
    labelled 0 while the surviving status row keeps its label 1, so the
    concatenation yields two rows: B without its sub-counts, and a row of
    missing cells (is_renting and is_returning are not 1, station_id is
    "nan") that carries the sub-counts of B. *)
Lemma query_station_status_ghost_row :
  ∃ r d,
    (query_station_status plain_repr (λ _, Ok closed_then_open_feed)
       NYC_STATION_STATUS_URL (world_of [])).1 = Ok r ∧
    frames (query_station_status plain_repr (λ _, Ok closed_then_open_feed)
              NYC_STATION_STATUS_URL (world_of [])).2 !! r = Some d ∧
    map (λ ir : Z * row,
           (ir.1, map ir.2 ["station_id"; "is_renting"; "is_returning";
                            "mechanical"; "ebike"])) (rows d)
    = [(1%Z, [VStr "B"; VInt 1; VInt 1; VNull; VNull]);
       (0%Z, [VStr "nan"; VNull; VNull; VInt 1; VInt 3])] ∧
    map (λ ir : Z * row, open_station ir.2) (rows d) = [true; false].
Proof. eexists _, _. repeat split; vm_compute; reflexivity. Qed.

(** The instance of the specification: a feed whose only station is not
    renting yields no row. *)
Example query_station_status_drops_closed_station :
  ∃ r d,
    (query_station_status plain_repr
       (λ _, Ok (status_feed [typed_status_record "A" 0 1 5 3 1700000000 3 2]))
       NYC_STATION_STATUS_URL (world_of [])).1 = Ok r ∧
    frames (query_station_status plain_repr
              (λ _, Ok (status_feed [typed_status_record "A" 0 1 5 3 1700000000 3 2]))
              NYC_STATION_STATUS_URL (world_of [])).2 !! r = Some d ∧
    rows d = [].
Proof. eexists _, _. repeat split; vm_compute; reflexivity. Qed.

(** ** The filter engine *)

Section FilterFacts.
Variable min_bikes min_docks : Z.
Variable bike_type_value : option string.
Variable search_text : string.
Variable re_search : string → outcome (string → bool).
Variable name_is_object : bool.

Lemma local_apply_filters h0 df :
  local h0 (newer h0)
    (apply_filters min_bikes min_docks bike_type_value search_text re_search
       name_is_object df).
Proof.
  unfold apply_filters, DataFrame_copy, reset_index, contains_column,
    getitem, setitem_applied, setitem, setitem_scalar, getitem_mask, apply_rows,
    is_empty, loc_row.
  local_auto.
Qed.
End FilterFacts.

(** C6. Whatever the predicates, the filter engine leaves every DataFrame
    object that existed before the call as it was (its input included);
    and with no predicate set (thresholds 0, no bike type, empty search
    text) it returns a new object whose columns, labels and rows are
    exactly those of the input. *)
Theorem apply_filters_pure (min_bikes min_docks : Z) (bike_type_value : option string)
    (search_text : string) (re_search : string → outcome (string → bool))
    (name_is_object : bool) (df : ref) (w : world) :
  (∀ r d, frames w !! r = Some d →
     frames (apply_filters min_bikes min_docks bike_type_value search_text re_search
               name_is_object
               df w).2 !! r = Some d)
  ∧ (∀ d, frames w !! df = Some d →
       (min_bikes <= 0)%Z → (min_docks <= 0)%Z →
       bike_type_value = None ∨ bike_type_value = Some "" →
       search_text = "" →
       ∃ r, (apply_filters min_bikes min_docks bike_type_value search_text re_search
               name_is_object
               df w).1 = Ok r
            ∧ r ≠ df
            ∧ frames (apply_filters min_bikes min_docks bike_type_value search_text
                        re_search name_is_object df w).2 !! r = Some d).
Proof.
  split.
  - intros r d Hr.
    destruct (local_apply_filters min_bikes min_docks bike_type_value search_text
                re_search name_is_object (frames w) df (session_state w) (notices w) w)
      as [(Hp & _) _]; [done|].
    by eapply prefix_lookup_Some.
  - intros d Hd Hb Hk Hmode ->. exists (length (frames w)).
    unfold apply_filters, chosen_mode, DataFrame_copy, deref, alloc,
      mbind, M_bind, mret, M_ret.
    rewrite Hd. apply Z.ltb_ge in Hb, Hk. rewrite Hb, Hk.
    assert (match bike_type_value with
            | Some mode => if truthy (VStr mode) then Some mode else None
            | None => None
            end = None) as ->.
    { by destruct Hmode as [-> | ->]. }
    cbn. split; [done|]. split.
    + apply lookup_lt_Some in Hd. lia.
    + by rewrite list_lookup_middle.
Qed.

Lemma apply_filters_pure_witness :
  frames (apply_filters 4 0 (Some "ebike") "" (λ _, Raise ValueError) true 0
            (world_of [mixed_stations])).2 !! 0%nat = Some mixed_stations
  ∧ ∃ r, (apply_filters 0 0 None "" (λ _, Raise ValueError) true 0
            (world_of [mixed_stations])).1 = Ok r
         ∧ r ≠ 0%nat
         ∧ frames (apply_filters 0 0 None "" (λ _, Raise ValueError) true 0
                     (world_of [mixed_stations])).2 !! r = Some mixed_stations.
Proof.
  split.
  - apply (proj1 (apply_filters_pure 4 0 (Some "ebike") "" (λ _, Raise ValueError) true 0
                    (world_of [mixed_stations]))).
    reflexivity.
  - apply (proj2 (apply_filters_pure 0 0 None "" (λ _, Raise ValueError) true 0
                    (world_of [mixed_stations])) mixed_stations);
      first [ reflexivity | lia | by left ].
Defined.

(** ** The session *)

Lemma stored_insert s k v : stored (<[k := v]> s) k = v.
Proof. unfold stored. by rewrite lookup_insert_eq. Qed.

Lemma stored_insert_ne s k k' v : k ≠ k' → stored (<[k := v]> s) k' = stored s k'.
Proof. intros H. unfold stored. by rewrite lookup_insert_ne. Qed.

Lemma st_default_stored k w k' :
  stored (session_state (st_default k w).2) k' = stored (session_state w) k'.
Proof.
  unfold st_default. destruct (session_state w !! k) eqn:Hk; [done|]. cbn.
  destruct (decide (k = k')) as [<-|Hne].
  - rewrite stored_insert. unfold stored. by rewrite Hk.
  - by rewrite stored_insert_ne.
Qed.

Lemma st_default_bind {B : Type} k (f : unit → M B) w :
  (st_default k ≫= f) w = f tt (st_default k w).2.
Proof.
  unfold mbind, M_bind, st_default, st_set. by destruct (session_state w !! k).
Qed.

Lemma session_defaults_stored w k' :
  (session_defaults w).1 = Ok tt ∧
  frames (session_defaults w).2 = frames w ∧
  stored (session_state (session_defaults w).2) k' = stored (session_state w) k'.
Proof.
  unfold session_defaults. rewrite !st_default_bind.
  split; [|split].
  - unfold st_default, st_set. by destruct (session_state _ !! _).
  - unfold st_default, st_set.
    repeat match goal with
    | |- context [match ?x with Some _ => _ | None => _ end] => destruct x
    end; done.
  - by rewrite !st_default_stored.
Qed.

Lemma bind_run {A B : Type} (m : M A) (f : A → M B) w a w' :
  m w = (Ok a, w') → (m ≫= f) w = f a w'.
Proof. intros H. unfold mbind, M_bind. by rewrite H. Qed.

Lemma bind_raise {A B : Type} (m : M A) (f : A → M B) w e w' :
  m w = (Raise e, w') → (m ≫= f) w = (Raise e, w').
Proof. intros H. unfold mbind, M_bind. by rewrite H. Qed.

Section SessionFacts.
Variable bike_type_value : option string.
Variable stations_df : ref.
Variable geodesic_km : Q * Q → Q * Q → Q.
Variable py_repr : value → string.
Variable requests_get : string → outcome response.
Variable geolocator_geocode : string → outcome (option (Q * Q)).

#[local] Abbreviation lookup :=
  (lookup_and_store_nearest bike_type_value stations_df geodesic_km py_repr
     requests_get geolocator_geocode).

#[local] Abbreviation bike_modes' := (bike_modes bike_type_value).

Lemma get_bike_availability_session latlon df modes w :
  session_state (get_bike_availability geodesic_km latlon df modes w).2 = session_state w.
Proof.
  destruct (local_get_bike_availability geodesic_km (frames w) latlon df modes
              (session_state w) (notices w) w) as [(_ & Hs & _) _]; done.
Qed.

Lemma get_dock_availability_session latlon df w :
  session_state (get_dock_availability geodesic_km latlon df w).2 = session_state w.
Proof.
  destruct (local_get_dock_availability geodesic_km (frames w) latlon df
              (session_state w) (notices w) w) as [(_ & Hs & _) _]; done.
Qed.

Ltac stored_simpl :=
  cbn [st_set session_state fst snd];
  repeat first [ rewrite stored_insert | rewrite stored_insert_ne by done ].

Lemma route_stage_stored (nearest : option (list value)) coords w k :
  k ≠ "route_coordinates" → k ≠ "route_duration" →
  stored (session_state
    (match nearest with
     | Some station =>
         if truthy (VList station)
         then
           lift (run_osrm py_repr requests_get station coords)
           ≫= λ route, st_set "route_coordinates" route.1;;
                        st_set "route_duration" route.2
         else st_set "route_coordinates" VNull;; st_set "route_duration" VNull
     | None => st_set "route_coordinates" VNull;; st_set "route_duration" VNull
     end w).2) k
  = stored (session_state w) k.
Proof.
  intros H1 H2. unfold mbind, M_bind, lift, st_set.
  destruct nearest as [station|]; [destruct (truthy (VList station))|];
    [destruct (run_osrm _ _ _ _) as [route|e]|..]; by stored_simpl.
Qed.

Lemma lookup_bike_stores address coords w nearest w2 :
  geolocator_geocode address = Ok (Some coords) →
  get_bike_availability geodesic_km coords stations_df bike_modes'
    (st_set "user_location" (tuple_of coords) w).2 = (Ok nearest, w2) →
  stored (session_state (lookup address "bike" w).2) "nearest_bike_station"
    = nearest_value nearest
  ∧ stored (session_state (lookup address "bike" w).2) "nearest_dock_station" = VNull.
Proof.
  intros Hgeo Hrun. unfold lookup_and_store_nearest, geocode. rewrite Hgeo.
  erewrite bind_run by reflexivity. cbn iota.
  erewrite bind_run by reflexivity.
  cbn [String.eqb Ascii.eqb Bool.eqb]. fold (bike_modes bike_type_value).
  erewrite (bind_run (_ ≫= _)).
  2:{ erewrite bind_run by exact Hrun. do 2 erewrite bind_run by reflexivity. reflexivity. }
  split; rewrite route_stage_stored by done; by stored_simpl.
Qed.

Lemma lookup_dock_stores address lookup_type coords w nearest w2 :
  lookup_type ≠ "bike" →
  geolocator_geocode address = Ok (Some coords) →
  get_dock_availability geodesic_km coords stations_df
    (st_set "user_location" (tuple_of coords) w).2 = (Ok nearest, w2) →
  stored (session_state (lookup address lookup_type w).2) "nearest_dock_station"
    = nearest_value nearest
  ∧ stored (session_state (lookup address lookup_type w).2) "nearest_bike_station" = VNull.
Proof.
  intros Htype Hgeo Hrun. unfold lookup_and_store_nearest, geocode. rewrite Hgeo.
  erewrite bind_run by reflexivity. cbn iota.
  erewrite bind_run by reflexivity.
  apply String.eqb_neq in Htype. rewrite Htype.
  erewrite (bind_run (_ ≫= _)).
  2:{ erewrite bind_run by exact Hrun. do 2 erewrite bind_run by reflexivity. reflexivity. }
  split; rewrite route_stage_stored by done; by stored_simpl.
Qed.

Lemma lookup_one_destination address lookup_type w :
  one_destination (session_state w) →
  one_destination (session_state (lookup address lookup_type w).2).
Proof.
  intros Hinv. unfold lookup_and_store_nearest, geocode.
  destruct (geolocator_geocode address) as [[coords|]|e]; [| done | done].
  erewrite bind_run by reflexivity. cbn iota.
  erewrite bind_run by reflexivity.
  set (w1 := (st_set "user_location" (tuple_of coords) w).2).
  assert (Hinv1 : one_destination (session_state w1)).
  { unfold one_destination, w1 in *. by stored_simpl. }
  destruct (String.eqb lookup_type "bike").
  - fold (bike_modes bike_type_value).
    pose proof (get_bike_availability_session coords stations_df bike_modes' w1) as Hs.
    destruct (get_bike_availability _ _ _ _ w1) as [[nearest|e] w2] eqn:Hrun;
      cbn [snd] in Hs.
    + erewrite (bind_run (_ ≫= _)).
      2:{ erewrite bind_run by exact Hrun. do 2 erewrite bind_run by reflexivity.
          reflexivity. }
      right. rewrite route_stage_stored by done. by stored_simpl.
    + erewrite (bind_raise (_ ≫= _)).
      2:{ erewrite bind_raise by exact Hrun. reflexivity. }
      cbn [snd]. by rewrite Hs.
  - pose proof (get_dock_availability_session coords stations_df w1) as Hs.
    destruct (get_dock_availability _ _ _ w1) as [[nearest|e] w2] eqn:Hrun;
      cbn [snd] in Hs.
    + erewrite (bind_run (_ ≫= _)).
      2:{ erewrite bind_run by exact Hrun. do 2 erewrite bind_run by reflexivity.
          reflexivity. }
      left. rewrite route_stage_stored by done. by stored_simpl.
    + erewrite (bind_raise (_ ≫= _)).
      2:{ erewrite bind_raise by exact Hrun. reflexivity. }
      cbn [snd]. by rewrite Hs.
Qed.
End SessionFacts.

(** C9. In every reachable session state at most one of the stored
    nearest-bike and nearest-dock results is not None; a bike lookup whose
    address resolves and whose search returns stores the result and sets
    the stored dock result to None, and a dock lookup does the converse. *)
Theorem session_has_one_destination :
  (∀ s, reachable s → one_destination s)
  ∧ (∀ bike_type_value stations_df geodesic_km py_repr requests_get geolocator_geocode
       address coords w nearest w2,
       geolocator_geocode address = Ok (Some coords) →
       get_bike_availability geodesic_km coords stations_df (bike_modes bike_type_value)
         (st_set "user_location" (tuple_of coords) w).2 = (Ok nearest, w2) →
       let s' := session_state
                   (lookup_and_store_nearest bike_type_value stations_df geodesic_km
                      py_repr requests_get geolocator_geocode address "bike" w).2 in
       stored s' "nearest_bike_station" = nearest_value nearest
       ∧ stored s' "nearest_dock_station" = VNull)
  ∧ (∀ bike_type_value stations_df geodesic_km py_repr requests_get geolocator_geocode
       address lookup_type coords w nearest w2,
       lookup_type ≠ "bike" →
       geolocator_geocode address = Ok (Some coords) →
       get_dock_availability geodesic_km coords stations_df
         (st_set "user_location" (tuple_of coords) w).2 = (Ok nearest, w2) →
       let s' := session_state
                   (lookup_and_store_nearest bike_type_value stations_df geodesic_km
                      py_repr requests_get geolocator_geocode address lookup_type w).2 in
       stored s' "nearest_dock_station" = nearest_value nearest
       ∧ stored s' "nearest_bike_station" = VNull).
Proof.
  split; [|split].
  - intros s Hs. induction Hs as [|w btv sdf gk pr rg gg address fb fd Hs IH].
    + by left.
    + unfold script.
      destruct (session_defaults_stored w "nearest_bike_station") as (Hok & _ & Hb).
      destruct (session_defaults_stored w "nearest_dock_station") as (_ & _ & Hd).
      destruct (session_defaults w) as [o w0] eqn:Hdef. cbn [fst snd] in *. subst o.
      erewrite bind_run by exact Hdef.
      assert (Hinv : one_destination (session_state w0)).
      { unfold one_destination in *. by rewrite Hb, Hd. }
      unfold dispatch.
      destruct (truthy (VStr address) && fb); [by apply lookup_one_destination|].
      destruct (truthy (VStr address) && fd); [by apply lookup_one_destination|done].
  - intros. by eapply lookup_bike_stores.
  - intros. by eapply lookup_dock_stores.
Qed.

Lemma session_has_one_destination_witness :
  one_destination
    (session_state
       (script None 0 planar_km plain_repr (osrm_reply sample_route)
          (λ _, Ok (Some times_square)) "Times Square" true false
          (world_of [mixed_stations])).2)
  ∧ (let s' := session_state
              (lookup_and_store_nearest None 0 planar_km plain_repr
                 (osrm_reply sample_route) (λ _, Ok (Some times_square))
                 "Times Square" "bike" (world_of [mixed_stations])).2 in
     stored s' "nearest_bike_station"
       = VList [VStr "X"; VFloat (40758 # 1000); VFloat (-(73985 # 1000))]
     ∧ stored s' "nearest_dock_station" = VNull)
  ∧ (let s' := session_state
              (lookup_and_store_nearest None 0 planar_km plain_repr
                 (osrm_reply sample_route) (λ _, Ok (Some times_square))
                 "Times Square" "dock" (world_of [mixed_stations])).2 in
     stored s' "nearest_dock_station"
       = VList [VStr "X"; VFloat (40758 # 1000); VFloat (-(73985 # 1000))]
     ∧ stored s' "nearest_bike_station" = VNull).
Proof.
  split; [|split].
  - apply (proj1 session_has_one_destination).
    apply (reachable_run (world_of [mixed_stations])). apply reachable_start.
  - eapply (proj1 (proj2 session_has_one_destination) None 0 planar_km plain_repr
              (osrm_reply sample_route) (λ _, Ok (Some times_square)) "Times Square"
              times_square (world_of [mixed_stations])
              (Some [VStr "X"; VFloat (40758 # 1000); VFloat (-(73985 # 1000))])).
    + reflexivity.
    + vm_compute. reflexivity.
  - eapply (proj2 (proj2 session_has_one_destination) None 0 planar_km plain_repr
              (osrm_reply sample_route) (λ _, Ok (Some times_square)) "Times Square"
              "dock" times_square (world_of [mixed_stations])
              (Some [VStr "X"; VFloat (40758 # 1000); VFloat (-(73985 # 1000))])).
    + discriminate.
    + reflexivity.
    + vm_compute. reflexivity.
Defined.

(** * Further properties of the code *)

(** ** The dock search *)


Section DockFacts.
Variable geodesic_km : Q * Q → Q * Q → Q.
#[local] Abbreviation km' := (km geodesic_km).
#[local] Abbreviation measured' := (measured geodesic_km).

Lemma measured_other latlon r c : c ≠ "distance" → measured' latlon r c = r c.
Proof. intros H. unfold measured, upd. apply String.eqb_neq in H. by rewrite H. Qed.

Lemma km_measured latlon r : km' latlon (measured' latlon r) = km' latlon r.
Proof. unfold km. by rewrite !measured_other. Qed.

Lemma station_of_measured latlon r : station_of (measured' latlon r) = station_of r.
Proof. unfold station_of. by rewrite !measured_other. Qed.

Lemma measured_frame latlon d a :
  apply_series (distance_of geodesic_km latlon) (reset_index_drop d) = Ok a →
  assign_series "distance" a (reset_index_drop d)
  = mkDataFrame (add_column "distance" (columns d))
      (map (λ ir, (ir.1, measured' latlon ir.2)) (relabel 0 (rows d))).
Proof.
  intros Ha. unfold apply_series in Ha.
  apply (traverse_map _ (λ ir : Z * row, (ir.1, VFloat (km' latlon ir.2)))) in Ha.
  2:{ intros ir b _ Hb.
      destruct (distance_of geodesic_km latlon _) as [v|] eqn:Hv; [|done].
      injection Hb as <-. by rewrite (distance_of_km _ _ _ _ _ Hv). }
  subst a. unfold assign_series. rewrite map_map. cbn [snd].
  by rewrite (set_cells_map "distance" (λ ir, VFloat (km' latlon ir.2))).
Qed.

Lemma nearest_measured latlon (l : list row) :
  option_map station_of (nearest (km' latlon) (map (measured' latlon) l))
  = option_map station_of (nearest (km' latlon) l).
Proof.
  unfold nearest.
  rewrite (nearest_from_map (measured' latlon) (km' latlon) None l
            : nearest_from _ None (map _ l) = _).
  rewrite (nearest_from_ext _ (km' latlon)) by apply km_measured.
  destruct (nearest_from (km' latlon) None l); cbn; [|done].
  by rewrite station_of_measured.
Qed.

Lemma measured_rows latlon d :
  map snd (List.filter (λ ir : Z * row, is_positive (ir.2 "num_docks_available"))
             (map (λ ir : Z * row, (ir.1, measured' latlon ir.2)) (relabel 0 (rows d))))
  = map (measured' latlon) (List.filter dock_candidate (map snd (rows d))).
Proof.
  rewrite (map_snd_filter (λ r, is_positive (r "num_docks_available"))).
  rewrite map_map. cbn [snd].
  rewrite <- (map_map snd (measured' latlon)), relabel_snd.
  rewrite (filter_map_comm (measured' latlon) (λ r, is_positive (r "num_docks_available"))).
  reflexivity.
Qed.

Lemma relabel_nil n (rs : list (Z * row)) : relabel n rs = [] → rs = [].
Proof. by destruct rs. Qed.

Lemma get_dock_availability_result h s n df d latlon res w' :
  h !! df = Some d →
  get_dock_availability geodesic_km latlon df (mkWorld h s n) = (Ok res, w') →
  res = option_map station_of
          (nearest (km' latlon) (List.filter dock_candidate (map snd (rows d)))).
Proof.
  intros Hd H. rewrite <- (app_nil_r h) in H.
  unfold get_dock_availability in H.
  unfold mbind, M_bind, lift in H.
  rewrite (run_copy_old _ _ _ _ _ _ Hd) in H. cbn [length app] in H.
  do 2 step H.
  unfold apply_axis1 in H.
  destruct (df_empty (reset_index_drop d)) eqn:He.
  - destruct (distance_of_missing geodesic_km latlon (columns (reset_index_drop d)))
      as [e Hmiss].
    rewrite Hmiss in H. unfold setitem_applied in H.
    destruct (columns (reset_index_drop d)) as [|c0 [|c1 rest]] eqn:Hcols;
      [discriminate H| |discriminate H].
    assert (Hrows : rows d = []).
    { unfold df_empty in He. rewrite Hcols in He. cbn [reset_index_drop rows] in He.
      destruct (relabel 0 (rows d)) eqn:Hr; [by apply relabel_nil in Hr|done]. }
    rewrite Hrows. cbn [map List.filter nearest nearest_from option_map].
    unfold mbind, M_bind, lift in H.
    unfold column at 1 in H. unfold has_column at 1 in H. rewrite Hcols in H.
    rewrite bool_decide_eq_true_2 in H by left.
    step H. step H.
    destruct (column "num_docks_available" _) as [sd|] eqn:Esd; [|discriminate H].
    unfold column in Esd. destruct (has_column _ _); [|discriminate Esd].
    injection Esd as <-. cbn [reset_index_drop rows assign_series] in H.
    rewrite Hrows in H. cbn in H.
    step H. step H.
    unfold df_empty, boolean_index, assign_series, reset_index_drop in H.
    cbn [rows columns] in H. rewrite Hrows in H. cbn [relabel set_cells take_rows] in H.
    destruct (add_column _ _) in H; by injection H as <- _.
  - destruct (apply_series _ _) as [a|] eqn:E in H; [|discriminate H].
    cbn [setitem_applied] in H. step H.
    rewrite (measured_frame _ _ _ E) in H. clear E.
    step H. do 2 ok_or_raise H. step H.
    rewrite (filter_positive _ _ _ _ E E0) in H. clear E E0. cbn [columns rows] in H.
    step H.
    destruct (df_empty _) eqn:Hemp in H.
    + injection H as <- _. apply df_empty_rows in Hemp.
      2:{ intros Hnil. assert ("distance" ∈ add_column "distance" (columns d)) as Hin
            by (apply elem_of_add_column; auto).
          rewrite Hnil in Hin. by apply elem_of_nil in Hin. }
      apply (f_equal (map snd)) in Hemp. rewrite measured_rows in Hemp.
      apply map_eq_nil in Hemp. by rewrite Hemp.
    + step H. do 2 ok_or_raise H. step H. do 4 ok_or_raise H.
      injection H as <- _.
      destruct (loc _ _) eqn:Eloc in E1; [|discriminate E1]. injection E1 as <-.
      cbn [columns] in *.
      rewrite <- nearest_measured, <- measured_rows.
      eapply closest_station; eauto.
      * apply filter_labels_NoDup. rewrite map_map. cbn [fst]. apply (relabel_NoDup 0).
      * intros i r Hin. apply list_elem_of_In, filter_In in Hin as [Hin _].
        apply in_map_iff in Hin as ([j r0] & [= _ <-] & _). by rewrite km_measured.
Qed.
Lemma apply_measure_ok latlon d :
  valid_latitude latlon.1 = true → valid_geography d →
  ∃ a, apply_series (distance_of geodesic_km latlon) (reset_index_drop d) = Ok a.
Proof.
  intros Hq (Hlat & Hlon & Hrows). eexists. unfold apply_series.
  apply (traverse_total _ (λ ir : Z * row, (ir.1, VFloat (km' latlon ir.2)))).
  intros [j r] Hin. cbn [fst snd reset_index_drop rows columns] in *.
  assert (∃ i0, (i0, r) ∈ rows d) as [i0 Hin0].
  { assert (r ∈ map snd (relabel 0 (rows d))) as Hr.
    { apply list_elem_of_In, in_map_iff. exists (j, r). split; [done|].
      by apply list_elem_of_In. }
    rewrite relabel_snd in Hr.
    apply list_elem_of_In, in_map_iff in Hr as ([i0 r'] & <- & Hr).
    exists i0. by apply list_elem_of_In. }
  destruct (Hrows _ _ Hin0) as [p Hp].
  unfold distance_of, row_getitem, geodesic, km, mbind, outcome_bind.
  unfold has_column in Hlat, Hlon. by rewrite Hlat, Hlon, Hq, Hp.
Qed.

Lemma closest_measured (dist : row → Q) cols (L : list (Z * row)) :
  (∀ i r, (i, r) ∈ L → r "distance" = VFloat (dist r)) → L ≠ [] →
  ∃ i x, idxmin (map (λ ir : Z * row, (ir.1, ir.2 "distance")) L) = Ok i
         ∧ loc i (mkDataFrame cols L) = Ok x ∧ (i, x) ∈ L.
Proof.
  intros HL Hne.
  rewrite (map_ext_in _ (λ ir : Z * row, (ir.1, VFloat (dist ir.2)))).
  2:{ intros [j r] Hin. cbn. f_equal. apply list_elem_of_In in Hin. by apply (HL j). }
  unfold idxmin.
  pose proof (argmin_nearest (λ ir, dist ir.2) None L) as Ha.
  cbn [fmap option_fmap option_map] in Ha. rewrite Ha. clear Ha.
  destruct (nearest_from _ None L) as [[i r]|] eqn:Hn.
  - cbn. apply (nearest_spec (λ ir : Z * row, dist ir.2)) in Hn as (k & Hk & _).
    apply list_elem_of_lookup_2 in Hk.
    destruct (find_label_some _ _ _ Hk) as [x Hx].
    exists i, x.2. split; [done|]. unfold loc; cbn [rows]. rewrite Hx. split; [done|].
    apply find_some in Hx as [Hin Heq]. apply Z.eqb_eq in Heq.
    destruct x as [i' x]. cbn in Heq. subst i'. by apply list_elem_of_In.
  - by apply (nearest_none (λ ir : Z * row, dist ir.2)) in Hn.
Qed.

Lemma get_dock_availability_returns h s n df d latlon :
  h !! df = Some d → rows d ≠ [] →
  valid_latitude latlon.1 = true → valid_geography d →
  dock_searchable d →
  ∃ res w', get_dock_availability geodesic_km latlon df (mkWorld h s n) = (Ok res, w').
Proof.
  intros Hd Hne Hq Hgeo (Hdocks & Hsid & Hnum).
  pose proof Hgeo as (Hlat & Hlon & _).
  destruct (get_dock_availability _ _ _ _) as [[res|e] w'] eqn:H; [eauto|exfalso].
  rewrite <- (app_nil_r h) in H.
  unfold get_dock_availability in H.
  unfold mbind, M_bind, lift in H.
  rewrite (run_copy_old _ _ _ _ _ _ Hd) in H. cbn [length app] in H.
  do 2 step H.
  unfold apply_axis1 in H.
  assert (df_empty (reset_index_drop d) = false) as Hfull.
  { unfold df_empty; cbn [reset_index_drop columns rows].
    unfold has_column in Hlat. apply bool_decide_eq_true in Hlat.
    destruct (columns d); [by apply elem_of_nil in Hlat|].
    destruct (rows d); [done|]. done. }
  rewrite Hfull in H.
  destruct (apply_measure_ok latlon d Hq Hgeo) as [a Ea]. rewrite Ea in H.
  cbn [setitem_applied] in H. step H.
  rewrite (measured_frame _ _ _ Ea) in H. clear Ea.
  assert (Hcol : ∀ c L, has_column c d = true →
            has_column c (mkDataFrame (add_column "distance" (columns d)) L) = true).
  { intros c L Hc. unfold has_column in *. cbn [columns].
    apply bool_decide_eq_true. apply elem_of_add_column. left.
    by apply bool_decide_eq_true in Hc. }
  step H. rewrite column_ok in H by by apply Hcol. cbn [rows] in H.
  rewrite (series_gt_ok "num_docks_available") in H.
  2:{ intros i r Hin. apply list_elem_of_In, in_map_iff in Hin as ([j r0] & [= _ <-] & Hin).
      rewrite measured_other by done.
      assert (r0 ∈ map snd (relabel 0 (rows d))) as Hr.
      { apply list_elem_of_In, in_map_iff. by exists (j, r0). }
      rewrite relabel_snd in Hr.
      apply list_elem_of_In, in_map_iff in Hr as ([i0 r'] & <- & Hr).
      apply (Hnum i0). by apply list_elem_of_In. }
  step H. rewrite boolean_index_map in H.
  step H.
  destruct (df_empty _) eqn:Hemp in H; [discriminate H|].
  step H.
  assert (Hdist : has_column "distance"
            (mkDataFrame (add_column "distance" (columns d)) []) = true).
  { unfold has_column; cbn [columns]. apply bool_decide_eq_true, elem_of_add_column. auto. }
  rewrite column_ok in H by exact Hdist. cbn [rows] in H.
  lazymatch type of Hemp with
  | df_empty (mkDataFrame ?cols ?L) = false =>
      destruct (closest_measured (km' latlon) cols L) as (i & x & Hi & Hx & Hin);
      [ intros i r Hin; apply list_elem_of_In, filter_In in Hin as [Hin _];
        apply in_map_iff in Hin as ([j r0] & [= _ <-] & _); by rewrite km_measured
      | intros Hnil; rewrite Hnil in Hemp; unfold df_empty in Hemp; cbn in Hemp;
        by destruct cols
      | ]
  end.
  rewrite Hi in H. step H. rewrite Hx in H.
  unfold row_getitem in H. cbn [columns] in H.
  assert (Hc : ∀ c, has_column c d = true →
            bool_decide (c ∈ add_column "distance" (columns d)) = true).
  { intros c Hc. apply bool_decide_eq_true, elem_of_add_column. left.
    unfold has_column in Hc. by apply bool_decide_eq_true in Hc. }
  rewrite !Hc in H by assumption. discriminate H.
Qed.
(** X1. Whenever the dock search returns a station, it is the
    (station_id, lat, lon) of a row of the caller's frame with
    num_docks_available > 0, no row with docks is closer to the query and
    every row with docks listed before it is strictly farther.  It returns
    none only when no row has docks; and on a frame that has rows, valid
    lat/lon and numeric dock counts it does return, with none when no row
    has docks. *)
Theorem get_dock_availability_nearest_with_docks
    (latlon : Q * Q) (df : ref) (w : world) (d : DataFrame) :
  frames w !! df = Some d →
  (∀ res, (get_dock_availability geodesic_km latlon df w).1 = Ok (Some res) →
     ∃ k i (r : row), rows d !! k = Some (i, r) ∧ res = station_of r ∧
       is_positive (r "num_docks_available") = true ∧
       ∀ k' i' (r' : row), rows d !! k' = Some (i', r') →
         is_positive (r' "num_docks_available") = true →
         (km' latlon r <= km' latlon r')%Q ∧
         ((k' < k)%nat → (km' latlon r < km' latlon r')%Q))
  ∧ ((get_dock_availability geodesic_km latlon df w).1 = Ok None →
       ∀ i (r : row), (i, r) ∈ rows d → is_positive (r "num_docks_available") = false)
  ∧ (rows d ≠ [] →
     valid_latitude latlon.1 = true → valid_geography d → dock_searchable d →
       ∃ res, (get_dock_availability geodesic_km latlon df w).1 = Ok res ∧
         ((∀ i (r : row), (i, r) ∈ rows d →
             is_positive (r "num_docks_available") = false) →
          res = None)).
Proof.
  intros Hd.
  assert (Hres : ∀ res,
    (get_dock_availability geodesic_km latlon df w).1 = Ok res →
    res = option_map station_of
            (nearest (km' latlon) (List.filter dock_candidate (map snd (rows d))))).
  { intros res Hr. destruct w as [h s n].
    destruct (get_dock_availability _ _ _ _) as [o w'] eqn:H. cbn in Hr. subst o.
    by eapply get_dock_availability_result. }
  destruct w as [h s n]. cbn [frames] in Hd.
  split; [|split].
  - intros res Hr. apply Hres in Hr.
    destruct (nearest _ _) as [r|] eqn:Hn; [|done]. injection Hr as ->.
    apply nearest_filter_spec in Hn as (k & Hk & Hc & Hmin).
    rewrite list_lookup_fmap in Hk.
    destruct (rows d !! k) as [[i r0]|] eqn:Hk0; [|done]. injection Hk as ->.
    exists k, i, r. split; [done|]. split; [done|]. split; [done|].
    intros k' i' r' Hk' Hc'. apply (Hmin k' r'); [|done].
    by rewrite list_lookup_fmap, Hk'.
  - intros Hr i r Hin. apply Hres in Hr. symmetry in Hr.
    destruct (nearest _ _) eqn:Hn; [done|]. apply nearest_none in Hn.
    destruct (is_positive (r "num_docks_available")) eqn:Hc; [|done].
    assert (r ∈ List.filter dock_candidate (map snd (rows d))) as Hf.
    { apply list_elem_of_In, filter_In. split; [|done].
      apply in_map_iff. exists (i, r). split; [done|]. by apply list_elem_of_In. }
    rewrite Hn in Hf. by apply elem_of_nil in Hf.
  - intros Hne Hq Hgeo Hs.
    destruct (get_dock_availability_returns h s n df d latlon Hd Hne Hq Hgeo Hs)
      as (res & w' & Hrun).
    exists res. rewrite Hrun. split; [done|]. intros Hnone.
    specialize (Hres res). rewrite Hrun in Hres. rewrite (Hres eq_refl).
    rewrite (filter_ext_elem _ (λ _, false)).
    + assert (Hnil : ∀ l : list row, List.filter (λ _, false) l = [])
        by (induction l; auto).
      by rewrite Hnil.
    + intros r Hin. apply list_elem_of_In, in_map_iff in Hin as ([i r0] & <- & Hin).
      apply (Hnone i). by apply list_elem_of_In.
Qed.
End DockFacts.

Lemma full_station_rows i r :
  (i, r) ∈ rows full_station →
  r = record_row (as_record (station "X" (40758 # 1000) (-(73985 # 1000)) 5 0 5 0)).
Proof.
  intros Hin. apply list_elem_of_lookup_1 in Hin as [[|k] Hk].
  - by injection Hk as _ <-.
  - destruct k; discriminate Hk.
Qed.

Lemma get_dock_availability_nearest_with_docks_witness :
  (∃ k i (r : row), rows full_then_free_stations !! k = Some (i, r) ∧
     [VStr "Y"; VFloat (4076 # 100); VFloat (-(7399 # 100))] = station_of r ∧
     is_positive (r "num_docks_available") = true ∧
     ∀ k' i' (r' : row), rows full_then_free_stations !! k' = Some (i', r') →
       is_positive (r' "num_docks_available") = true →
       (km planar_km times_square r <= km planar_km times_square r')%Q ∧
       ((k' < k)%nat → (km planar_km times_square r < km planar_km times_square r')%Q))
  ∧ (∀ i (r : row), (i, r) ∈ rows full_station →
       is_positive (r "num_docks_available") = false)
  ∧ ∃ res, (get_dock_availability planar_km times_square 0
              (world_of [full_station])).1 = Ok res ∧
      ((∀ i (r : row), (i, r) ∈ rows full_station →
          is_positive (r "num_docks_available") = false) → res = None).
Proof.
  split; [|split].
  - apply (proj1 (get_dock_availability_nearest_with_docks planar_km times_square 0
                    (world_of [full_then_free_stations]) full_then_free_stations
                    eq_refl)).
    vm_compute. reflexivity.
  - apply (proj1 (proj2 (get_dock_availability_nearest_with_docks planar_km
                    times_square 0 (world_of [full_station]) full_station eq_refl))).
    vm_compute. reflexivity.
  - apply (proj2 (proj2 (get_dock_availability_nearest_with_docks planar_km
                    times_square 0 (world_of [full_station]) full_station eq_refl))).
    + discriminate.
    + reflexivity.
    + split; [reflexivity|]. split; [reflexivity|].
      intros i r Hin. rewrite (full_station_rows i r Hin). eexists. vm_compute. reflexivity.
    + split; [reflexivity|]. split; [reflexivity|].
      intros i r Hin. by rewrite (full_station_rows i r Hin).
Defined.

(** ** The session: defaults, lookups and routes *)

Lemma st_default_lookup k w k' :
  session_state (st_default k w).2 !! k'
  = match session_state w !! k' with
    | Some v => Some v
    | None => if String.eqb k' k then Some VNull else None
    end.
Proof.
  unfold st_default. destruct (session_state w !! k) eqn:Hk.
  - cbn. destruct (session_state w !! k') eqn:Hk'; [done|].
    destruct (String.eqb_spec k' k) as [->|]; [congruence|done].
  - cbn. destruct (String.eqb_spec k' k) as [->|Hne].
    + by rewrite lookup_insert_eq, Hk.
    + rewrite lookup_insert_ne by done. by destruct (session_state w !! k').
Qed.

Lemma st_default_notices k w : notices (st_default k w).2 = notices w.
Proof. unfold st_default. by destruct (session_state w !! k). Qed.

Lemma session_defaults_notices w : notices (session_defaults w).2 = notices w.
Proof. unfold session_defaults. rewrite !st_default_bind. by rewrite !st_default_notices. Qed.

(** X2. The defaults never raise and never overwrite: a key that holds a
    value keeps it, each of the five session keys that is missing is set
    to None, no other key appears, and frames and notices are as before. *)
Theorem session_defaults_keep_values (w : world) :
  (session_defaults w).1 = Ok tt
  ∧ frames (session_defaults w).2 = frames w
  ∧ notices (session_defaults w).2 = notices w
  ∧ ∀ k, session_state (session_defaults w).2 !! k
         = match session_state w !! k with
           | Some v => Some v
           | None => if bool_decide (k ∈ session_keys) then Some VNull else None
           end.
Proof.
  destruct (session_defaults_stored w "") as (Hok & Hfr & _).
  split; [done|]. split; [done|]. split.
  - apply session_defaults_notices.
  - intros k. unfold session_defaults. rewrite !st_default_bind.
    rewrite !st_default_lookup.
    destruct (session_state w !! k); [done|].
    unfold session_keys.
    repeat match goal with
           | |- context [String.eqb k ?x] =>
               destruct (String.eqb_spec k x) as [->|?]; [by vm_compute|]
           end.
    rewrite bool_decide_eq_false_2; [done|].
    rewrite !elem_of_cons, elem_of_nil. tauto.
Qed.

Section SessionRoutes.
Variable bike_type_value : option string.
Variable stations_df : ref.
Variable geodesic_km : Q * Q → Q * Q → Q.
Variable py_repr : value → string.
Variable requests_get : string → outcome response.
Variable geolocator_geocode : string → outcome (option (Q * Q)).

#[local] Abbreviation lookup :=
  (lookup_and_store_nearest bike_type_value stations_df geodesic_km py_repr
     requests_get geolocator_geocode).
#[local] Abbreviation search_of' := (search_of bike_type_value stations_df geodesic_km).
#[local] Abbreviation run_script :=
  (script bike_type_value stations_df geodesic_km py_repr requests_get
     geolocator_geocode).

Ltac session_simpl :=
  cbn [st_set session_state fst snd];
  repeat first [ rewrite stored_insert | rewrite stored_insert_ne by done ].

Lemma search_of_session lookup_type coords w :
  session_state (search_of' lookup_type coords w).2 = session_state w.
Proof.
  unfold search_of. destruct (String.eqb lookup_type "bike").
  - apply get_bike_availability_session.
  - apply get_dock_availability_session.
Qed.

(** The lookup after the geocoder has answered, in terms of the search. *)
Lemma lookup_found address lookup_type coords w :
  geolocator_geocode address = Ok (Some coords) →
  lookup address lookup_type w
  = (nearest ← (nearest ← search_of' lookup_type coords;
                (if String.eqb lookup_type "bike"
                 then st_set "nearest_bike_station" (nearest_value nearest);;
                      st_set "nearest_dock_station" VNull
                 else st_set "nearest_dock_station" (nearest_value nearest);;
                      st_set "nearest_bike_station" VNull);;
                mret nearest);
     match nearest with
     | Some station =>
         if truthy (VList station)
         then route ← lift (run_osrm py_repr requests_get station coords);
              st_set "route_coordinates" route.1;;
              st_set "route_duration" route.2
         else st_set "route_coordinates" VNull;; st_set "route_duration" VNull
     | None => st_set "route_coordinates" VNull;; st_set "route_duration" VNull
     end) (st_set "user_location" (tuple_of coords) w).2.
Proof.
  intros Hgeo. unfold lookup_and_store_nearest, geocode. rewrite Hgeo.
  erewrite bind_run by reflexivity. cbn iota.
  erewrite bind_run by reflexivity.
  unfold search_of, bike_modes. destruct (String.eqb lookup_type "bike"); reflexivity.
Qed.

Lemma dangling_copy r w : frames w !! r = None → DataFrame_copy r w = (Raise Dangling, w).
Proof. intros H. unfold DataFrame_copy, deref, mbind, M_bind. by rewrite H. Qed.

Lemma search_of_station lookup_type coords w station w2 :
  search_of' lookup_type coords w = (Ok (Some station), w2) →
  ∃ a b c, station = [a; b; c].
Proof.
  unfold search_of. destruct w as [h s n].
  destruct (h !! stations_df) as [d|] eqn:Hd.
  - destruct (String.eqb lookup_type "bike"); intros H.
    + apply (get_bike_availability_result _ _ _ _ _ _ _ _ _ _ Hd) in H.
      destruct (nearest _ _); [|done]. injection H as ->. by eexists _, _, _.
    + apply (get_dock_availability_result _ _ _ _ _ _ _ _ _ Hd) in H.
      destruct (nearest _ _); [|done]. injection H as ->. by eexists _, _, _.
  - destruct (String.eqb lookup_type "bike"); intros H.
    + unfold get_bike_availability in H.
      rewrite (bind_raise (_ ≫= _) _ _ Dangling (mkWorld h s n)) in H; [done|].
      by rewrite (bind_raise _ _ _ Dangling (mkWorld h s n)) by by apply dangling_copy.
    + unfold get_dock_availability in H.
      rewrite (bind_raise (_ ≫= _) _ _ Dangling (mkWorld h s n)) in H; [done|].
      by rewrite (bind_raise _ _ _ Dangling (mkWorld h s n)) by by apply dangling_copy.
Qed.

Lemma stores_session lookup_type (nearest : option (list value)) w :
  (Ok tt, mkWorld (frames w)
            (if String.eqb lookup_type "bike"
             then <["nearest_dock_station" := VNull]>
                    (<["nearest_bike_station" := nearest_value nearest]> (session_state w))
             else <["nearest_bike_station" := VNull]>
                    (<["nearest_dock_station" := nearest_value nearest]> (session_state w)))
            (notices w))
  = ((if String.eqb lookup_type "bike"
      then st_set "nearest_bike_station" (nearest_value nearest);;
           st_set "nearest_dock_station" VNull
      else st_set "nearest_dock_station" (nearest_value nearest);;
           st_set "nearest_bike_station" VNull) w).
Proof. by destruct (String.eqb lookup_type "bike"). Qed.

(** X3. A lookup whose address resolves and whose search returns stores
    the coordinates as the user location; with no station found it sets
    the stored route and duration to None; with a station found and a
    route returned by the route adapter (the none pair included) it stores
    both parts of that answer. *)
Theorem lookup_stores_route (address lookup_type : string) (coords : Q * Q)
    (w : world) (nearest : option (list value)) (w2 : world) :
  geolocator_geocode address = Ok (Some coords) →
  search_of' lookup_type coords (st_set "user_location" (tuple_of coords) w).2
    = (Ok nearest, w2) →
  let s' := session_state (lookup address lookup_type w).2 in
  stored s' "user_location" = tuple_of coords
  ∧ (nearest = None →
       (lookup address lookup_type w).1 = Ok tt ∧
       stored s' "route_coordinates" = VNull ∧ stored s' "route_duration" = VNull)
  ∧ (∀ station route,
       nearest = Some station →
       run_osrm py_repr requests_get station coords = Ok route →
       (lookup address lookup_type w).1 = Ok tt ∧
       stored s' "route_coordinates" = route.1 ∧ stored s' "route_duration" = route.2).
Proof.
  intros Hgeo Hrun s'. unfold s'. rewrite (lookup_found _ _ _ _ Hgeo).
  pose proof (search_of_session lookup_type coords
                (st_set "user_location" (tuple_of coords) w).2) as Hs.
  rewrite Hrun in Hs. cbn [snd] in Hs.
  erewrite (bind_run (_ ≫= _)).
  2:{ erewrite bind_run by exact Hrun. erewrite bind_run by (symmetry; apply stores_session).
      reflexivity. }
  split; [|split].
  - destruct nearest as [station|].
    + destruct (search_of_station _ _ _ _ _ Hrun) as (a & b & c & ->). cbn [truthy].
      unfold mbind, M_bind, lift, st_set.
      destruct (run_osrm _ _ _ _) as [route|e]; cbn [snd session_state]; rewrite Hs;
        destruct (String.eqb lookup_type "bike"); by session_simpl.
    + unfold mbind, M_bind, st_set; cbn [snd session_state]. rewrite Hs.
      destruct (String.eqb lookup_type "bike"); by session_simpl.
  - intros ->. unfold mbind, M_bind, st_set; cbn [fst snd session_state].
    split; [done|]. split; by session_simpl.
  - intros station route -> Hroute.
    destruct (search_of_station _ _ _ _ _ Hrun) as (a & b & c & ->). cbn [truthy].
    unfold mbind, M_bind, lift, st_set. rewrite Hroute. cbn [fst snd session_state].
    split; [done|]. split; by session_simpl.
Qed.

(** X4. A lookup whose address resolves and whose search or route request
    raises, raises the same exception and leaves the session half updated:
    the new user location is stored while the stored route and duration
    stay those of the earlier lookup; after a failed search the stored
    destinations stay too, after a failed route request the new
    destination is already stored. *)
Theorem lookup_failure_keeps_route (address lookup_type : string) (coords : Q * Q)
    (w : world) :
  geolocator_geocode address = Ok (Some coords) →
  let w1 := (st_set "user_location" (tuple_of coords) w).2 in
  let out := lookup address lookup_type w in
  (∀ e w2, search_of' lookup_type coords w1 = (Raise e, w2) →
     out.1 = Raise e ∧
     stored (session_state out.2) "user_location" = tuple_of coords ∧
     ∀ k, k ≠ "user_location" →
       stored (session_state out.2) k = stored (session_state w) k)
  ∧ (∀ station w2 e,
       search_of' lookup_type coords w1 = (Ok (Some station), w2) →
       run_osrm py_repr requests_get station coords = Raise e →
       out.1 = Raise e ∧
       stored (session_state out.2) "user_location" = tuple_of coords ∧
       stored (session_state out.2)
         (if String.eqb lookup_type "bike" then "nearest_bike_station"
          else "nearest_dock_station") = VList station ∧
       stored (session_state out.2) "route_coordinates"
         = stored (session_state w) "route_coordinates" ∧
       stored (session_state out.2) "route_duration"
         = stored (session_state w) "route_duration").
Proof.
  intros Hgeo w1 out. unfold out, w1. rewrite (lookup_found _ _ _ _ Hgeo).
  split.
  - intros e w2 Hrun.
    pose proof (search_of_session lookup_type coords
                  (st_set "user_location" (tuple_of coords) w).2) as Hs.
    rewrite Hrun in Hs. cbn [snd] in Hs.
    erewrite (bind_raise (_ ≫= _)).
    2:{ erewrite bind_raise by exact Hrun. reflexivity. }
    cbn [fst snd]. rewrite Hs. split; [done|]. split; [by session_simpl|].
    intros k Hk. by session_simpl.
  - intros station w2 e Hrun Hroute.
    pose proof (search_of_session lookup_type coords
                  (st_set "user_location" (tuple_of coords) w).2) as Hs.
    rewrite Hrun in Hs. cbn [snd] in Hs.
    erewrite (bind_run (_ ≫= _)).
    2:{ erewrite bind_run by exact Hrun.
        erewrite bind_run by (symmetry; apply stores_session). reflexivity. }
    destruct (search_of_station _ _ _ _ _ Hrun) as (a & b & c & ->). cbn [truthy].
    unfold mbind, M_bind, lift. rewrite Hroute. cbn [fst snd session_state]. rewrite Hs.
    destruct (String.eqb lookup_type "bike"); repeat split; by session_simpl.
Qed.

(** X5. A run of the script that resolves no coordinate changes no stored
    value: with an empty address or no button pressed nothing happens
    after the defaults, and with an address the geocoder does not find the
    only effect is the warning. *)
Theorem script_without_coordinates_keeps_session (address : string)
    (find_bike find_dock : bool) (w : world) :
  let out := run_script address find_bike find_dock w in
  ((address = "" ∨ (find_bike = false ∧ find_dock = false)) →
     out.1 = Ok tt ∧ frames out.2 = frames w ∧ notices out.2 = notices w ∧
     ∀ k, stored (session_state out.2) k = stored (session_state w) k)
  ∧ (address ≠ "" → find_bike = true ∨ find_dock = true →
     geolocator_geocode address = Ok None →
     out.1 = Ok tt ∧ frames out.2 = frames w ∧
     notices out.2 = notices w ++ [not_found_warning] ∧
     ∀ k, stored (session_state out.2) k = stored (session_state w) k).
Proof.
  intros out. unfold out, script.
  destruct (session_defaults_stored w "") as (Hok & Hfr & _).
  pose proof (session_defaults_notices w) as Hno.
  pose proof (λ k, proj2 (proj2 (session_defaults_stored w k))) as Hst.
  destruct (session_defaults w) as [o w0] eqn:Hdef. cbn [fst snd] in *. subst o.
  erewrite bind_run by exact Hdef. unfold dispatch.
  split.
  - intros Hnone.
    assert (truthy (VStr address) && find_bike = false
            ∧ truthy (VStr address) && find_dock = false) as [-> ->].
    { destruct Hnone as [->|[-> ->]]; [done|]. by rewrite !andb_false_r. }
    done.
  - intros Haddr Hbtn Hgeo.
    assert (truthy (VStr address) = true) as Ht.
    { cbn. apply String.eqb_neq in Haddr. by rewrite Haddr. }
    rewrite Ht. cbn [andb].
    assert (∀ t, lookup address t w0
                 = (Ok tt, mkWorld (frames w0) (session_state w0)
                             (notices w0 ++ [not_found_warning]))) as Hl.
    { intros t. unfold lookup_and_store_nearest, geocode. by rewrite Hgeo. }
    destruct find_bike; [|destruct find_dock; [|by destruct Hbtn]];
      rewrite Hl; cbn [fst snd frames notices session_state]; rewrite Hno; done.
Qed.
End SessionRoutes.

Lemma lookup_stores_route_witness :
  (let s' := session_state
               (lookup_and_store_nearest None 0 planar_km plain_repr
                  (osrm_reply sample_route) (λ _, Ok (Some times_square))
                  "Times Square" "bike" (world_of [mixed_stations])).2 in
   stored s' "user_location" = tuple_of times_square
   ∧ stored s' "route_coordinates"
     = VList [VList [VFloat (4075 # 100); VFloat (-(7398 # 100))];
              VList [VFloat (4076 # 100); VFloat (-(7399 # 100))]]
   ∧ stored s' "route_duration" = VFloat (21 # 2))
  ∧ (let s' := session_state
                 (lookup_and_store_nearest None 0 planar_km plain_repr
                    (osrm_reply sample_route) (λ _, Ok (Some times_square))
                    "Times Square" "dock"
                    (mkWorld [full_station] {["route_duration" := VFloat 5]} [])).2 in
     stored s' "route_coordinates" = VNull ∧ stored s' "route_duration" = VNull).
Proof.
  split.
  - destruct (lookup_stores_route None 0 planar_km plain_repr (osrm_reply sample_route)
                (λ _, Ok (Some times_square)) "Times Square" "bike" times_square
                (world_of [mixed_stations])
                (Some [VStr "X"; VFloat (40758 # 1000); VFloat (-(73985 # 1000))])
                (search_of None 0 planar_km "bike" times_square
                   (st_set "user_location" (tuple_of times_square)
                      (world_of [mixed_stations])).2).2
                eq_refl) as (Hloc & _ & Hroute).
    + vm_compute. reflexivity.
    + split; [exact Hloc|].
      exact (proj2 (Hroute _ _ eq_refl eq_refl)).
  - destruct (lookup_stores_route None 0 planar_km plain_repr (osrm_reply sample_route)
                (λ _, Ok (Some times_square)) "Times Square" "dock" times_square
                (mkWorld [full_station] {["route_duration" := VFloat 5]} [])
                None
                (search_of None 0 planar_km "dock" times_square
                   (st_set "user_location" (tuple_of times_square)
                      (mkWorld [full_station] {["route_duration" := VFloat 5]} [])).2).2
                eq_refl) as (_ & Hnone & _).
    + vm_compute. reflexivity.
    + exact (proj2 (Hnone eq_refl)).
Defined.

Lemma lookup_failure_keeps_route_witness :
  (let out := lookup_and_store_nearest None 0 planar_km plain_repr
                (osrm_reply sample_route) (λ _, Ok (Some times_square))
                "Times Square" "bike"
                (mkWorld [NoFrame] {["route_duration" := VFloat 5]} []) in
   out.1 = Raise ValueError ∧
   stored (session_state out.2) "user_location" = tuple_of times_square ∧
   stored (session_state out.2) "route_duration" = VFloat 5)
  ∧ (let out := lookup_and_store_nearest None 0 planar_km plain_repr
                  (λ _, Ok (mkResponse 200 (Raise JSONDecodeError)))
                  (λ _, Ok (Some times_square))
                  "Times Square" "dock"
                  (mkWorld [mixed_stations] {["route_duration" := VFloat 5]} []) in
     out.1 = Raise JSONDecodeError ∧
     stored (session_state out.2) "nearest_dock_station"
       = VList [VStr "X"; VFloat (40758 # 1000); VFloat (-(73985 # 1000))] ∧
     stored (session_state out.2) "route_duration" = VFloat 5).
Proof.
  split.
  - destruct (proj1 (lookup_failure_keeps_route None 0 planar_km plain_repr
                       (osrm_reply sample_route) (λ _, Ok (Some times_square))
                       "Times Square" "bike" times_square
                       (mkWorld [NoFrame] {["route_duration" := VFloat 5]} []) eq_refl)
                ValueError
                (search_of None 0 planar_km "bike" times_square
                   (st_set "user_location" (tuple_of times_square)
                      (mkWorld [NoFrame] {["route_duration" := VFloat 5]} [])).2).2)
      as (Hraise & Hloc & Hkeep).
    + vm_compute. reflexivity.
    + split; [exact Hraise|]. split; [exact Hloc|].
      exact (Hkeep "route_duration" ltac:(discriminate)).
  - destruct (proj2 (lookup_failure_keeps_route None 0 planar_km plain_repr
                       (λ _, Ok (mkResponse 200 (Raise JSONDecodeError)))
                       (λ _, Ok (Some times_square))
                       "Times Square" "dock" times_square
                       (mkWorld [mixed_stations] {["route_duration" := VFloat 5]} [])
                       eq_refl)
                [VStr "X"; VFloat (40758 # 1000); VFloat (-(73985 # 1000))]
                (search_of None 0 planar_km "dock" times_square
                   (st_set "user_location" (tuple_of times_square)
                      (mkWorld [mixed_stations] {["route_duration" := VFloat 5]} [])).2).2
                JSONDecodeError)
      as (Hraise & _ & Hdest & _ & Hdur).
    + vm_compute. reflexivity.
    + reflexivity.
    + split; [exact Hraise|]. split; [exact Hdest|exact Hdur].
Defined.

Lemma script_without_coordinates_keeps_session_witness :
  (let out := script None 0 planar_km plain_repr (osrm_reply sample_route)
                (λ _, Ok (Some times_square)) "" true false
                (mkWorld [mixed_stations] {["route_duration" := VFloat 5]} []) in
   out.1 = Ok tt ∧ notices out.2 = [] ∧
   stored (session_state out.2) "route_duration" = VFloat 5)
  ∧ (let out := script None 0 planar_km plain_repr (osrm_reply sample_route)
                  (λ _, Ok None) "Nowhere" false true
                  (mkWorld [mixed_stations] {["route_duration" := VFloat 5]} []) in
     out.1 = Ok tt ∧ notices out.2 = [not_found_warning] ∧
     stored (session_state out.2) "route_duration" = VFloat 5).
Proof.
  split.
  - destruct (proj1 (script_without_coordinates_keeps_session None 0 planar_km plain_repr
                       (osrm_reply sample_route) (λ _, Ok (Some times_square))
                       "" true false
                       (mkWorld [mixed_stations] {["route_duration" := VFloat 5]} []))
                (or_introl eq_refl)) as (Hok & _ & Hno & Hst).
    split; [exact Hok|]. split; [exact Hno|exact (Hst "route_duration")].
  - destruct (proj2 (script_without_coordinates_keeps_session None 0 planar_km plain_repr
                       (osrm_reply sample_route) (λ _, Ok None)
                       "Nowhere" false true
                       (mkWorld [mixed_stations] {["route_duration" := VFloat 5]} []))
                ltac:(discriminate) (or_intror eq_refl) eq_refl)
      as (Hok & _ & Hno & Hst).
    split; [exact Hok|]. split; [exact Hno|exact (Hst "route_duration")].
Defined.

(** ** The reconciliation, row by row *)

Lemma filter_key_unique {A : Type} (key : A → string) (k : string) (l : list A) :
  NoDup (map key l) →
  (length (List.filter (λ a, String.eqb (key a) k) l) <= 1)%nat.
Proof.
  induction l as [|a l IH]; cbn; [lia|]. intros Hnd.
  apply NoDup_cons in Hnd as [Hnotin Hnd].
  destruct (String.eqb_spec (key a) k) as [Hk|Hk]; [|by apply IH].
  cbn. replace (List.filter _ l) with (@nil A); [cbn; lia|].
  symmetry.
  assert (Hnone : ∀ b, b ∈ l → String.eqb (key b) k = false).
  { intros b Hb. apply String.eqb_neq. intros Hkb. apply Hnotin.
    rewrite Hk, <- Hkb. apply list_elem_of_In, in_map, list_elem_of_In, Hb. }
  rewrite (filter_ext_elem _ (λ _, false) l Hnone).
  clear. induction l; auto.
Qed.

Lemma singleton_of_short {A : Type} (a : A) (l : list A) :
  a ∈ l → (length l <= 1)%nat → l = [a].
Proof.
  destruct l as [|b [|c l]]; cbn; intros Hin Hlen; [by apply elem_of_nil in Hin| |lia].
  by apply list_elem_of_singleton in Hin as ->.
Qed.

Lemma flat_map_singletons {A B : Type} (g : A → list B) (g1 : A → B) (l : list A) :
  (∀ a, a ∈ l → g a = [g1 a]) → flat_map g l = map g1 l.
Proof.
  induction l as [|a l IH]; intros Hg; cbn; [done|].
  rewrite Hg by left. cbn. f_equal. apply IH. intros b Hb. apply Hg. by right.
Qed.

Lemma relabel_lookup n (L : list (Z * row)) (k : nat) :
  relabel n L !! k = (λ ir : Z * row, ((n + Z.of_nat k)%Z, ir.2)) <$> L !! k.
Proof.
  revert n k. induction L as [|ir L IH]; intros n k; [done|].
  destruct k as [|k]; cbn [relabel].
  - cbn. by rewrite Z.add_0_r.
  - cbn [lookup list_lookup]. rewrite IH. destruct (L !! k); cbn; [|done].
    do 2 f_equal. lia.
Qed.

Lemma relabel_length n (L : list (Z * row)) : length (relabel n L) = length L.
Proof. revert n. induction L as [|ir L IH]; intros n; cbn; [done|]. by rewrite IH. Qed.

Section ReconcileRows.
Variable py_repr : value → string.
#[local] Abbreviation str_of' := (str_of py_repr).
#[local] Abbreviation stringified' := (stringified py_repr).
#[local] Abbreviation available_cols' := (available_cols py_repr).

Lemma local_join_latlon h0 df1 df2 :
  local h0 (newer h0) (join_latlon py_repr df1 df2).
Proof.
  unfold join_latlon, DataFrame_copy, reset_index, contains_column,
    getitem, setitem, setitem_scalar, getitem_mask, is_empty, new_frame.
  local_auto.
Qed.

Lemma geography_merge c : c ∈ merge_columns → c = "station_id" ∨ c ∈ geography.
Proof.
  unfold merge_columns, geography. rewrite !elem_of_cons. tauto.
Qed.

Lemma merged_row_left (lcols rcols : list string) (lr : row) (rr : option row) c :
  (∀ o, o ∈ rcols → o ∈ merge_columns) →
  (∀ o, o ∈ geography → o ∉ lcols) →
  c ∈ lcols →
  merged_row "station_id" lcols rcols lr rr c = lr c.
Proof.
  intros Hr Hg Hc. unfold merged_row.
  assert (Hid : ∀ o, o ∈ lcols → suffixed "station_id" rcols "_x" o = o).
  { intros o Ho. unfold suffixed.
    destruct (String.eqb_spec o "station_id") as [|Hne]; [done|].
    case_bool_decide as Hin; [|done].
    apply Hr, geography_merge in Hin as [->|Hin]; [done|]. by destruct (Hg o Hin). }
  rewrite (renamed_cell_own _ lcols lr c); [done|done|by apply Hid|].
  intros o Ho Heq. by rewrite (Hid o Ho) in Heq.
Qed.

Lemma merged_row_right (lcols rcols : list string) (lr r : row) c :
  (∀ o, o ∈ rcols → o ∈ merge_columns) →
  (∀ o, o ∈ geography → o ∉ lcols) →
  c ∈ geography → c ∈ rcols →
  merged_row "station_id" lcols rcols lr (Some r) c = r c.
Proof.
  intros Hr Hg Hc Hin. unfold merged_row.
  rewrite renamed_cell_none.
  2:{ intros o Ho Heq. unfold suffixed in Heq.
      destruct (String.eqb_spec o "station_id") as [->|Hne].
      - subst c. unfold geography in Hc.
        repeat (apply elem_of_cons in Hc as [Hc|Hc]; [done|]). by apply elem_of_nil in Hc.
      - case_bool_decide as Ho2.
        + apply Hr, geography_merge in Ho2 as [->|Ho2]; [done|]. by destruct (Hg o Ho2).
        + subst o. by destruct (Hg c Hc). }
  assert (Hid : ∀ o, o ∈ without "station_id" rcols →
            suffixed "station_id" lcols "_y" o = o).
  { intros o Ho. apply list_elem_of_In, filter_In in Ho as [Ho Hne].
    apply list_elem_of_In in Ho. unfold suffixed.
    destruct (String.eqb_spec o "station_id") as [|Hne']; [done|].
    case_bool_decide as Hin2; [|done].
    apply Hr, geography_merge in Ho as [->|Ho]; [done|]. by destruct (Hg o Ho). }
  assert (Hcw : c ∈ without "station_id" rcols).
  { apply list_elem_of_In, filter_In. split; [by apply list_elem_of_In|].
    apply negb_true_iff, String.eqb_neq. intros ->. unfold geography in Hc.
    repeat (apply elem_of_cons in Hc as [Hc|Hc]; [done|]). by apply elem_of_nil in Hc. }
  rewrite (renamed_cell_own _ _ r c); [done|done|by apply Hid|].
  intros o Ho Heq. by rewrite (Hid o Ho) in Heq.
Qed.

(** The info rows a status row is merged with, when the info ids are unique:
    at most one. *)
Lemma matches_unique (d2 : DataFrame) (cols : list string) (x : row) :
  NoDup (map (λ ir : Z * row, str_of' (ir.2 "station_id")) (rows d2)) →
  let x' := upd x "station_id" (VStr (str_of' (x "station_id"))) in
  let ms := matches "station_id" x' (mkDataFrame cols (rows (stringified' d2))) in
  (length ms <= 1)%nat ∧
  ∀ i2 r2, (i2, r2) ∈ rows d2 →
    str_of' (r2 "station_id") = str_of' (x "station_id") →
    ms = [upd r2 "station_id" (VStr (str_of' (r2 "station_id")))].
Proof.
  intros Hnd x' ms.
  assert (Hms : ms = map (λ ir : Z * row,
                            upd ir.2 "station_id" (VStr (str_of' (ir.2 "station_id"))))
                       (List.filter
                          (λ ir : Z * row,
                             String.eqb (str_of' (ir.2 "station_id"))
                                        (str_of' (x "station_id")))
                          (rows d2))).
  { unfold ms, matches, stringified; cbn [rows].
    rewrite (filter_map_comm _ _ (rows d2)). rewrite map_map. cbn [snd]. done. }
  pose proof (filter_key_unique (λ ir : Z * row, str_of' (ir.2 "station_id"))
                (str_of' (x "station_id")) (rows d2) Hnd) as Hlen.
  split.
  - by rewrite Hms, length_map.
  - intros i2 r2 Hin Heq.
    rewrite Hms.
    rewrite (singleton_of_short (i2, r2) (List.filter _ (rows d2))); [done| |done].
    apply list_elem_of_In, filter_In. split; [by apply list_elem_of_In|].
    cbn [snd]. by apply String.eqb_eq.
Qed.

(** X6. With non-empty frames that carry station_id, a status frame
    without geography columns and info ids that are unique as strings,
    the join returns a new frame with exactly one row per status row, in
    the order of the status frame and labelled 0, 1, 2, ...: the row keeps
    the status cells, its station id is a string, and when an info row has
    the same id its geography cells are those of that info row. *)
Theorem join_latlon_row_per_status (w : world) (df1 df2 : ref) (d1 d2 : DataFrame) :
  frames w !! df1 = Some d1 → frames w !! df2 = Some d2 →
  df_empty d1 = false → df_empty d2 = false →
  has_column "station_id" d1 = true → has_column "station_id" d2 = true →
  (∀ c, c ∈ geography → has_column c d1 = false) →
  NoDup (map (λ ir : Z * row, str_of' (ir.2 "station_id")) (rows d2)) →
  ∃ r m,
    (join_latlon py_repr df1 df2 w).1 = Ok r ∧
    frames (join_latlon py_repr df1 df2 w).2 !! r = Some m ∧
    length (rows m) = length (rows d1) ∧
    ∀ k i (x : row), rows d1 !! k = Some (i, x) →
      ∃ y : row, rows m !! k = Some (Z.of_nat k, y) ∧
        y "station_id" = VStr (str_of' (x "station_id")) ∧
        (∀ c, c ∈ columns d1 → c ≠ "station_id" → y c = x c) ∧
        (∀ i2 (r2 : row) c, (i2, r2) ∈ rows d2 →
           str_of' (r2 "station_id") = str_of' (x "station_id") →
           c ∈ geography → has_column c d2 = true → y c = r2 c).
Proof.
  destruct w as [h s n]. cbn [frames]. intros H1 H2 He1 He2 Hc1 Hc2 Hgeo Hnd.
  destruct (join_latlon_run py_repr h s n df1 df2 d1 d2 H1 H2 He1 He2 Hc1 Hc2)
    as (ex & Hrun & Hex).
  unfold joined, merge_left_on in Hrun, Hex.
  assert (Hk1 : has_column "station_id" (stringified' d1) = true).
  { unfold has_column, stringified; cbn [columns]. apply bool_decide_eq_true.
    apply elem_of_add_column. by right. }
  assert (Hk2 : has_column "station_id"
                  (mkDataFrame (available_cols' d2) (rows (stringified' d2))) = true).
  { unfold has_column; cbn [columns]. apply bool_decide_eq_true.
    apply list_elem_of_In, filter_In. split; [by left|].
    unfold has_column, stringified; cbn [columns]. apply bool_decide_eq_true.
    apply elem_of_add_column. by right. }
  rewrite Hk1, Hk2 in Hrun, Hex. cbn [negb] in Hrun, Hex.
  cbn [columns rows] in Hrun, Hex.
  set (lcols := columns (stringified' d1)) in *.
  set (rcols := available_cols' d2) in *.
  set (right := mkDataFrame rcols (rows (stringified' d2))) in *.
  assert (Hl : ∀ c, c ∈ lcols ↔ c ∈ columns d1 ∨ c = "station_id").
  { intros c. unfold lcols, stringified; cbn [columns]. apply elem_of_add_column. }
  assert (Hr : ∀ o, o ∈ rcols → o ∈ merge_columns).
  { intros o Ho. apply list_elem_of_In, filter_In in Ho as [Ho _].
    by apply list_elem_of_In. }
  assert (Hg : ∀ o, o ∈ geography → o ∉ lcols).
  { intros o Ho Hin. apply Hl in Hin as [Hin| ->].
    - specialize (Hgeo o Ho). unfold has_column in Hgeo.
      by apply bool_decide_eq_false in Hgeo.
    - unfold geography in Ho.
      repeat (apply elem_of_cons in Ho as [Ho|Ho]; [done|]). by apply elem_of_nil in Ho. }
  set (g1 := λ ir : Z * row,
               (0%Z, merged_row "station_id" lcols rcols ir.2
                       (head (matches "station_id" ir.2 right)))).
  rewrite (flat_map_singletons _ g1) in Hex.
  2: (intros [i x'] Hin; cbn [snd]; unfold g1; cbn [snd];
        unfold stringified in Hin; cbn [rows] in Hin;
        apply list_elem_of_In, in_map_iff in Hin as ([i0 x] & [= _ <-] & Hin);
        destruct (matches_unique d2 rcols x Hnd) as [Hlen _]; cbn zeta in Hlen;
        fold right in Hlen;
        destruct (matches _ _ right) as [|r0 [|r1 ms]]; [done|done|cbn in Hlen; lia]).
  eexists _, _. rewrite Hrun. cbn [fst snd frames].
  split; [reflexivity|]. split.
  { rewrite lookup_app_r by lia. rewrite Nat.add_comm, Nat.add_sub. by apply Hex. }
  split.
  { cbn [rows]. rewrite relabel_length, length_map. unfold stringified; cbn [rows].
    by rewrite length_map. }
  intros k i x Hk. cbn [rows]. rewrite relabel_lookup, list_lookup_fmap.
  unfold stringified at 1; cbn [rows]. rewrite list_lookup_fmap, Hk.
  cbn [fmap option_fmap option_map fst snd]. rewrite Z.add_0_l.
  set (x' := upd x "station_id" (VStr (str_of' (x "station_id")))).
  exists (merged_row "station_id" lcols rcols x' (head (matches "station_id" x' right))).
  split; [reflexivity|]. split; [|split].
  - rewrite merged_row_left; [done|done|done|]. apply Hl. by right.
  - intros c Hc Hne. rewrite merged_row_left; [|done|done|apply Hl; by left].
    unfold x', upd. apply String.eqb_neq in Hne. by rewrite Hne.
  - intros i2 r2 c Hin Heq Hc Hhas.
    destruct (matches_unique d2 rcols x Hnd) as [_ Hone]. cbn zeta in Hone.
    fold x' right in Hone. rewrite (Hone i2 r2 Hin Heq). cbn [head].
    rewrite merged_row_right; [|done|done|done|].
    + unfold upd. destruct (String.eqb_spec c "station_id") as [->|]; [|done].
      unfold geography in Hc.
      repeat (apply elem_of_cons in Hc as [Hc|Hc]; [done|]). by apply elem_of_nil in Hc.
    + apply list_elem_of_In, filter_In. split.
      * apply list_elem_of_In. unfold merge_columns, geography in *.
        by apply elem_of_cons; right.
      * unfold has_column, stringified; cbn [columns]. apply bool_decide_eq_true.
        apply elem_of_add_column. left. unfold has_column in Hhas.
        by apply bool_decide_eq_true in Hhas.
Qed.

(** X7. The join works on copies: every DataFrame object that existed
    before the call is exactly as it was (the two inputs included), the
    session and the notices are untouched, and the frame it returns is a
    new object. *)
Theorem join_latlon_leaves_inputs_unchanged (w : world) (df1 df2 : ref) :
  (∀ r d, frames w !! r = Some d →
     frames (join_latlon py_repr df1 df2 w).2 !! r = Some d)
  ∧ session_state (join_latlon py_repr df1 df2 w).2 = session_state w
  ∧ notices (join_latlon py_repr df1 df2 w).2 = notices w
  ∧ (∀ r, (join_latlon py_repr df1 df2 w).1 = Ok r → (length (frames w) <= r)%nat).
Proof.
  destruct (local_join_latlon (frames w) df1 df2 (session_state w) (notices w) w)
    as [(Hp & Hs & Hn) Hnew]; [done|].
  split; [|split; [done|split; [done|]]].
  - intros r d Hr. by eapply prefix_lookup_Some.
  - intros r Hr. by apply Hnew.
Qed.
End ReconcileRows.

Lemma join_latlon_row_per_status_witness :
  ∃ r m,
    (join_latlon plain_repr 0 1 (world_of [status_sample; info_sample])).1 = Ok r ∧
    frames (join_latlon plain_repr 0 1 (world_of [status_sample; info_sample])).2 !! r
      = Some m ∧
    length (rows m) = 2%nat ∧
    ∀ k i (x : row), rows status_sample !! k = Some (i, x) →
      ∃ y : row, rows m !! k = Some (Z.of_nat k, y) ∧
        y "station_id" = VStr (str_of plain_repr (x "station_id")) ∧
        (∀ c, c ∈ columns status_sample → c ≠ "station_id" → y c = x c) ∧
        (∀ i2 (r2 : row) c, (i2, r2) ∈ rows info_sample →
           str_of plain_repr (r2 "station_id") = str_of plain_repr (x "station_id") →
           c ∈ geography → has_column c info_sample = true → y c = r2 c).
Proof.
  apply (join_latlon_row_per_status plain_repr (world_of [status_sample; info_sample])
           0 1 status_sample info_sample); try reflexivity.
  - intros c Hc. unfold geography in Hc.
    repeat (apply elem_of_cons in Hc as [->|Hc]; [reflexivity|]).
    by apply elem_of_nil in Hc.
  - apply NoDup_singleton.
Defined.

Lemma join_latlon_leaves_inputs_unchanged_witness :
  frames (join_latlon plain_repr 0 1 (world_of [status_sample; info_sample])).2 !! 0%nat
    = Some status_sample
  ∧ frames (join_latlon plain_repr 0 1 (world_of [status_sample; info_sample])).2 !! 1%nat
    = Some info_sample.
Proof.
  split.
  - apply (proj1 (join_latlon_leaves_inputs_unchanged plain_repr
                    (world_of [status_sample; info_sample]) 0 1)). reflexivity.
  - apply (proj1 (join_latlon_leaves_inputs_unchanged plain_repr
                    (world_of [status_sample; info_sample]) 0 1)). reflexivity.
Defined.

(** ** The filter engine, predicate by predicate *)

Lemma bind_ok {A B : Type} (m : M A) (f : A → M B) w b w' :
  (m ≫= f) w = (Ok b, w') → ∃ a w1, m w = (Ok a, w1) ∧ f a w1 = (Ok b, w').
Proof.
  unfold mbind, M_bind. destruct (m w) as [[a|e] w1]; [eauto|done].
Qed.

Lemma py_ge_at_least n v b : py_ge (inject_Z n) v = Ok b → b = at_least n v.
Proof. unfold at_least. by intros ->. Qed.

(** One [df[df[c] >= n]] and one [df[df[c] > 0]] on a reference. *)
Lemma select_at_least c n r w d r' w' :
  frames w !! r = Some d →
  (s ← getitem r c; m ← lift (series_ge (inject_Z n) s); getitem_mask r m) w
    = (Ok r', w') →
  frames w' !! r' = Some (mkDataFrame (columns d)
                           (List.filter (λ ir, at_least n (ir.2 c)) (rows d)))
  ∧ frames w `prefix_of` frames w'.
Proof.
  intros Hd H. unfold getitem, getitem_mask, deref, alloc, lift, mbind, M_bind in H.
  rewrite Hd in H. unfold column in H. destruct (has_column c d); [|done].
  destruct (series_ge _ _) as [m|] eqn:Hm; [|done].
  rewrite Hd in H. injection H as <- <-. cbn [frames set_frames].
  split; [|by apply prefix_app_r].
  rewrite list_lookup_middle by done. f_equal.
  unfold series_ge in Hm.
  apply (traverse_map _ (λ iv : Z * value, at_least n iv.2)) in Hm.
  2:{ intros a b _. apply py_ge_at_least. }
  subst m. rewrite map_map. unfold boolean_index. f_equal.
  apply (take_rows_map (λ ir, at_least n (ir.2 c))).
Qed.

Lemma select_positive c r w d r' w' :
  frames w !! r = Some d →
  (s ← getitem r c; m ← lift (series_gt 0 s); getitem_mask r m) w = (Ok r', w') →
  frames w' !! r' = Some (mkDataFrame (columns d)
                           (List.filter (λ ir, is_positive (ir.2 c)) (rows d)))
  ∧ frames w `prefix_of` frames w'.
Proof.
  intros Hd H. unfold getitem, getitem_mask, deref, alloc, lift, mbind, M_bind in H.
  rewrite Hd in H.
  destruct (column c d) as [s|] eqn:Hs; [|done].
  destruct (series_gt 0 s) as [m|] eqn:Hm; [|done].
  rewrite Hd in H. injection H as <- <-. cbn [frames set_frames].
  split; [|by apply prefix_app_r].
  rewrite list_lookup_middle by done. f_equal. by apply (filter_positive c d s m).
Qed.

Section FilterSelection.
Variable min_bikes min_docks : Z.
Variable bike_type_value : option string.
Variable search_text : string.
Variable re_search : string → outcome (string → bool).
Variable name_is_object : bool.

#[local] Abbreviation kept' := (kept min_bikes min_docks bike_type_value search_text re_search).

Lemma select_name r w d r' w' :
  frames w !! r = Some d →
  (s ← getitem r "name"; m ← lift (str_contains re_search name_is_object search_text s);
   getitem_mask r m) w = (Ok r', w') →
  ∃ found, re_search search_text = Ok found ∧
  frames w' !! r' = Some (mkDataFrame (columns d)
                           (List.filter (λ ir, name_matches found (ir.2 "name")) (rows d)))
  ∧ frames w `prefix_of` frames w'.
Proof.
  intros Hd H. unfold getitem, getitem_mask, deref, alloc, lift, mbind, M_bind in H.
  rewrite Hd in H. unfold column in H. destruct (has_column "name" d); [|done].
  unfold str_contains in H. cbn [mbind outcome_bind] in H.
  unfold mbind, outcome_bind in H.
  destruct (str_accessor name_is_object _) as [[]|]; [|done].
  destruct (re_search search_text) as [found|]; [|done].
  rewrite Hd in H. injection H as <- <-. cbn [frames set_frames].
  exists found. split; [done|]. split; [|by apply prefix_app_r].
  rewrite list_lookup_middle by done. f_equal.
  rewrite map_map. unfold boolean_index. f_equal.
  apply (take_rows_map (λ ir, name_matches found (ir.2 "name"))).
Qed.

Lemma frame_eta (d : DataFrame) :
  d = mkDataFrame (columns d) (List.filter (λ _ : Z * row, true) (rows d)).
Proof. destruct d as [cols L]. cbn. by rewrite filter_all. Qed.

Lemma stage_bikes c n r w d r' w' :
  frames w !! r = Some d →
  (if (0 <? n)%Z
   then s ← getitem r c; m ← lift (series_ge (inject_Z n) s); getitem_mask r m
   else mret r) w = (Ok r', w') →
  frames w' !! r' = Some (mkDataFrame (columns d)
                           (List.filter (λ ir, if (0 <? n)%Z then at_least n (ir.2 c)
                                               else true) (rows d)))
  ∧ frames w `prefix_of` frames w'.
Proof.
  intros Hd H. destruct (0 <? n)%Z.
  - by eapply select_at_least.
  - injection H as <- <-. by rewrite <- frame_eta.
Qed.

Lemma stage_mode r w d r' w' :
  frames w !! r = Some d →
  match chosen_mode bike_type_value with
  | Some mode =>
      has ← contains_column mode r;
      if (has : bool)
      then s ← getitem r mode; m ← lift (series_gt 0 s); getitem_mask r m
      else d ← deref r; alloc (mkDataFrame (columns d) [])
  | None => mret r
  end w = (Ok r', w') →
  frames w' !! r' = Some (mkDataFrame (columns d)
                           (List.filter (λ ir, passes_mode bike_type_value (columns d) ir.2)
                              (rows d)))
  ∧ frames w `prefix_of` frames w'.
Proof.
  intros Hd H. unfold passes_mode. destruct (chosen_mode bike_type_value) as [mode|].
  - apply bind_ok in H as (has & w1 & Hhas & H).
    unfold contains_column, deref, mbind, M_bind in Hhas. rewrite Hd in Hhas.
    injection Hhas as <- <-. unfold has_column in H.
    destruct (bool_decide (mode ∈ columns d)).
    + by eapply select_positive.
    + unfold deref, alloc, mbind, M_bind in H. rewrite Hd in H.
      injection H as <- <-. cbn [frames set_frames]. split; [|by apply prefix_app_r].
      rewrite list_lookup_middle by done. do 2 f_equal.
      clear. induction (rows d); auto.
  - injection H as <- <-. by rewrite <- frame_eta.
Qed.

Lemma stage_search r w d r' w' :
  frames w !! r = Some d →
  (has ← (if truthy (VStr search_text) then contains_column "name" r else mret false);
   if (has : bool)
   then s ← getitem r "name"; m ← lift (str_contains re_search name_is_object search_text s);
        getitem_mask r m
   else mret r) w = (Ok r', w') →
  frames w' !! r' = Some (mkDataFrame (columns d)
                           (List.filter
                              (λ ir, passes_search search_text re_search (columns d) ir.2)
                              (rows d)))
  ∧ frames w `prefix_of` frames w'.
Proof.
  intros Hd H. unfold passes_search.
  apply bind_ok in H as (has & w1 & Hhas & H).
  destruct (truthy (VStr search_text)); cbn [andb].
  - unfold contains_column, deref, mbind, M_bind in Hhas. rewrite Hd in Hhas.
    injection Hhas as <- <-. unfold has_column in H.
    destruct (bool_decide ("name" ∈ columns d)).
    + destruct (select_name _ _ _ _ _ Hd H) as (found & -> & Hr & Hp). done.
    + injection H as <- <-. by rewrite <- frame_eta.
  - injection Hhas as <- <-. injection H as <- <-. by rewrite <- frame_eta.
Qed.

Lemma apply_filters_result df w d r w' :
  frames w !! df = Some d →
  apply_filters min_bikes min_docks bike_type_value search_text re_search name_is_object df w
    = (Ok r, w') →
  frames w' !! r
  = Some (mkDataFrame (columns d)
            (List.filter (λ ir, kept' (columns d) ir.2) (rows d))).
Proof.
  intros Hd H. unfold apply_filters in H.
  apply bind_ok in H as (r0 & w0 & Hcopy & H).
  assert (H0 : frames w0 !! r0 = Some d).
  { unfold DataFrame_copy, deref, alloc, mbind, M_bind in Hcopy. rewrite Hd in Hcopy.
    injection Hcopy as <- <-. cbn [frames set_frames]. by rewrite list_lookup_middle. }
  clear Hcopy.
  apply bind_ok in H as (r1 & w1 & H1 & H).
  apply (stage_bikes _ _ _ _ _ _ _ H0) in H1 as [H1 _].
  apply bind_ok in H as (r2 & w2 & H2 & H).
  apply (stage_bikes _ _ _ _ _ _ _ H1) in H2 as [H2 _]. cbn [columns rows] in H2.
  apply bind_ok in H as (r3 & w3 & H3 & H).
  apply (stage_mode _ _ _ _ _ H2) in H3 as [H3 _]. cbn [columns rows] in H3.
  assert (Hs : (has ← (if truthy (VStr search_text)
                        then contains_column "name" r3 else mret false);
                 if (has : bool)
                 then s ← getitem r3 "name";
                      m ← lift (str_contains re_search name_is_object search_text s);
                      getitem_mask r3 m
                 else mret r3) w3 = (Ok r, w')).
  { apply bind_ok in H as (has & w4 & Hhas & H).
    apply bind_ok in H as (r4 & w5 & Hr4 & H). injection H as <- <-.
    erewrite bind_run by exact Hhas. exact Hr4. }
  apply (stage_search _ _ _ _ _ H3) in Hs as [H4 _]. cbn [columns rows] in H4.
  rewrite H4, !filter_filter_and. do 2 f_equal.
  apply filter_ext_elem. intros ir _. unfold kept. by rewrite !andb_assoc.
Qed.







End FilterSelection.



(** The search by name needs names: on a name column that holds numbers
    only the accessor raises, whatever the dtype of the column. *)
Example apply_filters_numeric_names :
  let stations :=
    frame_of_records [VDict [("station_id", VStr "A"); ("name", VInt 42)];
                      VDict [("station_id", VStr "B"); ("name", VInt 7)]] in
  (apply_filters 0 0 None "a" substring_search true 0 (world_of [stations])).1
  = Raise AttributeError
  ∧ (apply_filters 0 0 None "a" substring_search false 0 (world_of [stations])).1
    = Raise AttributeError.
Proof. split; vm_compute; reflexivity. Qed.

(** ** The route adapter: what comes back *)


Section RoutingShape.
Variable py_repr : value → string.
Variable requests_get : string → outcome response.

End RoutingShape.


(** ** The marker colour *)

(** X10. On whole counts the marker is red exactly for no bike (0 or
    less), yellow exactly for 1 to 3 and green exactly from 4 on, a
    missing count is red, and more bikes never give a worse colour: at or
    above a green count every count is green, at or below a red one every
    count is red. *)
Theorem get_marker_color_bands :
  (∀ n : Z,
     get_marker_color (VInt n)
     = Ok (if (n <=? 0)%Z then "red" else if (n <=? 3)%Z then "yellow" else "green"))
  ∧ get_marker_color VNull = Ok "red"
  ∧ (∀ a b : Q, (a <= b)%Q →
       (get_marker_color (VFloat a) = Ok "green" → get_marker_color (VFloat b) = Ok "green")
       ∧ (get_marker_color (VFloat b) = Ok "red" → get_marker_color (VFloat a) = Ok "red")).
Proof.
  split; [|split].
  - intros n. unfold get_marker_color, py_gt, py_le, Qlt_bool, Qle_bool.
    cbn [as_number mbind outcome_bind inject_Z Qnum Qden].
    rewrite !Z.mul_1_r.
    destruct (Z.leb_spec n 0), (Z.leb_spec n 3), (Z.leb_spec 3 n), (Z.leb_spec 0 n);
      try lia; cbn; try reflexivity.
    all: destruct (Z.leb_spec n 3); try lia; reflexivity.
  - reflexivity.
  - intros a b Hab.
    assert (Hcol : ∀ q : Q,
              get_marker_color (VFloat q)
              = Ok (if Qle_bool q 0 then "red"
                    else if Qle_bool q 3 then "yellow" else "green")).
    { intros q. unfold get_marker_color, py_gt, py_le, Qlt_bool.
      cbn [as_number mbind outcome_bind].
      destruct (Qle_bool q 3) eqn:E3, (Qle_bool q 0) eqn:E0; cbn; try reflexivity.
      apply Qle_bool_iff in E0. assert (Qle_bool q 3 = true) as E; [|congruence].
      apply Qle_bool_iff. lra. }
    rewrite !Hcol.
    destruct (Qle_bool a 0) eqn:Ea0, (Qle_bool a 3) eqn:Ea3,
             (Qle_bool b 0) eqn:Eb0, (Qle_bool b 3) eqn:Eb3;
      split; intros H; try done;
      repeat match goal with
             | E : Qle_bool _ _ = true |- _ => apply Qle_bool_iff in E
             | E : Qle_bool ?x ?y = false |- _ =>
                 assert (¬ (x <= y)%Q) by (rewrite <- Qle_bool_iff; congruence); clear E
             end; lra.
Qed.

(** ** The feeds *)

Lemma at_contains_column r c w d :
  frames w !! r = Some d → contains_column c r w = (Ok (has_column c d), w).
Proof. intros H. unfold contains_column, deref, mbind, M_bind. by rewrite H. Qed.

Lemma at_is_empty r w d :
  frames w !! r = Some d → is_empty r w = (Ok (df_empty d), w).
Proof. intros H. unfold is_empty, deref, mbind, M_bind. by rewrite H. Qed.

Lemma at_getitem r c w d :
  frames w !! r = Some d → getitem r c w = (column c d, w).
Proof. intros H. unfold getitem, deref, lift, mbind, M_bind. by rewrite H. Qed.

Lemma at_setitem r c x w d :
  frames w !! r = Some d →
  setitem r c x w = (Ok tt, set_frames (λ h, <[r := assign_series c x d]> h) w).
Proof. intros H. unfold setitem, deref, store, mbind, M_bind. by rewrite H. Qed.

Lemma at_setitem_scalar r c v w d :
  frames w !! r = Some d →
  setitem_scalar r c v w = (Ok tt, set_frames (λ h, <[r := assign_scalar c v d]> h) w).
Proof. intros H. unfold setitem_scalar, deref, store, mbind, M_bind. by rewrite H. Qed.

Lemma at_updated r w d d' :
  frames w !! r = Some d → frames (set_frames (λ h, <[r := d']> h) w) !! r = Some d'.
Proof.
  intros H. cbn [frames set_frames]. apply list_lookup_insert_eq.
  by apply lookup_lt_Some in H.
Qed.

Lemma dangling r w : frames w !! r = None → deref r w = (Raise Dangling, w).
Proof. intros H. unfold deref. by rewrite H. Qed.

Lemma at_default r c w d :
  frames w !! r = Some d →
  ∃ w', (has ← contains_column c r;
         if negb has then setitem_scalar r c (VInt 0) else mret tt) w = (Ok tt, w')
        ∧ frames w' !! r = Some (defaulted c d).
Proof.
  intros H. erewrite bind_run by by apply at_contains_column.
  unfold defaulted. destruct (has_column c d); cbn [negb].
  - by exists w.
  - rewrite (at_setitem_scalar _ _ _ _ _ H). eexists. split; [done|]. by eapply at_updated.
Qed.

Section FeedResults.
Variable py_repr : value → string.
Variable urlopen_json : string → outcome value.
#[local] Abbreviation str_of' := (str_of py_repr).
#[local] Abbreviation stringified' := (stringified py_repr).
#[local] Abbreviation query := (query_station_status py_repr urlopen_json).
#[local] Abbreviation info := (get_station_latlon py_repr urlopen_json).

Lemma local_query_station_status h0 url data :
  urlopen_json url = Ok data → local h0 (newer h0) (query url).
Proof.
  intros Hurl. unfold query_station_status. rewrite Hurl.
  unfold synthesize, DataFrame_copy, reset_index, contains_column,
    getitem, setitem, setitem_scalar, getitem_mask, is_empty, new_frame.
  local_auto.
Qed.

(** The last statements of [query_station_status]: the two defaults and
    the string ids. *)
Lemma status_tail r w r' w' :
  (synthesize "mechanical" r;; synthesize "ebike" r;;
   s ← getitem r "station_id"; t ← lift (series_map (astype_str py_repr) s);
   setitem r "station_id" t;; mret r) w = (Ok r', w') →
  ∃ X, frames w !! r = Some X ∧ has_column "station_id" X = true ∧ r' = r ∧
    frames w' !! r = Some (stringified' (defaulted "ebike" (defaulted "mechanical" X))).
Proof.
  intros H. destruct (frames w !! r) as [X|] eqn:HX.
  2:{ unfold synthesize, contains_column in H.
      rewrite (bind_raise _ _ _ Dangling w) in H; [done|].
      rewrite (bind_raise _ _ _ Dangling w); [done|].
      rewrite (bind_raise _ _ _ Dangling w); [done|]. by apply dangling. }
  exists X. split; [done|].
  unfold synthesize in H.
  destruct (at_default r "mechanical" w X HX) as (w1 & Hm & H1).
  erewrite bind_run in H by exact Hm.
  destruct (at_default r "ebike" w1 _ H1) as (w2 & He & H2).
  erewrite bind_run in H by exact He.
  set (X2 := defaulted "ebike" (defaulted "mechanical" X)) in *.
  destruct (has_column "station_id" X2) eqn:Hc.
  2:{ rewrite (bind_raise _ _ _ (KeyError "station_id") w2) in H; [done|].
      rewrite (at_getitem _ _ _ _ H2). unfold column. by rewrite Hc. }
  destruct (stringify_station_id py_repr X2 Hc) as (s0 & t0 & Hs & Ht & Ha).
  erewrite bind_run in H by (rewrite (at_getitem _ _ _ _ H2), Hs; reflexivity).
  erewrite bind_run in H by (unfold lift; by rewrite Ht).
  erewrite bind_run in H by by eapply at_setitem.
  unfold mret, M_ret in H. injection H as <- <-.
  split; [|split; [done|]].
  - unfold X2, has_column in Hc. rewrite !columns_defaulted in Hc.
    apply bool_decide_eq_true in Hc. rewrite !elem_of_add_column in Hc.
    unfold has_column. apply bool_decide_eq_true. by destruct Hc as [[?|?]|?].
  - rewrite Ha. by eapply at_updated.
Qed.

Lemma stringified_rows (d : DataFrame) i (y : row) :
  (i, y) ∈ rows (stringified' d) →
  ∃ x : row, (i, x) ∈ rows d ∧ y "station_id" = VStr (str_of' (x "station_id")) ∧
    ∀ c, c ≠ "station_id" → y c = x c.
Proof.
  unfold stringified; cbn [rows]. intros Hin.
  apply list_elem_of_In, in_map_iff in Hin as ([j x] & [= -> <-] & Hin).
  exists x. split; [by apply list_elem_of_In|]. split; [done|].
  intros c Hc. unfold upd. apply String.eqb_neq in Hc. by rewrite Hc.
Qed.

(** The frame a status feed that answers gives. *)
Lemma query_station_status_frame url w data r w' :
  urlopen_json url = Ok data → query url w = (Ok r, w') →
  ∃ d, frames w' !! r = Some d ∧
    ((df_empty d = true ∧ feed_frame data = Ok d)
     ∨ (has_column "station_id" d = true ∧ has_column "mechanical" d = true ∧
        has_column "ebike" d = true ∧
        ∀ i (y : row), (i, y) ∈ rows d → ∃ s, y "station_id" = VStr s)).
Proof.
  intros Hurl H.
  unfold query_station_status in H. rewrite Hurl in H.
  apply bind_ok in H as (r0 & w0 & Hnewf & H).
  unfold new_frame in Hnewf. apply bind_ok in Hnewf as (d0 & w00 & Hd0 & Halloc).
  unfold lift in Hd0. injection Hd0 as Hd0 <-.
  unfold alloc in Halloc. injection Halloc as <- <-.
  assert (H0 : frames (set_frames (λ h, h ++ [d0]) w) !! length (frames w) = Some d0).
  { cbn [frames set_frames]. by rewrite list_lookup_middle. }
  erewrite bind_run in H by by eapply at_is_empty.
  destruct (df_empty d0) eqn:He.
  { injection H as <- <-. exists d0. split; [done|]. left. done. }
  do 11 (let a := fresh "a" in let v := fresh "v" in
         apply bind_ok in H as (a & v & _ & H)).
  apply status_tail in H as (X & HX & Hsid & -> & Hfin).
  eexists. split; [exact Hfin|]. right.
  assert (Hcols : ∀ c, c ∈ columns (stringified' (defaulted "ebike"
                                       (defaulted "mechanical" X)))
                       ↔ c ∈ columns X ∨ c = "mechanical" ∨ c = "ebike"
                         ∨ c = "station_id").
  { intros c. unfold stringified; cbn [columns].
    rewrite elem_of_add_column, !columns_defaulted, !elem_of_add_column. tauto. }
  unfold has_column. rewrite !bool_decide_eq_true, !Hcols.
  split; [auto|]. split; [auto|]. split; [auto|].
  intros i y Hin. apply stringified_rows in Hin as (x & _ & -> & _). by eexists.
Qed.

(** X11. When the status endpoint answers, the frame
    [query_station_status] returns is either the feed's own frame, when
    that is empty, or a frame that has the columns station_id, mechanical
    and ebike and whose station ids are all strings; it is a new object,
    and every frame that existed before, the session and the notices are
    untouched.  When the endpoint cannot be reached nothing is raised: the
    result is a new empty frame and the error message is shown. *)
Theorem query_station_status_output (url : string) (w : world) :
  (∀ data r, urlopen_json url = Ok data → (query url w).1 = Ok r →
     (length (frames w) <= r)%nat ∧
     (∀ r0 d0, frames w !! r0 = Some d0 → frames (query url w).2 !! r0 = Some d0) ∧
     session_state (query url w).2 = session_state w ∧
     notices (query url w).2 = notices w ∧
     ∃ d, frames (query url w).2 !! r = Some d ∧
       ((df_empty d = true ∧ feed_frame data = Ok d)
        ∨ (has_column "station_id" d = true ∧ has_column "mechanical" d = true ∧
           has_column "ebike" d = true ∧
           ∀ i (y : row), (i, y) ∈ rows d → ∃ s, y "station_id" = VStr s)))
  ∧ (urlopen_json url = Raise URLError →
     query url w
     = (Ok (length (frames w)),
        mkWorld (frames w ++ [NoFrame]) (session_state w)
                (notices w ++ [status_unreachable]))).
Proof.
  split.
  - intros data r Hurl Hr.
    destruct (local_query_station_status (frames w) url data Hurl
                (session_state w) (notices w) w) as [(Hp & Hs & Hn) Hnew]; [done|].
    split; [by apply Hnew|]. split; [intros; by eapply prefix_lookup_Some|].
    split; [done|]. split; [done|].
    destruct (query url w) as [o w'] eqn:H. cbn [fst snd] in *. subst o.
    exact (query_station_status_frame url w data r w' Hurl H).
  - intros Hurl. unfold query_station_status. by rewrite Hurl.
Qed.

(** X12. When the info endpoint answers with a non-empty frame that has
    station_id, [get_station_latlon] returns a new frame with the columns
    and labels of the feed's frame, row for row, in which every station id
    is the string of the feed's id and every other cell is the feed's; an
    empty feed frame is returned as it is; nothing else changes.  When
    the endpoint cannot be reached nothing is raised: the result is a new
    empty frame and the error message is shown. *)
Theorem get_station_latlon_output (url : string) (w : world) :
  (∀ data d0, urlopen_json url = Ok data → feed_frame data = Ok d0 →
     (df_empty d0 = true →
        info url w = (Ok (length (frames w)), set_frames (λ h, h ++ [d0]) w))
     ∧ (df_empty d0 = false → has_column "station_id" d0 = true →
        ∃ d, info url w = (Ok (length (frames w)), set_frames (λ h, h ++ [d]) w) ∧
          columns d = columns d0 ∧ length (rows d) = length (rows d0) ∧
          ∀ k i (x : row), rows d0 !! k = Some (i, x) →
            ∃ y : row, rows d !! k = Some (i, y) ∧
              y "station_id" = VStr (str_of' (x "station_id")) ∧
              ∀ c, c ≠ "station_id" → y c = x c))
  ∧ (urlopen_json url = Raise URLError →
     info url w
     = (Ok (length (frames w)),
        mkWorld (frames w ++ [NoFrame]) (session_state w)
                (notices w ++ [info_unreachable]))).
Proof.
  split.
  - intros data d0 Hurl Hd0. unfold get_station_latlon. rewrite Hurl.
    fold (feed_frame data). rewrite Hd0.
    assert (Hnew : new_frame (Ok d0) w
                   = (Ok (length (frames w)), set_frames (λ h, h ++ [d0]) w)) by done.
    assert (H0 : frames (set_frames (λ h, h ++ [d0]) w) !! length (frames w) = Some d0).
    { cbn [frames set_frames]. by rewrite list_lookup_middle. }
    erewrite bind_run by exact Hnew.
    erewrite bind_run by by eapply at_is_empty.
    split.
    + by intros ->.
    + intros -> Hc. cbn [negb].
      destruct (stringify_station_id py_repr d0 Hc) as (s0 & t0 & Hs & Ht & Ha).
      exists (stringified' d0). split.
      * erewrite (bind_run (_ ≫= _)).
        2:{ erewrite bind_run by (rewrite (at_getitem _ _ _ _ H0), Hs; reflexivity).
            erewrite bind_run by (unfold lift; by rewrite Ht).
            by eapply at_setitem. }
        unfold mret, M_ret, set_frames. cbn [frames session_state notices].
        rewrite Ha. do 2 f_equal.
        rewrite insert_app_r_alt by lia. by rewrite Nat.sub_diag.
      * unfold stringified; cbn [columns rows]. split.
        { unfold add_column. unfold has_column in Hc. by rewrite Hc. }
        split; [by rewrite length_map|].
        intros k i x Hk. rewrite list_lookup_fmap, Hk. cbn [fmap option_fmap option_map fst snd].
        eexists. split; [reflexivity|]. split; [done|].
        intros c Hne. unfold upd. apply String.eqb_neq in Hne. by rewrite Hne.
  - intros Hurl. unfold get_station_latlon. by rewrite Hurl.
Qed.
End FeedResults.

Lemma query_station_status_output_witness :
  (∃ d,
     frames (query_station_status plain_repr
               (λ _, Ok (status_feed [status_record "A" 0 1 5 3 1700000000;
                                      status_record "B" 1 1 4 9 1700000000]))
               NYC_STATION_STATUS_URL (world_of [])).2 !! 2%nat = Some d ∧
     ((df_empty d = true ∧
       feed_frame (status_feed [status_record "A" 0 1 5 3 1700000000;
                                status_record "B" 1 1 4 9 1700000000]) = Ok d)
      ∨ (has_column "station_id" d = true ∧ has_column "mechanical" d = true ∧
         has_column "ebike" d = true ∧
         ∀ i (y : row), (i, y) ∈ rows d → ∃ s, y "station_id" = VStr s)))
  ∧ query_station_status plain_repr (λ _, Raise URLError) NYC_STATION_STATUS_URL
      (world_of [])
    = (Ok 0%nat, mkWorld [NoFrame] ∅ [status_unreachable]).
Proof.
  split.
  - destruct (proj1 (query_station_status_output plain_repr
                       (λ _, Ok (status_feed [status_record "A" 0 1 5 3 1700000000;
                                              status_record "B" 1 1 4 9 1700000000]))
                       NYC_STATION_STATUS_URL (world_of []))
                _ 2%nat eq_refl eq_refl) as (_ & _ & _ & _ & Hd).
    exact Hd.
  - apply (proj2 (query_station_status_output plain_repr (λ _, Raise URLError)
                    NYC_STATION_STATUS_URL (world_of []))).
    reflexivity.
Defined.

Lemma get_station_latlon_output_witness :
  (∃ d,
     get_station_latlon plain_repr
       (λ _, Ok (status_feed [info_record "A" "W 42 St" (4075 # 100) (-(7398 # 100)) 20]))
       NYC_STATION_INFO_URL (world_of [])
     = (Ok 0%nat, set_frames (λ h, h ++ [d]) (world_of [])) ∧
     columns d = columns info_sample ∧ length (rows d) = 1%nat ∧
     ∀ k i (x : row), rows info_sample !! k = Some (i, x) →
       ∃ y : row, rows d !! k = Some (i, y) ∧
         y "station_id" = VStr (str_of plain_repr (x "station_id")) ∧
         ∀ c, c ≠ "station_id" → y c = x c)
  ∧ get_station_latlon plain_repr (λ _, Raise URLError) NYC_STATION_INFO_URL
      (world_of [])
    = (Ok 0%nat, mkWorld [NoFrame] ∅ [info_unreachable]).
Proof.
  split.
  - apply (proj2 (proj1 (get_station_latlon_output plain_repr
                           (λ _, Ok (status_feed [info_record "A" "W 42 St" (4075 # 100)
                                                    (-(7398 # 100)) 20]))
                           NYC_STATION_INFO_URL (world_of []))
                    _ info_sample eq_refl eq_refl)); reflexivity.
  - apply (proj2 (get_station_latlon_output plain_repr (λ _, Raise URLError)
                    NYC_STATION_INFO_URL (world_of []))).
    reflexivity.
Defined.

(** ** The snapshot of a run *)

Section SnapshotFacts.
Variable py_repr : value → string.
Variable urlopen_json : string → outcome value.
Variable to_numeric : value → value.
#[local] Abbreviation load := (load_station_data py_repr urlopen_json to_numeric).
#[local] Abbreviation filled' := (filled to_numeric).
#[local] Abbreviation coerced' := (coerced to_numeric).

Lemma filled_not_missing v : isna (filled' v) = false.
Proof. unfold filled. by destruct (isna (to_numeric v)) eqn:E. Qed.

Lemma coerce_step c r w w' :
  (has ← contains_column c r;
   if (has : bool)
   then s ← getitem r c;
        t ← lift (series_map (λ v, Ok (to_numeric v)) s);
        u ← lift (series_map fillna0 t);
        setitem r c u
   else mret tt) w = (Ok tt, w') →
  ∃ X, frames w !! r = Some X ∧ frames w' !! r = Some (coerced' c X).
Proof.
  intros H. destruct (frames w !! r) as [X|] eqn:HX.
  2:{ unfold contains_column in H.
      rewrite (bind_raise _ _ _ Dangling w) in H; [done|].
      rewrite (bind_raise _ _ _ Dangling w); [done|]. by apply dangling. }
  exists X. split; [done|].
  erewrite bind_run in H by by apply at_contains_column.
  unfold coerced. destruct (has_column c X) eqn:Hc.
  2:{ by injection H as <-. }
  apply bind_ok in H as (s & w1 & Hs & H).
  rewrite (at_getitem _ _ _ _ HX), (column_ok _ _ Hc) in Hs. injection Hs as <- <-.
  apply bind_ok in H as (t & w1 & Ht & H). unfold lift in Ht. injection Ht as Ht <-.
  apply bind_ok in H as (u & w1 & Hu & H). unfold lift in Hu. injection Hu as Hu <-.
  rewrite (at_setitem _ _ _ _ _ HX) in H. injection H as <-.
  rewrite (at_updated _ _ _ _ HX). f_equal.
  unfold series_map in Ht, Hu.
  apply (traverse_map _ (λ iv : Z * value, (iv.1, to_numeric iv.2))) in Ht;
    [|by intros a b _ [= <-]].
  apply (traverse_map _ (λ iv : Z * value,
                           (iv.1, if isna iv.2 then VInt 0 else iv.2))) in Hu.
  2:{ intros [i v] b _. cbn. unfold fillna0. destruct (isna v); by intros [= <-]. }
  subst t u. unfold assign_series. rewrite !map_map. cbn [fst snd].
  rewrite (set_cells_map c (λ ir, filled' (ir.2 c))).
  unfold add_column. unfold has_column in Hc. by rewrite Hc.
Qed.

Lemma coerce_loop l r w w' X :
  frames w !! r = Some X →
  for_each l
    (λ col,
       has ← contains_column col r;
       if (has : bool)
       then s ← getitem r col;
            t ← lift (series_map (λ v, Ok (to_numeric v)) s);
            u ← lift (series_map fillna0 t);
            setitem r col u
       else mret tt) w = (Ok tt, w') →
  frames w' !! r = Some (fold_left (λ d c, coerced' c d) l X).
Proof.
  revert w X. induction l as [|c l IH]; intros w X HX H; cbn [for_each fold_left] in *.
  - by injection H as <-.
  - apply bind_ok in H as ([] & w1 & Hstep & H).
    apply coerce_step in Hstep as (X' & HX' & H1).
    rewrite HX in HX'. injection HX' as <-. by eapply IH.
Qed.

Lemma coerced_columns c d : columns (coerced' c d) = columns d.
Proof. unfold coerced. by destruct (has_column c d). Qed.

Lemma fold_coerced_columns l d :
  columns (fold_left (λ d c, coerced' c d) l d) = columns d.
Proof.
  revert d. induction l as [|c l IH]; intros d; cbn; [done|].
  by rewrite IH, coerced_columns.
Qed.

Lemma coerced_elem c d i (y : row) :
  (i, y) ∈ rows (coerced' c d) →
  ∃ x : row, (i, x) ∈ rows d ∧ (∀ c', c' ≠ c → y c' = x c') ∧ (y c = x c ∨ isna (y c) = false).
Proof.
  unfold coerced. destruct (has_column c d).
  - cbn [rows]. intros Hin.
    apply list_elem_of_In, in_map_iff in Hin as ([j x] & [= -> <-] & Hin).
    exists x. split; [by apply list_elem_of_In|]. split.
    + intros c' Hne. unfold upd. apply String.eqb_neq in Hne. by rewrite Hne.
    + right. unfold upd. rewrite String.eqb_refl. apply filled_not_missing.
  - intros Hin. exists y. auto.
Qed.

Lemma coerced_fills c d i (y : row) :
  has_column c d = true → (i, y) ∈ rows (coerced' c d) → isna (y c) = false.
Proof.
  unfold coerced. intros ->. cbn [rows]. intros Hin.
  apply list_elem_of_In, in_map_iff in Hin as ([j x] & [= -> <-] & Hin).
  unfold upd. rewrite String.eqb_refl. apply filled_not_missing.
Qed.

Lemma fold_coerced_keeps l c d :
  (∀ i (y : row), (i, y) ∈ rows d → isna (y c) = false) →
  ∀ i (y : row), (i, y) ∈ rows (fold_left (λ d c, coerced' c d) l d) → isna (y c) = false.
Proof.
  revert d. induction l as [|a l IH]; intros d Hd; cbn [fold_left]; [done|].
  apply IH. intros i y Hin.
  destruct (coerced_elem a d i y Hin) as (x & Hx & Hother & Hsame).
  destruct (String.eqb_spec c a) as [->|Hne].
  - destruct Hsame as [->|?]; [by apply (Hd i)|done].
  - rewrite Hother by done. by apply (Hd i).
Qed.

Lemma fold_coerced_fills l c d :
  c ∈ l → has_column c d = true →
  ∀ i (y : row), (i, y) ∈ rows (fold_left (λ d c, coerced' c d) l d) → isna (y c) = false.
Proof.
  revert d. induction l as [|a l IH]; intros d Hin Hc; [by apply elem_of_nil in Hin|].
  cbn [fold_left].
  destruct (String.eqb_spec c a) as [->|Hne].
  - apply fold_coerced_keeps. intros i y. by apply coerced_fills.
  - apply elem_of_cons in Hin as [?|Hin]; [done|]. apply IH; [done|].
    unfold has_column in *. by rewrite coerced_columns.
Qed.

(** X13. Whenever [load_station_data] returns, the stations frame it
    returns is either empty or clean: it has the columns station_id and
    region_id, every station id is a string, and no cell of a numeric
    column it has (num_bikes_available, num_docks_available, mechanical,
    ebike, capacity) is missing. *)
Theorem load_station_data_clean (w : world) (status_df info_df stations_df : ref) :
  (load w).1 = Ok (status_df, info_df, stations_df) →
  ∃ d, frames (load w).2 !! stations_df = Some d ∧
    (df_empty d = true
     ∨ (has_column "station_id" d = true ∧ has_column "region_id" d = true ∧
        ∀ i (y : row), (i, y) ∈ rows d →
          (∃ s, y "station_id" = VStr s) ∧
          ∀ c, c ∈ numeric_columns → has_column c d = true → isna (y c) = false)).
Proof.
  intros Hr. destruct (load w) as [o w'] eqn:H. cbn [fst snd] in *. subst o.
  unfold load_station_data in H.
  apply bind_ok in H as (s & w1 & _ & H). apply bind_ok in H as (i0 & w2 & _ & H).
  apply bind_ok in H as (r & w3 & _ & H). apply bind_ok in H as (e & w4 & He & H).
  destruct (frames w3 !! r) as [X|] eqn:HX.
  2:{ unfold is_empty in He. by rewrite (bind_raise _ _ _ Dangling w3) in He
                                  by by apply dangling. }
  rewrite (at_is_empty _ _ _ HX) in He. injection He as <- <-.
  destruct (df_empty X) eqn:Hemp.
  { injection H as <- <- <- <-. exists X. split; [done|]. by left. }
  apply bind_ok in H as ([] & w4 & Hloop & H).
  apply (coerce_loop _ _ _ _ _ HX) in Hloop.
  set (X1 := fold_left (λ d c, coerced' c d) numeric_columns X) in *.
  apply bind_ok in H as (s0 & w5 & Hs0 & H).
  rewrite (at_getitem _ _ _ _ Hloop) in Hs0. injection Hs0 as Hs0 <-.
  assert (Hsid : has_column "station_id" X1 = true).
  { unfold column in Hs0. by destruct (has_column "station_id" X1). }
  destruct (stringify_station_id py_repr X1 Hsid) as (s1 & t1 & Hs1 & Ht1 & Ha1).
  rewrite Hs0 in Hs1. injection Hs1 as <-.
  apply bind_ok in H as (t0 & w5 & Ht0 & H). unfold lift in Ht0.
  rewrite Ht1 in Ht0. injection Ht0 as <- <-.
  apply bind_ok in H as ([] & w5 & Hset & H).
  rewrite (at_setitem _ _ _ _ _ Hloop), Ha1 in Hset. injection Hset as <-.
  pose proof (at_updated r w4 X1 (stringified py_repr X1) Hloop) as H2.
  set (X2 := stringified py_repr X1) in *.
  apply bind_ok in H as ([] & w6 & Hreg & H). injection H as <- <- <- <-.
  erewrite bind_run in Hreg by by eapply at_contains_column.
  assert (Hfin : ∃ d, frames w6 !! r = Some d ∧
            (∀ c, c ∈ columns d ↔ c ∈ columns X2 ∨ c = "region_id") ∧
            ∀ i (y : row), (i, y) ∈ rows d →
              ∃ x : row, (i, x) ∈ rows X2 ∧ ∀ c, c ≠ "region_id" → y c = x c).
  { destruct (has_column "region_id" X2) eqn:Hreg2.
    - apply bind_ok in Hreg as (s2 & w7 & Hs2 & Hreg).
      rewrite (at_getitem _ _ _ _ H2) in Hs2. injection Hs2 as Hs2 <-.
      rewrite (at_setitem _ _ _ _ _ H2) in Hreg. injection Hreg as <-.
      eexists. split; [by eapply at_updated|]. split.
      + intros c. cbn [assign_series columns]. apply elem_of_add_column.
      + intros i y. apply assign_series_elem.
    - rewrite (at_setitem_scalar _ _ _ _ _ H2) in Hreg. injection Hreg as <-.
      eexists. split; [by eapply at_updated|]. split.
      + intros c. cbn [assign_scalar columns]. apply elem_of_add_column.
      + intros i y. apply assign_scalar_elem. }
  destruct Hfin as (d & Hd & Hcols & Hrows). exists d. split; [done|]. right.
  assert (Hcols2 : ∀ c, c ∈ columns X2 ↔ c ∈ columns X ∨ c = "station_id").
  { intros c. unfold X2, stringified; cbn [columns].
    rewrite elem_of_add_column. unfold X1. by rewrite fold_coerced_columns. }
  unfold has_column. rewrite !bool_decide_eq_true, !Hcols, !Hcols2.
  split; [auto|]. split; [auto|].
  intros i y Hin. destruct (Hrows i y Hin) as (x2 & Hx2 & Hsame).
  apply stringified_rows in Hx2 as (x1 & Hx1 & Hid & Hother).
  split.
  - rewrite Hsame by done. rewrite Hid. by eexists.
  - intros c Hc Hhas. apply bool_decide_eq_true in Hhas.
    assert (c ≠ "region_id" ∧ c ≠ "station_id") as [Hn1 Hn2].
    { unfold numeric_columns in Hc.
      repeat (apply elem_of_cons in Hc as [->|Hc]; [done|]). by apply elem_of_nil in Hc. }
    rewrite Hsame, Hother by done.
    apply (fold_coerced_fills numeric_columns c X Hc) with (i := i); [|done].
    unfold has_column. apply bool_decide_eq_true.
    apply Hcols in Hhas as [Hhas|?]; [|done]. by apply Hcols2 in Hhas as [?|?].
Qed.

Lemma get_station_latlon_keeps url w :
  frames w `prefix_of` frames (get_station_latlon py_repr urlopen_json url w).2
  ∧ notices w `prefix_of` notices (get_station_latlon py_repr urlopen_json url w).2.
Proof.
  unfold get_station_latlon. destruct (urlopen_json url) as [data|e] eqn:Hurl.
  - assert (Hl : local (frames w) (newer (frames w))
                   (latlon ← new_frame (d ← subscript_key data "data";
                                        st ← subscript_key d "stations";
                                        DataFrame_of st);
                    e ← is_empty latlon;
                    (if negb e
                     then s ← getitem latlon "station_id";
                          t ← lift (series_map (astype_str py_repr) s);
                          setitem latlon "station_id" t
                     else mret tt);;
                    mret latlon)).
    { unfold getitem, setitem, is_empty, new_frame. local_auto. }
    destruct (Hl (session_state w) (notices w) w) as [(Hp & _ & Hn) _]; [done|].
    split; [done|]. by rewrite Hn.
  - destruct e; cbn; try done. split; by apply prefix_app_r.
Qed.

Lemma join_latlon_unavailable s i w ds :
  frames w !! s = Some ds →
  df_empty ds = true ∨ (∃ di, frames w !! i = Some di ∧ df_empty di = true) →
  join_latlon py_repr s i w
  = (Ok (length (frames w)), set_frames (λ h, h ++ [NoFrame]) w).
Proof.
  intros Hs Hempty. unfold join_latlon.
  erewrite bind_run by by eapply at_is_empty.
  destruct (df_empty ds).
  - by erewrite bind_run by reflexivity.
  - destruct Hempty as [?|(di & Hi & Hei)]; [done|].
    erewrite bind_run by by eapply at_is_empty. by rewrite Hei.
Qed.

(** X14. When an endpoint cannot be reached and the two feed calls
    return, [load_station_data] raises nothing: its stations frame is a
    new empty frame, left as the join made it, and the message of the
    unreachable endpoint is among the notices. *)
Theorem load_station_data_unavailable (w : world) (status_df info_df : ref)
    (w1 w2 : world) :
  query_station_status py_repr urlopen_json NYC_STATION_STATUS_URL w = (Ok status_df, w1) →
  get_station_latlon py_repr urlopen_json NYC_STATION_INFO_URL w1 = (Ok info_df, w2) →
  urlopen_json NYC_STATION_STATUS_URL = Raise URLError
  ∨ urlopen_json NYC_STATION_INFO_URL = Raise URLError →
  load w = (Ok (status_df, info_df, length (frames w2)),
            set_frames (λ h, h ++ [NoFrame]) w2)
  ∧ (urlopen_json NYC_STATION_STATUS_URL = Raise URLError →
     status_unreachable ∈ notices w2)
  ∧ (urlopen_json NYC_STATION_INFO_URL = Raise URLError →
     info_unreachable ∈ notices w2).
Proof.
  intros Hq Hi Hdown.
  pose proof (get_station_latlon_keeps NYC_STATION_INFO_URL w1) as [Hpre Hnot].
  rewrite Hi in Hpre, Hnot. cbn [snd] in Hpre, Hnot.
  assert (Hs : ∃ ds, frames w1 !! status_df = Some ds ∧
                 (urlopen_json NYC_STATION_STATUS_URL = Raise URLError →
                  df_empty ds = true ∧ status_unreachable ∈ notices w1)).
  { destruct (urlopen_json NYC_STATION_STATUS_URL) as [data|e] eqn:Hurl.
    - destruct (query_station_status_frame py_repr urlopen_json _ _ _ _ _ Hurl Hq)
        as (d & Hd & _).
      by exists d.
    - unfold query_station_status in Hq. rewrite Hurl in Hq.
      destruct e; try done. injection Hq as <- <-. exists NoFrame. split.
      + cbn. by apply list_lookup_middle.
      + intros _. split; [done|]. cbn. apply elem_of_app. right. by left. }
  destruct Hs as (ds & Hds & Hsdown).
  assert (Hds2 : frames w2 !! status_df = Some ds) by by eapply prefix_lookup_Some.
  assert (Hidown : urlopen_json NYC_STATION_INFO_URL = Raise URLError →
            frames w2 !! info_df = Some NoFrame ∧ info_unreachable ∈ notices w2).
  { intros Hurl. unfold get_station_latlon in Hi. rewrite Hurl in Hi.
    injection Hi as <- <-. split.
    - cbn. by apply list_lookup_middle.
    - cbn. apply elem_of_app. right. by left. }
  split; [|split].
  - unfold load_station_data.
    erewrite bind_run by exact Hq. erewrite bind_run by exact Hi.
    erewrite bind_run.
    2:{ apply (join_latlon_unavailable _ _ _ ds Hds2).
        destruct Hdown as [Hd|Hd].
        - left. by apply Hsdown.
        - right. exists NoFrame. split; [by apply Hidown|done]. }
    erewrite bind_run.
    2:{ eapply at_is_empty. cbn [frames set_frames]. by apply list_lookup_middle. }
    done.
  - intros Hd. destruct (Hsdown Hd) as [_ Hin].
    destruct Hnot as [k ->]. apply elem_of_app. by left.
  - intros Hd. by apply Hidown.
Qed.
End SnapshotFacts.

Lemma load_station_data_clean_witness :
  ∃ d, frames (load_station_data plain_repr
                 (two_feeds
                    (Ok (status_feed [status_record "A" 1 1 5 3 1700000000;
                                      status_record "B" 1 1 4 9 1700000000]))
                    (Ok (status_feed [info_record "A" "W 42 St" (4075 # 100)
                                        (-(7398 # 100)) 20])))
                 numbers_only (world_of [])).2 !! 7%nat = Some d ∧
    (df_empty d = true
     ∨ (has_column "station_id" d = true ∧ has_column "region_id" d = true ∧
        ∀ i (y : row), (i, y) ∈ rows d →
          (∃ s, y "station_id" = VStr s) ∧
          ∀ c, c ∈ numeric_columns → has_column c d = true → isna (y c) = false)).
Proof.
  apply (load_station_data_clean plain_repr
           (two_feeds
              (Ok (status_feed [status_record "A" 1 1 5 3 1700000000;
                                status_record "B" 1 1 4 9 1700000000]))
              (Ok (status_feed [info_record "A" "W 42 St" (4075 # 100)
                                  (-(7398 # 100)) 20])))
           numbers_only (world_of []) 2%nat 3%nat 7%nat).
  vm_compute. reflexivity.
Defined.

Lemma load_station_data_unavailable_witness :
  load_station_data plain_repr
    (two_feeds (Raise URLError)
       (Ok (status_feed [info_record "A" "W 42 St" (4075 # 100) (-(7398 # 100)) 20])))
    numbers_only (world_of [])
  = (Ok (0%nat, 1%nat, 2%nat),
     mkWorld [NoFrame;
              stringified plain_repr info_sample;
              NoFrame] ∅ [status_unreachable])
  ∧ status_unreachable ∈ [status_unreachable].
Proof.
  destruct (load_station_data_unavailable plain_repr
              (two_feeds (Raise URLError)
                 (Ok (status_feed [info_record "A" "W 42 St" (4075 # 100)
                                     (-(7398 # 100)) 20])))
              numbers_only (world_of []) 0%nat 1%nat
              (mkWorld [NoFrame] ∅ [status_unreachable])
              (mkWorld [NoFrame; stringified plain_repr info_sample] ∅
                 [status_unreachable])
              eq_refl eq_refl (or_introl eq_refl)) as (Hload & Hnote & _).
  split; [exact Hload|exact (Hnote eq_refl)].
Defined.

(** ** The session: a route needs a destination *)

Section RouteInvariant.
Variable bike_type_value : option string.
Variable stations_df : ref.
Variable geodesic_km : Q * Q → Q * Q → Q.
Variable py_repr : value → string.
Variable requests_get : string → outcome response.
Variable geolocator_geocode : string → outcome (option (Q * Q)).

#[local] Abbreviation lookup :=
  (lookup_and_store_nearest bike_type_value stations_df geodesic_km py_repr
     requests_get geolocator_geocode).
#[local] Abbreviation search_of' := (search_of bike_type_value stations_df geodesic_km).

Ltac session_simpl :=
  cbn [st_set session_state fst snd];
  repeat first [ rewrite stored_insert | rewrite stored_insert_ne by done ].

Lemma lookup_route_has_destination address lookup_type w :
  route_has_destination (session_state w) →
  route_has_destination (session_state (lookup address lookup_type w).2).
Proof.
  intros Hinv.
  destruct (geolocator_geocode address) as [[coords|]|e] eqn:Hgeo.
  2,3: by unfold lookup_and_store_nearest, geocode; rewrite Hgeo.
  rewrite (lookup_found _ _ _ _ _ _ _ _ _ _ Hgeo).
  set (w1 := (st_set "user_location" (tuple_of coords) w).2).
  pose proof (search_of_session bike_type_value stations_df geodesic_km
                lookup_type coords w1) as Hs.
  destruct (search_of' lookup_type coords w1) as [[nearest|e] w2] eqn:Hrun;
    cbn [snd] in Hs.
  - erewrite (bind_run (_ ≫= _)).
    2:{ erewrite bind_run by exact Hrun.
        erewrite bind_run by (symmetry; apply stores_session). reflexivity. }
    destruct nearest as [station|].
    + destruct (search_of_station _ _ _ _ _ _ _ _ Hrun) as (a & b & c & ->).
      cbn [truthy]. intros _.
      unfold mbind, M_bind, lift, st_set.
      destruct (run_osrm _ _ _ _) as [route|e]; cbn [snd session_state];
        destruct (String.eqb lookup_type "bike"); [left|right|left|right];
        by session_simpl.
    + intros Hroute. exfalso. revert Hroute.
      unfold mbind, M_bind, st_set; cbn [snd session_state].
      session_simpl. tauto.
  - erewrite (bind_raise (_ ≫= _)).
    2:{ erewrite bind_raise by exact Hrun. reflexivity. }
    cbn [snd]. rewrite Hs. unfold route_has_destination, w1 in *. by session_simpl.
Qed.
End RouteInvariant.

(** X15. In every reachable session state a stored route or duration
    comes with a stored destination: route_coordinates or route_duration
    is not None only when nearest_bike_station or nearest_dock_station is
    not None. *)
Theorem session_route_has_destination :
  ∀ s, reachable s → route_has_destination s.
Proof.
  intros s Hs. induction Hs as [|w btv sdf gk pr rg gg address fb fd Hs IH].
  - intros [H|H]; by destruct H.
  - unfold script.
    assert (Hinv : route_has_destination (session_state (session_defaults w).2)).
    { unfold route_has_destination in *.
      by rewrite !(λ k, proj2 (proj2 (session_defaults_stored w k))). }
    destruct (session_defaults_stored w "") as (Hok & _ & _).
    destruct (session_defaults w) as [o w0] eqn:Hdef. cbn [fst snd] in *. subst o.
    erewrite bind_run by exact Hdef. unfold dispatch.
    destruct (truthy (VStr address) && fb); [by apply lookup_route_has_destination|].
    destruct (truthy (VStr address) && fd); [by apply lookup_route_has_destination|done].
Qed.

Lemma session_route_has_destination_witness :
  route_has_destination
    (session_state
       (script None 0 planar_km plain_repr (osrm_reply sample_route)
          (λ _, Ok (Some times_square)) "Times Square" true false
          (world_of [mixed_stations])).2).
Proof.
  apply session_route_has_destination.
  apply (reachable_run (world_of [mixed_stations])). apply reachable_start.
Defined.

(** ** The bike search against the filter engine *)

Section SearchAndFilter.
Variable min_bikes min_docks : Z.
Variable bike_type_value : option string.
Variable re_search : string → outcome (string → bool).
Variable name_is_object : bool.
Variable geodesic_km : Q * Q → Q * Q → Q.

Lemma candidate_passes_mode latlon (d : DataFrame) (r : row) :
  bike_type_value = None ∨ bike_type_value = Some "mechanical"
  ∨ bike_type_value = Some "ebike" →
  bike_candidate geodesic_km latlon (bike_modes bike_type_value) d r = true →
  passes_mode bike_type_value (columns d) r = true.
Proof.
  intros Hbtv Hc. unfold bike_candidate in Hc. apply andb_true_iff in Hc as [Hm _].
  unfold passes_mode, bike_modes in *.
  destruct Hbtv as [->|[->| ->]]; cbn [chosen_mode truthy String.eqb negb] in *; [done|..];
    cbn [mode_filter] in Hm.
  - rewrite bool_decide_eq_true_2 in Hm by (apply work_columns_elem; auto).
    unfold work, fill in Hm.
    change (bool_decide ("mechanical" ∈ columns d)) with (has_column "mechanical" d).
    destruct (has_column "mechanical" d), (has_column "ebike" d); cbn in Hm; done.
  - rewrite bool_decide_eq_true_2 in Hm by (apply work_columns_elem; auto).
    unfold work, fill in Hm.
    change (bool_decide ("ebike" ∈ columns d)) with (has_column "ebike" d).
    destruct (has_column "mechanical" d), (has_column "ebike" d); cbn in Hm; done.
Qed.

(** X16. With the bike type the sidebar offers (any, mechanical or ebike)
    and no other predicate set, the station the bike search returns is
    always one of the rows the filter engine keeps for the same snapshot:
    the highlighted station is among the stations shown. *)
Theorem searched_station_is_shown (latlon : Q * Q) (df : ref) (w : world)
    (d : DataFrame) (res : list value) (r : ref) :
  frames w !! df = Some d →
  (min_bikes <= 0)%Z → (min_docks <= 0)%Z →
  bike_type_value = None ∨ bike_type_value = Some "mechanical"
  ∨ bike_type_value = Some "ebike" →
  (get_bike_availability geodesic_km latlon df (bike_modes bike_type_value) w).1
    = Ok (Some res) →
  (apply_filters min_bikes min_docks bike_type_value "" re_search name_is_object
     df w).1 = Ok r →
  ∃ d' i (y : row),
    frames (apply_filters min_bikes min_docks bike_type_value "" re_search
              name_is_object df w).2 !! r
      = Some d' ∧
    (i, y) ∈ rows d' ∧ res = station_of y ∧
    is_positive (y "num_bikes_available") = true.
Proof.
  intros Hd Hb Hk Hbtv Hsearch Hfilter.
  apply (get_bike_availability_survivor _ _ _ _ _ _ _ Hd) in Hsearch.
  destruct (nearest _ _) as [y|] eqn:Hn; [|done]. injection Hsearch as ->.
  apply nearest_filter_spec in Hn as (k & Hk' & Hc & _).
  rewrite list_lookup_fmap in Hk'.
  destruct (rows d !! k) as [[i y0]|] eqn:Hk0; [|done]. injection Hk' as ->.
  destruct (apply_filters _ _ _ _ _ _ _ _) as [o w'] eqn:H. cbn [fst snd] in *. subst o.
  apply (apply_filters_result _ _ _ _ _ _ _ _ _ _ _ Hd) in H.
  eexists _, i, y. split; [exact H|]. cbn [rows]. split; [|split; [done|]].
  - apply list_elem_of_In, filter_In. split.
    + apply list_elem_of_In. by eapply list_elem_of_lookup_2.
    + cbn [snd]. unfold kept.
      apply Z.ltb_ge in Hb, Hk. rewrite Hb, Hk.
      rewrite (candidate_passes_mode latlon d y Hbtv Hc). done.
  - unfold bike_candidate in Hc. by apply andb_true_iff in Hc as [_ ?].
Qed.
End SearchAndFilter.

Lemma searched_station_is_shown_witness :
  ∃ d' i (y : row),
    frames (apply_filters 0 0 (Some "ebike") "" substring_search true 0
              (world_of [mixed_stations])).2 !! 2%nat = Some d' ∧
    (i, y) ∈ rows d' ∧
    [VStr "Y"; VFloat (4076 # 100); VFloat (-(7399 # 100))] = station_of y ∧
    is_positive (y "num_bikes_available") = true.
Proof.
  apply (searched_station_is_shown 0 0 (Some "ebike") substring_search true planar_km
           times_square 0 (world_of [mixed_stations]) mixed_stations).
  - reflexivity.
  - lia.
  - lia.
  - by right; right.
  - vm_compute. reflexivity.
  - reflexivity.
Defined.

(** ** The status feed: duplicates *)

Lemma cell_eqb_sym a b : cell_eqb a b = cell_eqb b a.
Proof.
  destruct a as [| | | | | | | |[]], b as [| | | | | | | |[]]; cbn; try done;
    try apply String.eqb_sym; unfold Qeq_bool; try apply Z.eqb_sym;
    repeat match goal with b : bool |- _ => destruct b end; apply Z.eqb_sym.
Qed.

Lemma cells_eqb_sym a b : cells_eqb a b = cells_eqb b a.
Proof.
  revert b. induction a as [|x a IH]; intros [|y b]; cbn; try done.
  by rewrite cell_eqb_sym, IH.
Qed.

Lemma keep_first_kept (key : row → list value) seen rs a :
  a ∈ keep_first key seen rs →
  a ∈ rs ∧ existsb (cells_eqb (key a.2)) seen = false.
Proof.
  revert seen. induction rs as [|ir rs IH]; intros seen H; cbn in H.
  - by apply elem_of_nil in H.
  - destruct (existsb (cells_eqb (key ir.2)) seen) eqn:E.
    + destruct (IH _ H) as [Hin Hs]. split; [by right|done].
    + apply elem_of_cons in H as [->|H]; [split; [by left|done]|].
      destruct (IH _ H) as [Hin Hs]. split; [by right|].
      cbn in Hs. by apply orb_false_iff in Hs as [_ ?].
Qed.

Lemma keep_first_distinct (key : row → list value) seen rs k1 k2 a b :
  (k1 < k2)%nat →
  keep_first key seen rs !! k1 = Some a → keep_first key seen rs !! k2 = Some b →
  cells_eqb (key b.2) (key a.2) = false.
Proof.
  revert seen k1 k2. induction rs as [|ir rs IH]; intros seen k1 k2 Hlt H1 H2; cbn in *.
  - done.
  - destruct (existsb (cells_eqb (key ir.2)) seen) eqn:E; [by eapply IH|].
    destruct k1 as [|k1], k2 as [|k2]; try lia; cbn in H1, H2.
    + injection H1 as <-. apply list_elem_of_lookup_2, keep_first_kept in H2 as [_ Hs].
      cbn in Hs. by apply orb_false_iff in Hs as [? _].
    + eapply (IH _ k1 k2); [lia|done|done].
Qed.

Lemma keep_first_covers (key : row → list value) seen rs a :
  a ∈ rs →
  existsb (cells_eqb (key a.2)) seen = true
  ∨ a ∈ keep_first key seen rs
  ∨ ∃ b, b ∈ keep_first key seen rs ∧ cells_eqb (key a.2) (key b.2) = true.
Proof.
  revert seen. induction rs as [|ir rs IH]; intros seen H; [by apply elem_of_nil in H|].
  cbn. destruct (existsb (cells_eqb (key ir.2)) seen) eqn:E.
  - apply elem_of_cons in H as [->|H]; [by left|]. by apply IH.
  - apply elem_of_cons in H as [->|H]; [right; left; by left|].
    destruct (IH (key ir.2 :: seen) H) as [Hs|[Hin|(b & Hb & Heq)]].
    + cbn in Hs. apply orb_true_iff in Hs as [Hs|Hs]; [|by left].
      right. right. exists ir. split; [by left|done].
    + right. left. by right.
    + right. right. exists b. split; [by right|done].
Qed.

Lemma set_cells_labels c rs vals : map fst (set_cells c rs vals) = map fst rs.
Proof.
  revert vals. induction rs as [|ir rs IH]; intros vals; cbn; [done|]. by rewrite IH.
Qed.

Lemma assign_series_labels c s d :
  map fst (rows (assign_series c s d)) = map fst (rows d).
Proof. apply set_cells_labels. Qed.

Lemma assign_scalar_labels c v d :
  map fst (rows (assign_scalar c v d)) = map fst (rows d).
Proof. unfold assign_scalar. cbn [rows]. by rewrite map_map. Qed.

Lemma defaulted_labels c d : map fst (rows (defaulted c d)) = map fst (rows d).
Proof. rewrite rows_defaulted, map_map. done. Qed.

Lemma labels_lookup {A B} (l : list (Z * A)) (l' : list (Z * B)) k i y :
  map fst l = map fst l' → l !! k = Some (i, y) → ∃ x, l' !! k = Some (i, x).
Proof.
  intros E H. assert (map fst l !! k = Some i) as Hi.
  { by rewrite list_lookup_fmap, H. }
  rewrite E, list_lookup_fmap in Hi.
  destruct (l' !! k) as [[j x]|]; [|done]. injection Hi as ->. by exists x.
Qed.

Lemma labels_elem {A B} (l : list (Z * A)) (l' : list (Z * B)) i x :
  map fst l = map fst l' → (i, x) ∈ l' → ∃ y, (i, y) ∈ l.
Proof.
  intros E H. apply list_elem_of_lookup in H as [k H].
  destruct (labels_lookup l' l k i x (eq_sym E) H) as [y Hy].
  exists y. by eapply list_elem_of_lookup_2.
Qed.

Section StatusDuplicates.
Variable py_repr : value → string.
Variable urlopen_json : string → outcome value.

(** The labels of the frame of a status feed without breakdown column are
    those of the open rows of the feed that drop_duplicates keeps. *)
Lemma query_station_status_plain_labels h s n url data d0 r w' :
  urlopen_json url = Ok data → feed_frame data = Ok d0 →
  df_empty d0 = false →
  has_column "num_bikes_available_types" d0 = false →
  query_station_status py_repr urlopen_json url (mkWorld h s n) = (Ok r, w') →
  ∃ d, frames w' !! r = Some d ∧
    map fst (rows d)
    = map fst (keep_first update_key []
                 (List.filter (λ ir, open_station ir.2) (rows d0))).
Proof.
  intros Hurl Hd0 He Hno H. rewrite <- (app_nil_r h) in H.
  unfold query_station_status in H. rewrite Hurl in H.
  fold (feed_frame data) in H. rewrite Hd0 in H.
  unfold new_frame, mbind, M_bind, lift in H. rewrite run_alloc in H.
  cbn [length app Nat.add] in H.
  step H. rewrite He in H.
  step H. destruct (column "is_renting" d0) as [ren|] eqn:Eren; [|discriminate H].
  unfold column in Eren. destruct (has_column "is_renting" d0); [|discriminate Eren].
  injection Eren as <-.
  step H. destruct (column "is_returning" d0) as [ret|] eqn:Eret; [|discriminate H].
  unfold column in Eret. destruct (has_column "is_returning" d0); [|discriminate Eret].
  injection Eret as <-.
  unfold series_eq in H. rewrite !map_map in H. cbn [snd] in H.
  rewrite mask_and_map in H.
  step H.
  erewrite run_deref in H by reflexivity.
  destruct (drop_duplicates_of _ _) as [d2|] eqn:Edup; [|discriminate H].
  rewrite run_alloc in H. cbn [length app Nat.add] in H.
  step H.
  destruct (column "last_reported" d2) as [lr|] eqn:Elr; [|discriminate H].
  destruct (series_map to_datetime lr) as [t|] eqn:Et; [|discriminate H].
  step H.
  destruct (outcome_bind _ _ _ _) as [u|] eqn:Eu; [|discriminate H].
  step H. step H.
  assert (columns d2 = columns d0 ∧
          rows d2 = keep_first update_key []
                      (List.filter (λ ir, open_station ir.2) (rows d0))) as [Hcols Hrows].
  { unfold drop_duplicates_of in Edup. destruct (List.find _ _); [done|].
    injection Edup as <-. cbn [columns rows boolean_index].
    by rewrite take_rows_map. }
  rewrite has_column_assign_scalar, has_column_assign_series in H by done.
  replace (has_column "num_bikes_available_types" d2) with false in H
    by (unfold has_column in *; by rewrite Hcols).
  unfold mret, M_ret, synthesize in H.
  unfold mbind, M_bind in H.
  step H. step H. step H. step H. step H.
  destruct (column "station_id" _) as [sid|] eqn:Esid; [|discriminate H].
  destruct (series_map (astype_str py_repr) sid) as [t'|] eqn:Et'; [|discriminate H].
  step H. injection H as <- <-.
  eexists. split.
  { cbn [frames]. rewrite lookup_app_r by lia.
    replace (length h + 2 - length h)%nat with 2%nat by lia. reflexivity. }
  by rewrite assign_series_labels, !defaulted_labels, assign_scalar_labels,
    assign_series_labels, Hrows.
Qed.

(** X17. A status feed without breakdown column: two rows of the frame
    query_station_status returns never stand for the same update, the
    station_id and last_reported of their feed records differ; and every
    open record of the feed is in the frame under its label, or an open
    record with the same station_id and last_reported is. *)
Theorem query_station_status_one_row_per_update url w data d0 r w' :
  urlopen_json url = Ok data → feed_frame data = Ok d0 →
  has_column "is_renting" d0 = true →
  has_column "num_bikes_available_types" d0 = false →
  query_station_status py_repr urlopen_json url w = (Ok r, w') →
  ∃ d, frames w' !! r = Some d ∧
    (∀ k1 k2 i j (y y' : row),
       (k1 < k2)%nat → rows d !! k1 = Some (i, y) → rows d !! k2 = Some (j, y') →
       ∃ x x' : row, (i, x) ∈ rows d0 ∧ (j, x') ∈ rows d0 ∧ same_update x x' = false) ∧
    (∀ i (x : row), (i, x) ∈ rows d0 → open_station x = true →
       (∃ y : row, (i, y) ∈ rows d) ∨
       (∃ j (y x' : row), (j, y) ∈ rows d ∧ (j, x') ∈ rows d0 ∧
          open_station x' = true ∧ same_update x x' = true)).
Proof.
  intros Hurl Hd0 Hren Hno H. destruct w as [h s n].
  destruct (df_empty d0) eqn:He.
  { assert (rows d0 = []) as Hnil.
    { unfold df_empty in He. unfold has_column in Hren.
      apply bool_decide_eq_true in Hren.
      destruct (columns d0); [by apply elem_of_nil in Hren|].
      by destruct (rows d0). }
    rewrite <- (app_nil_r h) in H.
    unfold query_station_status in H. rewrite Hurl in H.
    fold (feed_frame data) in H. rewrite Hd0 in H.
    unfold new_frame, mbind, M_bind, lift in H. rewrite run_alloc in H.
    cbn [length app Nat.add] in H.
    step H. rewrite He in H. unfold mret, M_ret in H. injection H as <- <-.
    exists d0. split.
    { cbn. by rewrite lookup_app_r, Nat.add_0_r, Nat.sub_diag by lia. }
    rewrite Hnil. split.
    - intros k1 k2 i j y y' _ Hk. by rewrite lookup_nil in Hk.
    - intros i x Hin. by apply elem_of_nil in Hin. }
  destruct (query_station_status_plain_labels _ _ _ _ _ _ _ _ Hurl Hd0 He Hno H)
    as (d & Hd & Hlab).
  exists d. split; [exact Hd|].
  assert (∀ a, a ∈ List.filter (λ ir : Z * row, open_station ir.2) (rows d0) →
               a ∈ rows d0 ∧ open_station a.2 = true) as Hopen.
  { intros a Ha. apply list_elem_of_In, filter_In in Ha as [Ha Ho].
    by apply list_elem_of_In in Ha. }
  split.
  - intros k1 k2 i j y y' Hlt H1 H2.
    destruct (labels_lookup _ _ _ _ _ Hlab H1) as [x Hx].
    destruct (labels_lookup _ _ _ _ _ Hlab H2) as [x' Hx'].
    exists x, x'.
    pose proof (keep_first_distinct _ _ _ _ _ _ _ Hlt Hx Hx') as Hne.
    cbn [snd] in Hne.
    apply list_elem_of_lookup_2, keep_first_kept in Hx as [Hx _].
    apply list_elem_of_lookup_2, keep_first_kept in Hx' as [Hx' _].
    apply Hopen in Hx as [Hx _]. apply Hopen in Hx' as [Hx' _].
    repeat split; [done..|]. unfold same_update. by rewrite cells_eqb_sym.
  - intros i x Hin Ho.
    assert ((i, x) ∈ List.filter (λ ir : Z * row, open_station ir.2) (rows d0)) as Hf.
    { apply list_elem_of_In, filter_In. split; [by apply list_elem_of_In|done]. }
    destruct (keep_first_covers update_key [] _ _ Hf) as [Hs|[Hk|(b & Hb & Hsame)]].
    + discriminate Hs.
    + left. exact (labels_elem _ _ _ _ Hlab Hk).
    + right. destruct b as [j x'].
      destruct (labels_elem _ _ _ _ Hlab Hb) as [y Hy].
      apply keep_first_kept in Hb as [Hb _]. apply Hopen in Hb as [Hb Ho'].
      by exists j, y, x'.
Qed.

End StatusDuplicates.

Lemma query_station_status_one_row_per_update_witness :
  ∃ d0 d,
    feed_frame twice_reported_feed = Ok d0 ∧
    frames (query_station_status plain_repr (λ _, Ok twice_reported_feed)
              NYC_STATION_STATUS_URL (world_of [])).2 !! 2%nat = Some d ∧
    (∀ k1 k2 i j (y y' : row),
       (k1 < k2)%nat → rows d !! k1 = Some (i, y) → rows d !! k2 = Some (j, y') →
       ∃ x x' : row, (i, x) ∈ rows d0 ∧ (j, x') ∈ rows d0 ∧ same_update x x' = false) ∧
    (∀ i (x : row), (i, x) ∈ rows d0 → open_station x = true →
       (∃ y : row, (i, y) ∈ rows d) ∨
       (∃ j (y x' : row), (j, y) ∈ rows d ∧ (j, x') ∈ rows d0 ∧
          open_station x' = true ∧ same_update x x' = true)).
Proof.
  destruct (feed_frame twice_reported_feed) as [d0|] eqn:E0;
    [|vm_compute in E0; discriminate E0].
  destruct (query_station_status plain_repr (λ _, Ok twice_reported_feed)
              NYC_STATION_STATUS_URL (world_of [])) as [o w'] eqn:Eq.
  assert (o = Ok 2%nat) as ->.
  { vm_compute in Eq. by injection Eq as <- _. }
  assert (has_column "is_renting" d0 = true
          ∧ has_column "num_bikes_available_types" d0 = false) as [Hr Hn].
  { vm_compute in E0. injection E0 as <-. split; vm_compute; reflexivity. }
  destruct (query_station_status_one_row_per_update plain_repr
              (λ _, Ok twice_reported_feed) NYC_STATION_STATUS_URL (world_of [])
              twice_reported_feed d0 2%nat w' eq_refl E0 Hr Hn Eq)
    as (d & Hd & H1 & H2).
  exists d0, d. exact (conj eq_refl (conj Hd (conj H1 H2))).
Defined.
